(** * reserva-vuelos: the Transbank payment lambda and the seat classes of
      the flight search, embedded from

      - [backend/lambda/payments/transbank.py]
      - [backend/lambda/flights/search.py]

    Python values are an inductive type, Python floats are IEEE binary64
    numbers ([spec_float] with precision 53 and maximal exponent 1024, the
    operations of [SpecFloat]), exceptions are data, and everything outside
    the two files (clock, uuid, secrets, HTTP, the RDS data API, the Python
    runtime's [repr]) is a field of a [world] record that the code consults.
    Effects are threaded through a small state-and-exception monad whose
    state is the trace of calls made so far. *)

From Stdlib Require Import ZArith List String Ascii Bool Lia.
From Stdlib Require Import Floats.SpecFloat.
From Stdlib Require Import DecimalString.
Import ListNotations.

Set Warnings "-register-all".

Local Open Scope string_scope.
Local Open Scope Z_scope.

(* ================================================================= *)
(** ** Python values *)

(** JSON data as Python sees it after [json.loads]: keys of objects are
    strings, objects keep their insertion order. *)
Inductive value : Type :=
| VNone
| VBool (b : bool)
| VInt (z : Z)
| VFloat (f : spec_float)
| VStr (s : string)
| VList (l : list value)
| VDict (d : list (string * value)).

(** Exceptions.  The ones the two files raise themselves carry what their
    message is built from; [Raised] is an exception coming out of a
    collaborator (boto3, json, the Python runtime), [RequestException] one
    of [requests.exceptions.RequestException] (connection errors, timeouts,
    [raise_for_status]). *)
Inductive exn : Type :=
| KeyError (key : value)
| IndexError
| TypeError
| AttributeError
| ValueError
| OverflowError
| RequestException (detail : string)
| Raised (detail : string)
| UnsupportedMethod (method : string)
| InvalidResponse (response : value)
| NoResponse
| TokenRequired
| UnknownAction (action : value).

Inductive res (A : Type) : Type :=
| Ok (a : A)
| Raise (e : exn).
Arguments Ok {A} a.
Arguments Raise {A} e.

(** Truth value of an object ([if x:], [x and y]).  A NaN is true. *)
Definition float_is_zero (f : spec_float) : bool :=
  match f with S754_zero _ => true | _ => false end.

Definition truthy (v : value) : bool :=
  match v with
  | VNone => false
  | VBool b => b
  | VInt z => negb (z =? 0)
  | VFloat f => negb (float_is_zero f)
  | VStr s => negb (String.eqb s "")
  | VList l => match l with [] => false | _ => true end
  | VDict d => match d with [] => false | _ => true end
  end.

Fixpoint lookup (k : string) (d : list (string * value)) : option value :=
  match d with
  | [] => None
  | (k', v) :: d' => if String.eqb k k' then Some v else lookup k d'
  end.

(** [obj.get(k, default)]: only a dict has the method. *)
Definition py_get (obj : value) (k : string) (default : value) : res value :=
  match obj with
  | VDict d => Ok (match lookup k d with Some v => v | None => default end)
  | _ => Raise AttributeError
  end.

(** [obj[k]] with a string key. *)
Definition py_getitem (obj : value) (k : string) : res value :=
  match obj with
  | VDict d => match lookup k d with Some v => Ok v | None => Raise (KeyError (VStr k)) end
  | _ => Raise TypeError
  end.

(** [obj[i]] with a non-negative integer literal. *)
Definition py_index (obj : value) (i : nat) : res value :=
  match obj with
  | VList l => match nth_error l i with Some v => Ok v | None => Raise IndexError end
  | VStr s => match String.get i s with
              | Some c => Ok (VStr (String c EmptyString))
              | None => Raise IndexError
              end
  | VDict _ => Raise (KeyError (VInt (Z.of_nat i)))
  | _ => Raise TypeError
  end.

(* ================================================================= *)
(** ** Python floats: binary64 *)

Definition prec : Z := 53.
Definition emax : Z := 1024.

Definition fmul : spec_float -> spec_float -> spec_float := SFmul prec emax.
Definition fadd : spec_float -> spec_float -> spec_float := SFadd prec emax.

(** The literals of the two files, as the nearest binary64 numbers:
    [0.19 = 6845471433603154 * 2^-55], [0.1 = 7205759403792794 * 2^-56],
    [0.3 = 5404319552844595 * 2^-54]. *)
Definition f0_19 : spec_float := S754_finite false 6845471433603154 (-55).
Definition f0_1 : spec_float := S754_finite false 7205759403792794 (-56).
Definition f0_3 : spec_float := S754_finite false 5404319552844595 (-54).

(** [float(z)] for an [int]: correctly rounded, [OverflowError] when the
    integer is too large for a double. *)
Definition float_of_int (z : Z) : res spec_float :=
  match binary_normalize prec emax z 0 false with
  | S754_infinity _ => Raise OverflowError
  | f => Ok f
  end.

(** [int(f)]: truncation towards zero; [int(nan)] is a [ValueError],
    [int(inf)] an [OverflowError]. *)
Definition int_of_float (f : spec_float) : res Z :=
  match f with
  | S754_zero _ => Ok 0
  | S754_nan => Raise ValueError
  | S754_infinity _ => Raise OverflowError
  | S754_finite s m e =>
      let a := match e with
               | Zneg p => Zpos m / 2 ^ Zpos p
               | _ => Zpos m * 2 ^ e
               end in
      Ok (if s then - a else a)
  end.

(** [z <= f] and [z == f] between an [int] and a [float]: Python compares
    the two numbers exactly, without converting the integer. *)
Definition int_le_float (z : Z) (f : spec_float) : bool :=
  match f with
  | S754_nan => false
  | S754_infinity s => negb s
  | S754_zero _ => z <=? 0
  | S754_finite false m e =>
      match e with
      | Zneg p => z * 2 ^ Zpos p <=? Zpos m
      | _ => z <=? Zpos m * 2 ^ e
      end
  | S754_finite true m e =>
      match e with
      | Zneg p => z * 2 ^ Zpos p <=? Zneg m
      | _ => z <=? Zneg m * 2 ^ e
      end
  end.

Definition int_eq_float (z : Z) (f : spec_float) : bool :=
  match f with
  | S754_nan | S754_infinity _ => false
  | S754_zero _ => z =? 0
  | S754_finite s m e =>
      let sm := if s then Zneg m else Zpos m in
      match e with
      | Zneg p => z * 2 ^ Zpos p =? sm
      | _ => z =? sm * 2 ^ e
      end
  end.

(** The number behind a value that Python treats as a number. *)
Inductive number : Type :=
| NInt (z : Z)
| NFloat (f : spec_float).

Definition as_number (v : value) : option number :=
  match v with
  | VBool b => Some (NInt (if b then 1 else 0))
  | VInt z => Some (NInt z)
  | VFloat f => Some (NFloat f)
  | _ => None
  end.

Definition to_float (n : number) : res spec_float :=
  match n with
  | NInt z => float_of_int z
  | NFloat f => Ok f
  end.

(** [v * c] with [c] a float literal.  A string or a list times a float is
    a [TypeError], as is [None] or a dict. *)
Definition py_mul_float (v : value) (c : spec_float) : res spec_float :=
  match as_number v with
  | Some n => match to_float n with
              | Ok f => Ok (fmul f c)
              | Raise e => Raise e
              end
  | None => Raise TypeError
  end.

(** [v + t] with [t] a float. *)
Definition py_add_float (v : value) (t : spec_float) : res spec_float :=
  match as_number v with
  | Some n => match to_float n with
              | Ok f => Ok (fadd f t)
              | Raise e => Raise e
              end
  | None => Raise TypeError
  end.

(** [v == s] with [s] a string literal, [v == z] with [z] an integer
    literal. *)
Definition py_eq_str (v : value) (s : string) : bool :=
  match v with
  | VStr s' => String.eqb s' s
  | _ => false
  end.

Definition py_eq_int (v : value) (z : Z) : bool :=
  match as_number v with
  | Some (NInt z') => z' =? z
  | Some (NFloat f) => int_eq_float z f
  | None => false
  end.

(** [int(v)]: the string case is the runtime's parser, passed in. *)
Definition py_int (int_of_str : string -> res Z) (v : value) : res Z :=
  match v with
  | VBool b => Ok (if b then 1 else 0)
  | VInt z => Ok z
  | VFloat f => int_of_float f
  | VStr s => int_of_str s
  | _ => Raise TypeError
  end.

(** [str(v)]: the [repr] of floats and containers is the runtime's. *)
Definition py_str (py_repr : value -> string) (v : value) : string :=
  match v with
  | VNone => "None"
  | VBool true => "True"
  | VBool false => "False"
  | VInt z => NilZero.string_of_int (Z.to_int z)
  | VStr s => s
  | _ => py_repr v
  end.

(** [s.upper()] on ASCII letters, [s[:n]], [x[-4:]]. *)
Definition upper_ascii (c : ascii) : ascii :=
  let n := nat_of_ascii c in
  if (Nat.leb 97 n && Nat.leb n 122)%bool then ascii_of_nat (n - 32) else c.

Fixpoint upper (s : string) : string :=
  match s with
  | EmptyString => EmptyString
  | String c s' => String (upper_ascii c) (upper s')
  end.

Definition prefix_of (n : nat) (s : string) : string := substring 0 n s.

Definition last_four_str (s : string) : string :=
  substring (String.length s - 4) 4 s.

Definition py_last_four (v : value) : res value :=
  match v with
  | VStr s => Ok (VStr (last_four_str s))
  | VList l => Ok (VList (skipn (List.length l - 4) l))
  | _ => Raise TypeError
  end.

(* ================================================================= *)
(** ** The world outside the two files *)

(** The value of a parameter of an RDS Data API statement. *)
Inductive field : Type :=
| StringValue (v : value)
| LongValue (z : Z)
| IsNull.

(** What the code does to the outside, with the answer it got.  [EFinalize]
    marks an entry into [_process_successful_booking]. *)
Inductive event : Type :=
| EClient (name : string)
| ESecret (secret_id : string) (reply : res value)
| EHttp (method url : string) (headers : list (string * value)) (data : value)
        (reply : res value)
| EExecute (sql : string) (parameters : list (string * field)) (reply : res value)
| EFinalize (buy_order : value)
| ELogError (message : string) (e : exn)
| ELogInfo (message : string).

(** The trace lists the events so far, the most recent first. *)
Record world : Type := {
  environ : string -> option string;
  clock_ymd : nat -> string;
  clock_iso : nat -> string;
  uuid4_hex : nat -> string;
  boto3_client : string -> res unit;
  get_secret_value : list event -> string -> res value;
  json_loads : string -> res value;
  http_request : list event -> string -> string -> list (string * value) ->
                 value -> res value;
  execute_statement : list event -> string -> list (string * field) -> res value;
  py_repr : value -> string;
  int_of_str : string -> res Z
}.

(** [ticks] counts the looks at the clock and the uuids drawn, so that two
    of them need not agree. *)
Record state : Type := {
  trace : list event;
  ticks : nat
}.

(* ================================================================= *)
(** ** The monad: state and exceptions *)

Definition M (A : Type) : Type := state -> res A * state.

Definition ret {A} (a : A) : M A := fun s => (Ok a, s).

Definition raise {A} (e : exn) : M A := fun s => (Raise e, s).

Definition lift {A} (r : res A) : M A := fun s => (r, s).

Definition bind {A B} (m : M A) (k : A -> M B) : M B :=
  fun s => match m s with
           | (Ok a, s') => k a s'
           | (Raise e, s') => (Raise e, s')
           end.

(** [try: m  except Exception as e: h e] *)
Definition try_except {A} (m : M A) (h : exn -> M A) : M A :=
  fun s => match m s with
           | (Ok a, s') => (Ok a, s')
           | (Raise e, s') => h e s'
           end.

Definition emit (e : event) : M unit :=
  fun s => (Ok tt, {| trace := e :: trace s; ticks := ticks s |}).

Definition tick : M nat :=
  fun s => (Ok (ticks s), {| trace := trace s; ticks := S (ticks s) |}).

Definition history : M (list event) := fun s => (Ok (trace s), s).

Declare Scope monad_scope.
Delimit Scope monad_scope with monad.
Notation "x <- m ;; k" := (bind m (fun x => k))
  (at level 61, m at next level, right associativity) : monad_scope.
Notation "m ;;; k" := (bind m (fun _ => k))
  (at level 61, right associativity) : monad_scope.
Local Open Scope monad_scope.

(** The dictionaries the payment methods return: [{'success': True, ...}]
    with the remaining entries, or [{'success': False, 'error': str(e)}]. *)
Inductive outcome : Type :=
| Success (entries : list (string * value))
| Failure (error : exn).

(** The body of the handler's answer: the [json.dumps] of an outcome, or
    [{'success': False, 'error': ...}] with [str(e)] when [DEBUG] is
    ['true'] and ['Payment processing failed'] otherwise. *)
Inductive body : Type :=
| BodyResult (result : outcome)
| BodyError (shown : option exn).

Record http_response : Type := {
  statusCode : Z;
  headers : list (string * string);
  response_body : body
}.

Record service : Type := {
  environment : string;
  base_url : string;
  credentials : value;
  db_cluster_arn : value;
  db_secret_arn : value
}.

(* ================================================================= *)
(** ** transbank.py *)

Definition env_value (w : world) (name : string) : value :=
  match environ w name with Some s => VStr s | None => VNone end.

(** [{'stringValue': str(value)} if value is not None else {'isNull': True}] *)
Definition string_field (w : world) (v : value) : field :=
  match v with
  | VNone => IsNull
  | _ => StringValue (VStr (py_str (py_repr w) v))
  end.

Definition payment_types : list (string * string) :=
  [ ("VD", "Tarjeta de Débito");
    ("VN", "Tarjeta de Crédito");
    ("VC", "Tarjeta de Crédito");
    ("SI", "Sin Interés");
    ("S2", "2 cuotas sin interés");
    ("S3", "3 cuotas sin interés");
    ("N2", "2 cuotas con interés");
    ("N3", "3 cuotas con interés");
    ("N4", "4 cuotas con interés") ].

Fixpoint assoc (k : string) (t : list (string * string)) : option string :=
  match t with
  | [] => None
  | (k', d) :: t' => if String.eqb k k' then Some d else assoc k t'
  end.

(** [payment_types.get(payment_type_code, f'Tipo {payment_type_code}')]:
    a list or a dict is not hashable; any other key that is not a string
    is not in the table. *)
Definition _get_payment_type_description (w : world) (payment_type_code : value)
  : res string :=
  let default := ("Tipo " ++ py_str (py_repr w) payment_type_code)%string in
  match payment_type_code with
  | VStr s => Ok (match assoc s payment_types with Some d => d | None => default end)
  | VList _ | VDict _ => Raise TypeError
  | _ => Ok default
  end.

(** Lines 66-68 of [create_payment_transaction]:
    [tax_amount = base_amount * 0.19],
    [total_amount = int(base_amount + tax_amount)]. *)
Definition compute_total (base_amount : value) : res (spec_float * Z) :=
  match py_mul_float base_amount f0_19 with
  | Raise e => Raise e
  | Ok tax_amount =>
      match py_add_float base_amount tax_amount with
      | Raise e => Raise e
      | Ok s =>
          match int_of_float s with
          | Raise e => Raise e
          | Ok total_amount => Ok (tax_amount, total_amount)
          end
      end
  end.

(** [card_detail.get('card_number', '')[-4:]
     if card_detail.get('card_number') else None] *)
Definition last_four_of (card_detail : value) : res value :=
  match py_get card_detail "card_number" VNone with
  | Raise e => Raise e
  | Ok has_card =>
      if truthy has_card then
        match py_get card_detail "card_number" (VStr "") with
        | Raise e => Raise e
        | Ok number => py_last_four number
        end
      else Ok VNone
  end.

(** Lines 137-143 of [confirm_payment_transaction]. *)
Definition payment_status_of (status response_code : value) : string :=
  if (py_eq_str status "AUTHORIZED" && py_eq_int response_code 0)%bool then "approved"
  else if py_eq_str status "FAILED" then "rejected"
  else "pending".

Definition transactions_endpoint : string :=
  "/rswebpaytransaction/api/webpay/v1.2/transactions".

(** The three fixed statements (their whitespace is normalised here). *)
Definition sql_insert_transaction : string :=
  "INSERT INTO payment_transactions ( buy_order, token, amount, base_amount, tax_amount, flight_id, user_id, passenger_count, status, payment_method, created_at ) VALUES ( :buy_order, :token, :amount, :base_amount, :tax_amount, :flight_id, :user_id, :passenger_count, :status, 'transbank', :created_at )".

Definition sql_get_transaction : string :=
  "SELECT * FROM payment_transactions WHERE buy_order = :buy_order".

Definition sql_insert_booking : string :=
  "INSERT INTO bookings ( booking_id, flight_id, user_id, passenger_count, total_amount, payment_status, booking_status, payment_method, transaction_reference, booking_date, created_at ) VALUES ( :booking_id, :flight_id, :user_id, :passenger_count, :total_amount, 'paid', 'confirmed', 'transbank', :buy_order, NOW(), NOW() )".

(** The statement text [_update_transaction] builds from the keys of
    [update_data]. *)
Definition set_clauses (update_data : list (string * value)) : list string :=
  map (fun kv => (fst kv ++ " = :" ++ fst kv)%string) update_data.

Definition update_sql (update_data : list (string * value)) : string :=
  ("UPDATE payment_transactions SET " ++ String.concat ", " (set_clauses update_data)
   ++ " WHERE buy_order = :buy_order")%string.

Definition update_parameters (w : world) (buy_order : value)
  (update_data : list (string * value)) : list (string * field) :=
  ("buy_order", StringValue buy_order)
  :: map (fun kv => (fst kv, string_field w (snd kv))) update_data.

Section Transbank.

Variable w : world.

Definition now_ymd : M string := n <- tick ;; ret (clock_ymd w n).
Definition now_iso : M string := n <- tick ;; ret (clock_iso w n).
Definition uuid4 : M string := n <- tick ;; ret (uuid4_hex w n).

Definition client (name : string) : M unit :=
  emit (EClient name) ;;; lift (boto3_client w name).

Definition secret (secret_id : string) : M value :=
  h <- history ;;
  let reply := get_secret_value w h secret_id in
  emit (ESecret secret_id reply) ;;; lift reply.

Definition request (method url : string) (hdrs : list (string * value)) (data : value)
  : M value :=
  h <- history ;;
  let reply := http_request w h method url hdrs data in
  emit (EHttp method url hdrs data reply) ;;; lift reply.

Definition execute (sql : string) (parameters : list (string * field)) : M value :=
  h <- history ;;
  let reply := execute_statement w h sql parameters in
  emit (EExecute sql parameters reply) ;;; lift reply.

Definition log_error (message : string) (e : exn) : M unit :=
  emit (ELogError message e).

Definition log_info (message : string) : M unit :=
  emit (ELogInfo message).

Definition py_json_loads (v : value) : M value :=
  match v with
  | VStr s => lift (json_loads w s)
  | _ => raise TypeError
  end.

Definition default_credentials : value :=
  VDict [ ("commerce_code", VStr "597055555532");
          ("api_key",
           VStr "579B532A7440BB0C9079DED94D31EA1615BACEB56610332264630D42D0A36B1C") ].

Definition _get_transbank_credentials (environment : string) : M value :=
  try_except
    (let secret_name := ("vuelachile/transbank-" ++ environment)%string in
     response <- secret secret_name ;;
     s <- lift (py_getitem response "SecretString") ;;
     py_json_loads s)
    (fun e =>
       log_error "Error retrieving Transbank credentials" e ;;;
       if String.eqb environment "integration" then ret default_credentials
       else raise e).

(** [TransbankPaymentService.__init__] *)
Definition TransbankPaymentService : M service :=
  let environment :=
    match environ w "TRANSBANK_ENVIRONMENT" with Some e => e | None => "integration" end in
  client "secretsmanager" ;;;
  let base_url :=
    if String.eqb environment "production" then "https://webpay3g.transbank.cl"
    else "https://webpay3gint.transbank.cl" in
  credentials <- _get_transbank_credentials environment ;;
  client "rds-data" ;;;
  ret {| environment := environment;
         base_url := base_url;
         credentials := credentials;
         db_cluster_arn := env_value w "DB_CLUSTER_ARN";
         db_secret_arn := env_value w "DB_SECRET_ARN" |}.

Definition _call_transbank_api (self : service) (endpoint method : string) (data : value)
  : M value :=
  try_except
    (let url := (base_url self ++ endpoint)%string in
     commerce_code <- lift (py_getitem (credentials self) "commerce_code") ;;
     api_key <- lift (py_getitem (credentials self) "api_key") ;;
     let hdrs := [ ("Tbk-Api-Key-Id", commerce_code);
                   ("Tbk-Api-Key-Secret", api_key);
                   ("Content-Type", VStr "application/json") ] in
     if String.eqb method "POST" then request "POST" url hdrs data
     else if String.eqb method "PUT" then request "PUT" url hdrs data
     else if String.eqb method "GET" then request "GET" url hdrs VNone
     else raise (UnsupportedMethod method))
    (fun e =>
       match e with
       | RequestException _ =>
           log_error "Transbank API request failed" e ;;; raise e
       | _ => raise e
       end).

Definition _store_transaction (self : service) (transaction_data : list (string * value))
  : M unit :=
  try_except
    (let parameters := map (fun kv => (fst kv, string_field w (snd kv))) transaction_data in
     execute sql_insert_transaction parameters ;;; ret tt)
    (fun e => log_error "Error storing transaction" e ;;; raise e).

Definition _update_transaction (self : service) (buy_order : value)
  (update_data : list (string * value)) : M unit :=
  try_except
    (execute (update_sql update_data) (update_parameters w buy_order update_data) ;;;
     ret tt)
    (fun e => log_error "Error updating transaction" e ;;; raise e).

Definition _send_booking_confirmation (self : service) (booking_id : string) : M unit :=
  try_except
    (log_info ("Booking confirmation would be sent for: " ++ booking_id)%string)
    (fun e => log_error "Error sending booking confirmation" e).

(** [transaction[i]['stringValue']] *)
Definition string_value_at (transaction : value) (i : nat) : res value :=
  match py_index transaction i with
  | Ok cell => py_getitem cell "stringValue"
  | Raise e => Raise e
  end.

Definition _process_successful_booking (self : service) (buy_order : value) : M unit :=
  emit (EFinalize buy_order) ;;;
  try_except
    (response <- execute sql_get_transaction [("buy_order", StringValue buy_order)] ;;
     records <- lift (py_getitem response "records") ;;
     if truthy records then
       transaction <- lift (py_index records 0) ;;
       d <- now_ymd ;;
       u <- uuid4 ;;
       let booking_id := ("BK-" ++ d ++ "-" ++ upper (prefix_of 8 u))%string in
       flight_id <- lift (string_value_at transaction 4) ;;
       user_id <- lift (string_value_at transaction 5) ;;
       passengers <- lift (string_value_at transaction 6) ;;
       passenger_count <- lift (py_int (int_of_str w) passengers) ;;
       total_amount <- lift (string_value_at transaction 2) ;;
       let booking_params :=
         [ ("booking_id", StringValue (VStr booking_id));
           ("flight_id", StringValue (VStr (py_str (py_repr w) flight_id)));
           ("user_id", StringValue (VStr (py_str (py_repr w) user_id)));
           ("passenger_count", LongValue passenger_count);
           ("total_amount", StringValue (VStr (py_str (py_repr w) total_amount)));
           ("buy_order", StringValue buy_order) ] in
       execute sql_insert_booking booking_params ;;;
       _send_booking_confirmation self booking_id
     else ret tt)
    (fun e => log_error "Error processing successful booking" e).

Definition create_payment_transaction (self : service) (payment_data : value)
  : M outcome :=
  try_except
    (d <- now_ymd ;;
     u <- uuid4 ;;
     let buy_order := ("VC-" ++ d ++ "-" ++ upper (prefix_of 8 u))%string in
     base_amount <- lift (py_getitem payment_data "amount") ;;
     amounts <- lift (compute_total base_amount) ;;
     let tax_amount := fst amounts in
     let total_amount := snd amounts in
     u' <- uuid4 ;;
     session_id <- lift (py_get payment_data "session_id" (VStr u')) ;;
     return_url <- lift (py_get payment_data "return_url"
                           (VStr "https://vuelachile.cl/payment/return")) ;;
     let transaction_data :=
       VDict [ ("buy_order", VStr buy_order);
               ("session_id", session_id);
               ("amount", VInt total_amount);
               ("return_url", return_url) ] in
     response <- _call_transbank_api self transactions_endpoint "POST"
                   transaction_data ;;
     url <- lift (py_get response "url" VNone) ;;
     both <- (if truthy url then lift (py_get response "token" VNone) else ret url) ;;
     if truthy both then
       token <- lift (py_getitem response "token") ;;
       flight_id <- lift (py_get payment_data "flight_id" VNone) ;;
       user_id <- lift (py_get payment_data "user_id" VNone) ;;
       passenger_count <- lift (py_get payment_data "passenger_count" (VInt 1)) ;;
       created_at <- now_iso ;;
       _store_transaction self
         [ ("buy_order", VStr buy_order);
           ("token", token);
           ("amount", VInt total_amount);
           ("base_amount", base_amount);
           ("tax_amount", VFloat tax_amount);
           ("flight_id", flight_id);
           ("user_id", user_id);
           ("passenger_count", passenger_count);
           ("status", VStr "pending");
           ("created_at", VStr created_at) ] ;;;
       payment_url <- lift (py_getitem response "url") ;;
       token' <- lift (py_getitem response "token") ;;
       ret (Success [ ("transaction_id", VStr buy_order);
                      ("payment_url", payment_url);
                      ("token", token');
                      ("amount", VInt total_amount);
                      ("currency", VStr "CLP") ])
     else raise (InvalidResponse response))
    (fun e =>
       log_error "Error creating Transbank transaction" e ;;;
       ret (Failure e)).

Definition confirm_payment_transaction (self : service) (token : value) : M outcome :=
  try_except
    (response <- _call_transbank_api self
                   (transactions_endpoint ++ "/" ++ py_str (py_repr w) token)%string
                   "PUT" VNone ;;
     if truthy response then
       vci <- lift (py_get response "vci" VNone) ;;
       amount <- lift (py_get response "amount" VNone) ;;
       status <- lift (py_get response "status" VNone) ;;
       buy_order <- lift (py_get response "buy_order" VNone) ;;
       session_id <- lift (py_get response "session_id" VNone) ;;
       card_detail <- lift (py_get response "card_detail" (VDict [])) ;;
       accounting_date <- lift (py_get response "accounting_date" VNone) ;;
       transaction_date <- lift (py_get response "transaction_date" VNone) ;;
       authorization_code <- lift (py_get response "authorization_code" VNone) ;;
       payment_type_code <- lift (py_get response "payment_type_code" VNone) ;;
       response_code <- lift (py_get response "response_code" VNone) ;;
       installments_number <- lift (py_get response "installments_number" VNone) ;;
       let payment_status := payment_status_of status response_code in
       card_number <- lift (py_get card_detail "card_number" VNone) ;;
       payment_type <- lift (_get_payment_type_description w payment_type_code) ;;
       confirmed_at <- now_iso ;;
       _update_transaction self buy_order
         [ ("status", VStr payment_status);
           ("authorization_code", authorization_code);
           ("response_code", response_code);
           ("transaction_date", transaction_date);
           ("accounting_date", accounting_date);
           ("card_number", card_number);
           ("installments", installments_number);
           ("payment_type", VStr payment_type);
           ("confirmed_at", VStr confirmed_at) ] ;;;
       (if String.eqb payment_status "approved"
        then _process_successful_booking self buy_order
        else ret tt) ;;;
       last_four <- lift (last_four_of card_detail) ;;
       card_type <- lift (_get_payment_type_description w payment_type_code) ;;
       ret (Success [ ("transaction_id", buy_order);
                      ("status", VStr payment_status);
                      ("amount", amount);
                      ("authorization_code", authorization_code);
                      ("card_info", VDict [ ("last_four", last_four);
                                            ("card_type", VStr card_type) ]);
                      ("transaction_date", transaction_date);
                      ("installments", installments_number) ])
     else raise NoResponse)
    (fun e =>
       log_error "Error confirming Transbank transaction" e ;;;
       ret (Failure e)).

Definition ok_headers : list (string * string) :=
  [ ("Content-Type", "application/json");
    ("Access-Control-Allow-Origin", "*");
    ("Access-Control-Allow-Headers",
     "Content-Type,X-Amz-Date,Authorization,X-Api-Key,X-Amz-Security-Token");
    ("Access-Control-Allow-Methods", "GET,POST,OPTIONS") ].

Definition error_headers : list (string * string) :=
  [ ("Content-Type", "application/json");
    ("Access-Control-Allow-Origin", "*") ].

(** [lambda_handler(event, context)]; the event is the dict the Lambda
    runtime passes. *)
Definition lambda_handler (event : list (string * value)) : M http_response :=
  try_except
    (request_body <- match lookup "body" event with
                     | Some (VStr s) => lift (json_loads w s)
                     | Some b => ret b
                     | None => ret (VDict event)
                     end ;;
     payment_service <- TransbankPaymentService ;;
     action <- lift (py_get request_body "action" (VStr "create")) ;;
     result <- (if py_eq_str action "create" then
                  payment_data <- lift (py_get request_body "payment_data" (VDict [])) ;;
                  create_payment_transaction payment_service payment_data
                else if py_eq_str action "confirm" then
                  token <- lift (py_get request_body "token" VNone) ;;
                  if truthy token
                  then confirm_payment_transaction payment_service token
                  else raise TokenRequired
                else raise (UnknownAction action)) ;;
     ret {| statusCode := 200;
            headers := ok_headers;
            response_body := BodyResult result |})
    (fun e =>
       log_error "Payment processing error" e ;;;
       ret {| statusCode := 500;
              headers := error_headers;
              response_body :=
                BodyError (match environ w "DEBUG" with
                           | Some d => if String.eqb d "true" then Some e else None
                           | None => None
                           end) |}).

End Transbank.

(* ================================================================= *)
(** ** search.py *)

(** [FlightSearchService.determine_booking_class(available_seats: int,
    total_seats: int)] *)
Definition determine_booking_class (available_seats total_seats : Z) : res string :=
  if available_seats =? 0 then Ok "sold_out"
  else
    match py_mul_float (VInt total_seats) f0_1 with
    | Raise e => Raise e
    | Ok tenth =>
        if int_le_float available_seats tenth then Ok "limited"
        else
          match py_mul_float (VInt total_seats) f0_3 with
          | Raise e => Raise e
          | Ok three_tenths =>
              if int_le_float available_seats three_tenths then Ok "moderate"
              else Ok "available"
          end
    end.

(* ================================================================= *)
(** * Observations, summaries and worlds

    What the statements of the second half speak about: predicates on
    events, the shape of the runs of create and confirm, worlds to run the
    code in, and the seat classes by the exact ratio. *)

(** ** Events *)

Definition is_execute (ev : event) : bool :=
  match ev with EExecute _ _ _ => true | _ => false end.

Definition is_http (ev : event) : bool :=
  match ev with EHttp _ _ _ _ _ => true | _ => false end.

Definition is_finalize (ev : event) : bool :=
  match ev with EFinalize _ => true | _ => false end.

Definition is_booking_insert (ev : event) : bool :=
  match ev with
  | EExecute sql _ _ => String.eqb sql sql_insert_booking
  | _ => false
  end.

Fixpoint field_of (name : string) (ps : list (string * field)) : option field :=
  match ps with
  | [] => None
  | (k, f) :: ps' => if String.eqb name k then Some f else field_of name ps'
  end.

(** The gateway created the transaction: its answer is a dict whose [url]
    and [token] are both true, the test of line 81. *)
Definition gateway_created (reply : res value) : bool :=
  match reply with
  | Ok (VDict d) =>
      match lookup "url" d, lookup "token" d with
      | Some u, Some t => truthy u && truthy t
      | _, _ => false
      end
  | _ => false
  end.

Definition is_gateway_success (ev : event) : bool :=
  match ev with EHttp _ _ _ _ reply => gateway_created reply | _ => false end.

(** The events [_process_successful_booking] can add after its entry. *)
Definition is_finalizer_event (ev : event) : bool :=
  match ev with
  | EExecute sql _ _ =>
      String.eqb sql sql_get_transaction || String.eqb sql sql_insert_booking
  | ELogError _ _ | ELogInfo _ => true
  | _ => false
  end.

(** ** The calls of the gateway and of the database, in closed form *)

Definition creating_failed : string := "Error creating Transbank transaction".
Definition storing_failed : string := "Error storing transaction".
Definition confirming_failed : string := "Error confirming Transbank transaction".
Definition updating_failed : string := "Error updating transaction".
Definition processing_failed : string := "Payment processing error".

(** What [_call_transbank_api] logs for a reply. *)
Definition api_log (reply : res value) : list event :=
  match reply with
  | Raise (RequestException d) =>
      [ELogError "Transbank API request failed" (RequestException d)]
  | _ => []
  end.

Definition failure_log (message : string) {A} (reply : res A) : list event :=
  match reply with
  | Raise e => [ELogError message e]
  | Ok _ => []
  end.

Definition api_headers (self : service) : res (list (string * value)) :=
  match py_getitem (credentials self) "commerce_code" with
  | Raise e => Raise e
  | Ok commerce_code =>
      match py_getitem (credentials self) "api_key" with
      | Raise e => Raise e
      | Ok api_key =>
          Ok [ ("Tbk-Api-Key-Id", commerce_code);
               ("Tbk-Api-Key-Secret", api_key);
               ("Content-Type", VStr "application/json") ]
      end
  end.

Definition sent (w : world) (st : state) (method url : string)
  (hdrs : list (string * value)) (data : value) : res value * state :=
  let reply := http_request w (trace st) method url hdrs data in
  (reply, {| trace := (api_log reply ++ EHttp method url hdrs data reply :: trace st)%list;
             ticks := ticks st |}).

Definition executed (w : world) (st : state) (message sql : string)
  (ps : list (string * field)) : res unit * state :=
  let reply := execute_statement w (trace st) sql ps in
  (match reply with Ok _ => Ok tt | Raise e => Raise e end,
   {| trace := (failure_log message reply ++ EExecute sql ps reply :: trace st)%list;
      ticks := ticks st |}).

(** ** The runs of create *)

(** Why a create stops before it calls the gateway. *)
Definition stopped_before_gateway (self : service) (payment_data : value) (e : exn)
  : Prop :=
  py_getitem payment_data "amount" = Raise e
  \/ (exists base, py_getitem payment_data "amount" = Ok base
                   /\ compute_total base = Raise e)
  \/ api_headers self = Raise e.

(** The result [r] of a create and the events [new] it adds: it fails
    before the gateway is called, or fails on the gateway's answer, or
    stores the row and then fails or succeeds. *)
Definition create_summary (w : world) (self : service) (payment_data : value)
  (r : res outcome) (new : list event) : Prop :=
  (exists e, r = Ok (Failure e) /\ new = [ELogError creating_failed e]
             /\ stopped_before_gateway self payment_data e)
  \/
  exists base tax total hdrs data reply,
    py_getitem payment_data "amount" = Ok base /\
    compute_total base = Ok (tax, total) /\
    py_getitem data "amount" = Ok (VInt total) /\
    let http := EHttp "POST" (base_url self ++ transactions_endpoint) hdrs data reply in
    ((gateway_created reply = false /\
      exists e, r = Ok (Failure e) /\
                new = (ELogError creating_failed e :: api_log reply ++ [http])%list)
     \/
     (gateway_created reply = true /\
      exists ps answer,
        field_of "amount" ps = Some (string_field w (VInt total)) /\
        let insert := EExecute sql_insert_transaction ps answer in
        ((exists e, answer = Raise e /\ r = Ok (Failure e) /\
                    new = [ELogError creating_failed e;
                           ELogError storing_failed e; insert; http])
         \/
         (exists v entries, answer = Ok v /\ r = Ok (Success entries) /\
                            lookup "amount" entries = Some (VInt total) /\
                            new = [insert; http])))).

(** ** The runs of confirm *)

(** The text of the update statement of [confirm_payment_transaction]:
    the keys of its [update_data] are fixed. *)
Definition confirm_update_sql : string :=
  Eval cbv in
    update_sql [ ("status", VNone); ("authorization_code", VNone);
                 ("response_code", VNone); ("transaction_date", VNone);
                 ("accounting_date", VNone); ("card_number", VNone);
                 ("installments", VNone); ("payment_type", VNone);
                 ("confirmed_at", VNone) ].

(** [response.get(k)], [response.get('card_detail', {})] and the status of
    lines 137-143 for the dict [rd] of a gateway answer. *)
Definition entry (rd : list (string * value)) (k : string) : value :=
  match lookup k rd with Some v => v | None => VNone end.

Definition card_detail_of (rd : list (string * value)) : value :=
  match lookup "card_detail" rd with Some v => v | None => VDict [] end.

Definition status_of (rd : list (string * value)) : string :=
  payment_status_of (entry rd "status") (entry rd "response_code").

Definition confirm_url (w : world) (self : service) (token : value) : string :=
  (base_url self ++ transactions_endpoint ++ "/" ++ py_str (py_repr w) token)%string.

(** The gateway's answer is a dict that lines 137-143 classify [approved]. *)
Definition classified_approved (ev : event) : bool :=
  match ev with
  | EHttp _ _ _ _ (Ok (VDict rd)) => String.eqb (status_of rd) "approved"
  | _ => false
  end.

(** The update of the transaction row was answered. *)
Definition is_update_done (ev : event) : bool :=
  match ev with
  | EExecute sql _ (Ok _) => String.eqb sql confirm_update_sql
  | _ => false
  end.

(** What the finalizer contributes to a run, by the status. *)
Definition finalizer_part (status : string) (buy_order : value) (fin : list event)
  : Prop :=
  if String.eqb status "approved"
  then exists evs, fin = (evs ++ [EFinalize buy_order])%list
                   /\ forallb is_finalizer_event evs = true
  else fin = [].

(** The result [r] of a confirm and the events [new] it adds: it fails
    before the update, or the update raises, or the update is answered,
    the finalizer runs if the status is [approved], and the response is
    built. *)
Definition confirm_summary (w : world) (self : service) (token : value) (st : state)
  (r : res outcome) (new : list event) : Prop :=
  (exists e, r = Ok (Failure e) /\ existsb is_execute new = false
             /\ existsb is_finalize new = false)
  \/
  exists hdrs rd ps answer,
    let http := EHttp "PUT" (confirm_url w self token) hdrs VNone (Ok (VDict rd)) in
    let update := EExecute confirm_update_sql ps answer in
    http_request w (trace st) "PUT" (confirm_url w self token) hdrs VNone
    = Ok (VDict rd) /\
    field_of "status" ps = Some (StringValue (VStr (status_of rd))) /\
    answer = execute_statement w (http :: trace st) confirm_update_sql ps /\
    ((exists e, answer = Raise e /\ r = Ok (Failure e) /\
                new = [ELogError confirming_failed e; ELogError updating_failed e;
                       update; http])
     \/
     (exists v fin,
         answer = Ok v /\
         finalizer_part (status_of rd) (entry rd "buy_order") fin /\
         match last_four_of (card_detail_of rd) with
         | Raise e => r = Ok (Failure e) /\
                      new = (ELogError confirming_failed e :: fin ++ [update; http])%list
         | Ok _ => exists entries,
                     r = Ok (Success entries) /\
                     lookup "status" entries = Some (VStr (status_of rd)) /\
                     new = (fin ++ [update; http])%list
         end)).

(** ** The handler *)

(** The request body the handler works on, lines 363-366. *)
Definition request_body (w : world) (event : list (string * value)) : res value :=
  match lookup "body" event with
  | Some (VStr s) => json_loads w s
  | Some b => Ok b
  | None => Ok (VDict event)
  end.

Definition payment_data_of (d : list (string * value)) : value :=
  match lookup "payment_data" d with Some v => v | None => VDict [] end.

(** [str(e) if os.environ.get('DEBUG') == 'true' else
    'Payment processing failed'] *)
Definition shown_error (w : world) (e : exn) : option exn :=
  match environ w "DEBUG" with
  | Some d => if String.eqb d "true" then Some e else None
  | None => None
  end.

(** ** Worlds *)

Definition with_environ (w : world) (env : string -> option string) : world := {|
  environ := env;
  clock_ymd := clock_ymd w;
  clock_iso := clock_iso w;
  uuid4_hex := uuid4_hex w;
  boto3_client := boto3_client w;
  get_secret_value := get_secret_value w;
  json_loads := json_loads w;
  http_request := http_request w;
  execute_statement := execute_statement w;
  py_repr := py_repr w;
  int_of_str := int_of_str w
|}.

Definition with_gateway (w : world)
  (gateway : list event -> string -> string -> list (string * value) -> value ->
             res value) : world := {|
  environ := environ w;
  clock_ymd := clock_ymd w;
  clock_iso := clock_iso w;
  uuid4_hex := uuid4_hex w;
  boto3_client := boto3_client w;
  get_secret_value := get_secret_value w;
  json_loads := json_loads w;
  http_request := gateway;
  execute_statement := execute_statement w;
  py_repr := py_repr w;
  int_of_str := int_of_str w
|}.

Definition with_database (w : world)
  (db : list event -> string -> list (string * field) -> res value) : world := {|
  environ := environ w;
  clock_ymd := clock_ymd w;
  clock_iso := clock_iso w;
  uuid4_hex := uuid4_hex w;
  boto3_client := boto3_client w;
  get_secret_value := get_secret_value w;
  json_loads := json_loads w;
  http_request := http_request w;
  execute_statement := db;
  py_repr := py_repr w;
  int_of_str := int_of_str w
|}.

(** The world [w] with everything the finalizer consults replaced: the
    answers of the database to its two statements, the parser of the
    passenger count, and the date and uuid of the booking reference. *)
Definition with_finalizer (w : world)
  (db : list event -> string -> list (string * field) -> res value)
  (parse : string -> res Z) (ymd : nat -> string) (uuid : nat -> string) : world := {|
  environ := environ w;
  clock_ymd := ymd;
  clock_iso := clock_iso w;
  uuid4_hex := uuid;
  boto3_client := boto3_client w;
  get_secret_value := get_secret_value w;
  json_loads := json_loads w;
  http_request := http_request w;
  execute_statement := fun h sql ps =>
    if (String.eqb sql sql_get_transaction || String.eqb sql sql_insert_booking)%bool
    then db h sql ps
    else execute_statement w h sql ps;
  py_repr := py_repr w;
  int_of_str := parse
|}.

(** A world in which no secret is stored, the gateway creates every
    transaction and authorizes every confirmation, and the database
    accepts every statement and returns one stored row. *)
Definition stored_row : value :=
  VList [ VDict [("stringValue", VStr "VC-20240101-01234567")];
          VDict [("stringValue", VStr "tok")];
          VDict [("stringValue", VStr "11900")];
          VDict [("stringValue", VStr "10000")];
          VDict [("stringValue", VStr "F1")];
          VDict [("stringValue", VStr "U1")];
          VDict [("stringValue", VStr "2")] ].

Definition authorized_reply : value :=
  VDict [ ("status", VStr "AUTHORIZED");
          ("response_code", VInt 0);
          ("buy_order", VStr "VC-20240101-01234567");
          ("amount", VInt 11900);
          ("card_detail", VDict [("card_number", VStr "XXXXXXXXXXXX6623")]);
          ("payment_type_code", VStr "VN") ].

Definition created_reply : value :=
  VDict [ ("url", VStr "https://webpay3gint.transbank.cl/webpayserver/initTransaction");
          ("token", VStr "tok") ].

Definition happy_world : world := {|
  environ := fun _ => None;
  clock_ymd := fun _ => "20240101";
  clock_iso := fun _ => "2024-01-01T00:00:00";
  uuid4_hex := fun _ => "0123456789abcdef0123456789abcdef";
  boto3_client := fun _ => Ok tt;
  get_secret_value := fun _ _ => Raise (Raised "ResourceNotFoundException");
  json_loads := fun _ => Raise (Raised "JSONDecodeError");
  http_request := fun _ m _ _ _ =>
    if String.eqb m "POST" then Ok created_reply else Ok authorized_reply;
  execute_statement := fun _ sql _ =>
    if String.eqb sql sql_get_transaction
    then Ok (VDict [("records", VList [stored_row])])
    else Ok (VDict []);
  py_repr := fun _ => "?";
  int_of_str := fun s => if String.eqb s "2" then Ok 2 else Raise ValueError
|}.

Definition integration_service : service := {|
  environment := "integration";
  base_url := "https://webpay3gint.transbank.cl";
  credentials := default_credentials;
  db_cluster_arn := VNone;
  db_secret_arn := VNone
|}.

Definition start : state := {| trace := []; ticks := O |}.

(** The same world with a gateway that cannot be reached, with a gateway
    that reports a transaction still initialized, with a database that
    rejects every statement, and deployed to production. *)
Definition gateway_down_world : world :=
  with_gateway happy_world (fun _ _ _ _ _ => Raise (RequestException "ConnectTimeout")).

Definition pending_reply : value :=
  VDict [ ("status", VStr "INITIALIZED");
          ("buy_order", VStr "VC-20240101-01234567");
          ("amount", VInt 11900) ].

Definition pending_world : world :=
  with_gateway happy_world (fun _ _ _ _ _ => Ok pending_reply).

Definition database_down_world : world :=
  with_database happy_world (fun _ _ _ => Raise (Raised "BadRequestException")).

(** The gateway authorizes the payment and reports the card number as a
    number, not as a string. *)
Definition numeric_card_reply : value :=
  VDict [ ("status", VStr "AUTHORIZED");
          ("response_code", VInt 0);
          ("buy_order", VStr "VC-20240101-01234567");
          ("amount", VInt 11900);
          ("card_detail", VDict [("card_number", VInt 6623)]);
          ("payment_type_code", VStr "VN") ].

Definition numeric_card_world : world :=
  with_gateway happy_world (fun _ _ _ _ _ => Ok numeric_card_reply).

Definition production_world : world :=
  with_environ happy_world
    (fun name =>
       if String.eqb name "TRANSBANK_ENVIRONMENT" then Some "production" else None).

(** ** Binary64 *)

(** [n] shifts to the right keep the quotient, the last bit shifted out
    and whether anything below it was set. *)
Definition shifted (m : Z) (n : Z) : shr_record :=
  {| shr_m := m / 2 ^ n;
     shr_r := Z.odd (m / 2 ^ (n - 1));
     shr_s := negb (m mod 2 ^ (n - 1) =? 0) |}.

(** The mantissas of the literals [0.19], [0.1] and [0.3]. *)
Definition m0_19 : Z := 6845471433603154.
Definition m0_1 : Z := 7205759403792794.
Definition m0_3 : Z := 5404319552844595.

(** ** The seat classes by the exact ratio *)

(** The classes as the specification words them: [sold_out] at 0 seats,
    [limited] up to 10% of the total, [moderate] up to 30%, [available]
    above. *)
Definition booking_class_by_ratio (available_seats total_seats : Z) : string :=
  if available_seats =? 0 then "sold_out"
  else if 10 * available_seats <=? total_seats then "limited"
  else if 10 * available_seats <=? 3 * total_seats then "moderate"
  else "available".

(* ================================================================= *)
(** ** search.py: the query of [search_flights] *)

(** A text of several lines, as a triple-quoted literal holds it. *)
Definition newline : string := String "010"%char EmptyString.

Definition text (lines : list string) : string := String.concat newline lines.

(** [base_query], lines 79-106. *)
Definition base_query : string :=
  Eval cbv in
  text
    [
      "";
      "                SELECT ";
      "                    f.flight_id,";
      "                    al.airline_name,";
      "                    f.flight_number,";
      "                    f.aircraft_type,";
      "                    dep_airport.airport_code as departure_airport,";
      "                    dep_airport.city_name as departure_city,";
      "                    arr_airport.airport_code as arrival_airport,";
      "                    arr_airport.city_name as arrival_city,";
      "                    f.departure_time,";
      "                    f.arrival_time,";
      "                    f.flight_duration,";
      "                    f.stops,";
      "                    fp.price_economy,";
      "                    fp.price_premium,";
      "                    fp.price_business,";
      "                    f.available_seats,";
      "                    f.total_seats,";
      "                    al.baggage_allowance,";
      "                    al.cancellation_policy";
      "                FROM flights f";
      "                JOIN airlines al ON f.airline_id = al.airline_id";
      "                JOIN airports dep_airport ON f.departure_airport_id = dep_airport.airport_id";
      "                JOIN airports arr_airport ON f.arrival_airport_id = arr_airport.airport_id";
      "                JOIN flight_prices fp ON f.flight_id = fp.flight_id";
      "                WHERE 1=1";
      "            " ].

(** The ordering added to the query, lines 167-173. *)
Definition order_clause : string :=
  Eval cbv in
  text
    [
      "";
      "                ORDER BY ";
      "                    fp.price_economy ASC,";
      "                    f.departure_time ASC,";
      "                    f.stops ASC";
      "                LIMIT 50";
      "            " ].

(** [if search_params.get(k): conditions.append(c);
     params.append(search_params[k])] *)
Definition add_filter (d : list (string * value)) (k condition : string)
  (built : list string * list value) : list string * list value :=
  match lookup k d with
  | Some v => if truthy v
              then ((fst built ++ [condition])%list, (snd built ++ [v])%list)
              else built
  | None => built
  end.

(** [if search_params.get(k): conditions.append(c)] *)
Definition add_condition (d : list (string * value)) (k condition : string)
  (built : list string * list value) : list string * list value :=
  match lookup k d with
  | Some v => if truthy v then ((fst built ++ [condition])%list, snd built) else built
  | None => built
  end.

(** The three times of day. *)
Definition add_time_preference (d : list (string * value))
  (built : list string * list value) : list string * list value :=
  match lookup "time_preference" d with
  | Some time_pref =>
      if truthy time_pref then
        if py_eq_str time_pref "morning" then
          ((fst built ++ ["EXTRACT(HOUR FROM f.departure_time) BETWEEN 6 AND 12"])%list,
           snd built)
        else if py_eq_str time_pref "afternoon" then
          ((fst built ++ ["EXTRACT(HOUR FROM f.departure_time) BETWEEN 12 AND 18"])%list,
           snd built)
        else if py_eq_str time_pref "evening" then
          ((fst built ++ ["EXTRACT(HOUR FROM f.departure_time) BETWEEN 18 AND 23"])%list,
           snd built)
        else built
      else built
  | None => built
  end.

(** Lines 108-173 of [search_flights]: the conditions and the parameters
    collected from [search_params], and the query put together.  The
    return date of a round trip is read and adds nothing. *)
Definition build_search_query (search_params : value) : res (string * list value) :=
  match search_params with
  | VDict d =>
      let built := ([], []) in
      let built := add_filter d "from_airport" "dep_airport.airport_code = %s" built in
      let built := add_filter d "to_airport" "arr_airport.airport_code = %s" built in
      let built := add_filter d "departure_date" "DATE(f.departure_time) = %s" built in
      let built := add_filter d "passengers" "f.available_seats >= %s" built in
      let built := add_filter d "max_price" "fp.price_economy <= %s" built in
      let built := add_condition d "direct_only" "f.stops = 0" built in
      let built := add_filter d "airline" "al.airline_code = %s" built in
      let built := add_time_preference d built in
      let conditions := fst built in
      let query :=
        match conditions with
        | [] => base_query
        | _ => (base_query ++ " AND " ++ String.concat " AND " conditions)%string
        end in
      Ok ((query ++ order_clause)%string, snd built)
  | _ => Raise AttributeError
  end.

(* ================================================================= *)
(** ** search.py: the service and the handler *)

(** [s.lower()] on ASCII letters. *)
Definition lower_ascii (c : ascii) : ascii :=
  let n := nat_of_ascii c in
  if (Nat.leb 65 n && Nat.leb n 90)%bool then ascii_of_nat (n + 32) else c.

Fixpoint lower (s : string) : string :=
  match s with
  | EmptyString => EmptyString
  | String c s' => String (lower_ascii c) (lower s')
  end.

(** The literal [1.19]: [5359283556570890 * 2^-52]. *)
Definition f1_19 : spec_float := S754_finite false 5359283556570890 (-52).

(** [for x in l: out.append(f(x))], stopped by the first exception. *)
Fixpoint for_each {A B : Type} (f : A -> res B) (l : list A) : res (list B) :=
  match l with
  | [] => Ok []
  | x :: l' =>
      match f x with
      | Raise e => Raise e
      | Ok y => match for_each f l' with
                | Raise e => Raise e
                | Ok ys => Ok (y :: ys)
                end
      end
  end.

Module Search.

(** What a row of a result holds: a value of Python, or an object of the
    database driver (a [Decimal], a [date], a [datetime], an interval),
    which the code knows by what it answers. *)
Inductive cell : Type :=
| Plain (v : value)
| Foreign (id : nat).

(** What the service returns: dicts and lists over cells. *)
Inductive data : Type :=
| Leaf (c : cell)
| Dict (entries : list (string * data))
| Items (items : list data).

(** What the code does to the outside, with the answer it got. *)
Inductive event : Type :=
| EClient (name region : string)
| ESecret (secret_id : string) (reply : res value)
| EConnect (arguments : list (string * value)) (reply : res unit)
| EReadOnly (reply : res unit)
| ECursor (reply : res unit)
| EExecute (query : string) (params : option (list value)) (reply : res unit)
| EFetch (reply : res (list (list cell)))
| EClose (reply : res unit)
| ELogError (message : string) (e : exn)
| ELogInfo (message : string).

(** The world of the search: environment, boto3, psycopg2, and Python's
    answers for the objects of the driver and for what its own functions
    do outside their annotated types. *)
Record world : Type := {
  environ : string -> option string;
  boto3_client : list event -> string -> string -> res unit;
  get_secret_value : list event -> string -> res value;
  json_loads : string -> res value;
  connect : list event -> list (string * value) -> res unit;
  closed : list event -> bool;
  set_session : list event -> res unit;
  cursor : list event -> res unit;
  execute : list event -> string -> option (list value) -> res unit;
  fetchall : list event -> res (list (list cell));
  close : list event -> res unit;
  truth : nat -> bool;
  isoformat : nat -> res string;
  str : nat -> string;
  float : nat -> res spec_float;
  float_of_str : string -> res spec_float;
  repr : value -> string;
  class_of_objects : cell -> cell -> res string
}.

(** The trace, the most recent event first, and [self.db_connection]:
    whether there is one. *)
Record state : Type := {
  trace : list event;
  db_connection : bool
}.

Record service : Type := {
  db_secret_name : string;
  region_name : string;
  cache_ttl : Z
}.

Inductive body : Type :=
| Data (response_data : data)
| Failed (shown : option exn).

Record response : Type := {
  statusCode : Z;
  headers : list (string * string);
  content : body
}.

Definition M (A : Type) : Type := state -> res A * state.

Definition ret {A} (a : A) : M A := fun s => (Ok a, s).

Definition raise {A} (e : exn) : M A := fun s => (Raise e, s).

Definition lift {A} (r : res A) : M A := fun s => (r, s).

Definition bind {A B} (m : M A) (k : A -> M B) : M B :=
  fun s => match m s with
           | (Ok a, s') => k a s'
           | (Raise e, s') => (Raise e, s')
           end.

Definition try_except {A} (m : M A) (h : exn -> M A) : M A :=
  fun s => match m s with
           | (Ok a, s') => (Ok a, s')
           | (Raise e, s') => h e s'
           end.

Definition emit (e : event) : M unit :=
  fun s => (Ok tt, {| trace := e :: trace s; db_connection := db_connection s |}).

Definition history : M (list event) := fun s => (Ok (trace s), s).

Definition connected : M bool := fun s => (Ok (db_connection s), s).

Definition set_connection (b : bool) : M unit :=
  fun s => (Ok tt, {| trace := trace s; db_connection := b |}).

Definition res_bind {A B} (r : res A) (k : A -> res B) : res B :=
  match r with
  | Ok a => k a
  | Raise e => Raise e
  end.

Declare Scope search_scope.
Delimit Scope search_scope with search.
Notation "x <- m ;; k" := (bind m (fun x => k))
  (at level 61, m at next level, right associativity) : search_scope.
Notation "m ;;; k" := (bind m (fun _ => k))
  (at level 61, right associativity) : search_scope.
Notation "x <~ r ;; k" := (res_bind r (fun x => k))
  (at level 61, r at next level, right associativity) : search_scope.
Local Open Scope search_scope.

Section Service.

Variable w : world.

(** Python on cells. *)
Definition truth_of (c : cell) : bool :=
  match c with
  | Plain v => truthy v
  | Foreign i => truth w i
  end.

Definition isoformat_of (c : cell) : res cell :=
  match c with
  | Plain _ => Raise AttributeError
  | Foreign i => match isoformat w i with
                 | Ok s => Ok (Plain (VStr s))
                 | Raise e => Raise e
                 end
  end.

Definition str_of (c : cell) : res cell :=
  match c with
  | Plain v => Ok (Plain (VStr (py_str (repr w) v)))
  | Foreign i => Ok (Plain (VStr (str w i)))
  end.

Definition float_of (c : cell) : res cell :=
  match c with
  | Plain (VBool b) => Ok (Plain (VFloat (if b then S754_finite false 4503599627370496 (-52)
                                          else S754_zero false)))
  | Plain (VInt z) => match float_of_int z with
                      | Ok f => Ok (Plain (VFloat f))
                      | Raise e => Raise e
                      end
  | Plain (VFloat f) => Ok (Plain (VFloat f))
  | Plain (VStr s) => match float_of_str w s with
                      | Ok f => Ok (Plain (VFloat f))
                      | Raise e => Raise e
                      end
  | Plain _ => Raise TypeError
  | Foreign i => match float w i with
                 | Ok f => Ok (Plain (VFloat f))
                 | Raise e => Raise e
                 end
  end.

(** [f(x) if x else None] *)
Definition if_true (f : cell -> res cell) (c : cell) : res cell :=
  if truth_of c then f c else Ok (Plain VNone).

(** [row[i]] *)
Definition column (row : list cell) (i : nat) : res cell :=
  match nth_error row i with
  | Some c => Ok c
  | None => Raise IndexError
  end.

(** [self.determine_booking_class(available_seats, total_seats)] on the
    cells of a row: on integers the function of the file. *)
Definition booking_class_of (available_seats total_seats : cell) : res cell :=
  match available_seats, total_seats with
  | Plain (VInt a), Plain (VInt t) =>
      match determine_booking_class a t with
      | Ok c => Ok (Plain (VStr c))
      | Raise e => Raise e
      end
  | _, _ =>
      match class_of_objects w available_seats total_seats with
      | Ok c => Ok (Plain (VStr c))
      | Raise e => Raise e
      end
  end.

(** Lines 181-214: the flight made of a row, and its price with tax. *)
Definition format_flight (row : list cell) : res data :=
  flight_id <~ column row 0 ;;
  name <~ column row 1 ;;
  baggage_allowance <~ column row 17 ;;
  cancellation_policy <~ column row 18 ;;
  flight_number <~ column row 2 ;;
  aircraft <~ column row 3 ;;
  departure_airport <~ column row 4 ;;
  departure_city <~ column row 5 ;;
  departure <~ column row 8 ;;
  departure_time <~ if_true isoformat_of departure ;;
  arrival_airport <~ column row 6 ;;
  arrival_city <~ column row 7 ;;
  arrival <~ column row 9 ;;
  arrival_time <~ if_true isoformat_of arrival ;;
  flight_duration <~ column row 10 ;;
  duration <~ if_true str_of flight_duration ;;
  stops <~ column row 11 ;;
  price_economy <~ column row 12 ;;
  economy <~ if_true float_of price_economy ;;
  price_premium <~ column row 13 ;;
  premium <~ if_true float_of price_premium ;;
  price_business <~ column row 14 ;;
  business <~ if_true float_of price_business ;;
  available_seats <~ column row 15 ;;
  total_seats <~ column row 16 ;;
  booking_class <~ booking_class_of available_seats total_seats ;;
  let pricing := [ ("economy", Leaf economy);
                   ("premium", Leaf premium);
                   ("business", Leaf business) ] in
  let pricing :=
    match economy with
    | Plain (VFloat f) =>
        if truthy (VFloat f)
        then (pricing ++ [("economy_with_tax", Leaf (Plain (VFloat (fmul f f1_19))))])%list
        else pricing
    | _ => pricing
    end in
  Ok (Dict [ ("flight_id", Leaf flight_id);
             ("airline", Dict [ ("name", Leaf name);
                                ("baggage_allowance", Leaf baggage_allowance);
                                ("cancellation_policy", Leaf cancellation_policy) ]);
             ("flight_number", Leaf flight_number);
             ("aircraft", Leaf aircraft);
             ("departure", Dict [ ("airport", Leaf departure_airport);
                                  ("city", Leaf departure_city);
                                  ("time", Leaf departure_time) ]);
             ("arrival", Dict [ ("airport", Leaf arrival_airport);
                                ("city", Leaf arrival_city);
                                ("time", Leaf arrival_time) ]);
             ("duration", Leaf duration);
             ("stops", Leaf stops);
             ("pricing", Dict pricing);
             ("available_seats", Leaf available_seats);
             ("total_seats", Leaf total_seats);
             ("booking_class", Leaf booking_class) ]).

(** Lines 269-280 and 326-332: a route and a day of prices. *)
Definition format_route (row : list cell) : res data :=
  from_airport <~ column row 0 ;;
  from_city <~ column row 1 ;;
  to_airport <~ column row 2 ;;
  to_city <~ column row 3 ;;
  booking_count <~ column row 4 ;;
  avg_price <~ column row 5 ;;
  average_price <~ if_true float_of avg_price ;;
  Ok (Dict [ ("from", Dict [("airport", Leaf from_airport); ("city", Leaf from_city)]);
             ("to", Dict [("airport", Leaf to_airport); ("city", Leaf to_city)]);
             ("popularity_score", Leaf booking_count);
             ("average_price", Leaf average_price) ]).

Definition format_trend (row : list cell) : res data :=
  flight_date <~ column row 0 ;;
  date <~ if_true isoformat_of flight_date ;;
  avg_price <~ column row 1 ;;
  average_price <~ if_true float_of avg_price ;;
  lowest <~ column row 2 ;;
  min_price <~ if_true float_of lowest ;;
  highest <~ column row 3 ;;
  max_price <~ if_true float_of highest ;;
  flight_count <~ column row 4 ;;
  Ok (Dict [ ("date", Leaf date);
             ("average_price", Leaf average_price);
             ("min_price", Leaf min_price);
             ("max_price", Leaf max_price);
             ("flight_count", Leaf flight_count) ]).

(** The query of [get_popular_routes], lines 244-262. *)
Definition popular_routes_query : string :=
  Eval cbv in
  text
    [
      "";
      "                SELECT ";
      "                    dep.airport_code as from_airport,";
      "                    dep.city_name as from_city,";
      "                    arr.airport_code as to_airport,";
      "                    arr.city_name as to_city,";
      "                    COUNT(b.booking_id) as booking_count,";
      "                    AVG(fp.price_economy) as avg_price";
      "                FROM bookings b";
      "                JOIN flights f ON b.flight_id = f.flight_id";
      "                JOIN airports dep ON f.departure_airport_id = dep.airport_id";
      "                JOIN airports arr ON f.arrival_airport_id = arr.airport_id";
      "                JOIN flight_prices fp ON f.flight_id = fp.flight_id";
      "                WHERE b.booking_date >= NOW() - INTERVAL '30 days'";
      "                    AND b.booking_status != 'cancelled'";
      "                GROUP BY dep.airport_code, dep.city_name, arr.airport_code, arr.city_name";
      "                ORDER BY booking_count DESC";
      "                LIMIT 10";
      "            " ].

(** The query of [get_price_trends], lines 295-312. *)
Definition price_trends_query : string :=
  Eval cbv in
  text
    [
      "";
      "                SELECT ";
      "                    DATE(f.departure_time) as flight_date,";
      "                    AVG(fp.price_economy) as avg_price,";
      "                    MIN(fp.price_economy) as min_price,";
      "                    MAX(fp.price_economy) as max_price,";
      "                    COUNT(f.flight_id) as flight_count";
      "                FROM flights f";
      "                JOIN airports dep ON f.departure_airport_id = dep.airport_id";
      "                JOIN airports arr ON f.arrival_airport_id = arr.airport_id";
      "                JOIN flight_prices fp ON f.flight_id = fp.flight_id";
      "                WHERE dep.airport_code = %s";
      "                    AND arr.airport_code = %s";
      "                    AND f.departure_time >= NOW()";
      "                    AND f.departure_time <= NOW() + INTERVAL '90 days'";
      "                GROUP BY DATE(f.departure_time)";
      "                ORDER BY flight_date";
      "            " ].

(** The calls of the outside. *)
Definition client (name region : string) : M unit :=
  h <- history ;;
  emit (EClient name region) ;;; lift (boto3_client w h name region).

Definition secret (secret_id : string) : M value :=
  h <- history ;;
  let reply := get_secret_value w h secret_id in
  emit (ESecret secret_id reply) ;;; lift reply.

Definition psycopg2_connect (arguments : list (string * value)) : M unit :=
  h <- history ;;
  let reply := connect w h arguments in
  emit (EConnect arguments reply) ;;; lift reply.

Definition set_session_readonly : M unit :=
  h <- history ;;
  let reply := set_session w h in
  emit (EReadOnly reply) ;;; lift reply.

Definition conn_cursor : M unit :=
  h <- history ;;
  let reply := cursor w h in
  emit (ECursor reply) ;;; lift reply.

Definition cursor_execute (query : string) (params : option (list value)) : M unit :=
  h <- history ;;
  let reply := execute w h query params in
  emit (EExecute query params reply) ;;; lift reply.

Definition cursor_fetchall : M (list (list cell)) :=
  h <- history ;;
  let reply := fetchall w h in
  emit (EFetch reply) ;;; lift reply.

Definition cursor_close : M unit :=
  h <- history ;;
  let reply := close w h in
  emit (EClose reply) ;;; lift reply.

Definition connection_closed : M bool :=
  h <- history ;; ret (closed w h).

Definition log_error (message : string) (e : exn) : M unit :=
  emit (ELogError message e).

Definition log_info (message : string) : M unit :=
  emit (ELogInfo message).

Definition py_json_loads (v : value) : M value :=
  match v with
  | VStr s => lift (json_loads w s)
  | _ => raise TypeError
  end.

Definition environ_or (name default : string) : string :=
  match environ w name with Some s => s | None => default end.

(** [FlightSearchService.__init__] *)
Definition FlightSearchService : M service :=
  let db_secret_name := environ_or "DB_SECRET_NAME" "vuelachile/db-password" in
  let region_name := environ_or "AWS_REGION" "us-east-1" in
  client "secretsmanager" region_name ;;;
  client "elasticache" region_name ;;;
  set_connection false ;;;
  ret {| db_secret_name := db_secret_name;
         region_name := region_name;
         cache_ttl := 300 |}.

Definition get_database_credentials (self : service) : M value :=
  try_except
    (response <- secret (db_secret_name self) ;;
     s <- lift (py_getitem response "SecretString") ;;
     py_json_loads s)
    (fun e => log_error "Error retrieving database credentials" e ;;; raise e).

Definition get_database_connection (self : service) : M unit :=
  is_there <- connected ;;
  is_closed <- (if is_there then connection_closed else ret true) ;;
  (if is_closed then
     try_except
       (credentials <- get_database_credentials self ;;
        host <- lift (py_getitem credentials "host") ;;
        port <- lift (py_getitem credentials "port") ;;
        dbname <- lift (py_getitem credentials "dbname") ;;
        username <- lift (py_getitem credentials "username") ;;
        password <- lift (py_getitem credentials "password") ;;
        psycopg2_connect [ ("host", host);
                           ("port", port);
                           ("database", dbname);
                           ("user", username);
                           ("password", password);
                           ("sslmode", VStr "require");
                           ("connect_timeout", VInt 10);
                           ("application_name", VStr "vuelachile-flight-search") ] ;;;
        set_connection true ;;;
        if String.eqb (lower (environ_or "USE_READ_REPLICA" "false")) "true"
        then set_session_readonly
        else ret tt)
       (fun e => log_error "Database connection error" e ;;; raise e)
   else ret tt).

Definition search_flights (self : service) (search_params : value) : M (list data) :=
  try_except
    (get_database_connection self ;;;
     conn_cursor ;;;
     built <- lift (build_search_query search_params) ;;
     cursor_execute (fst built) (Some (snd built)) ;;;
     results <- cursor_fetchall ;;
     flights <- lift (for_each format_flight results) ;;
     cursor_close ;;;
     log_info ("Found "
               ++ py_str (repr w) (VInt (Z.of_nat (List.length flights)))
               ++ " flights for search parameters")%string ;;;
     ret flights)
    (fun e => log_error "Error searching flights" e ;;; raise e).

Definition get_popular_routes (self : service) : M data :=
  try_except
    (get_database_connection self ;;;
     conn_cursor ;;;
     cursor_execute popular_routes_query None ;;;
     results <- cursor_fetchall ;;
     routes <- lift (for_each format_route results) ;;
     cursor_close ;;;
     ret (Items routes))
    (fun e => log_error "Error getting popular routes" e ;;; ret (Items [])).

Definition get_price_trends (self : service) (from_airport to_airport : value) : M data :=
  try_except
    (get_database_connection self ;;;
     conn_cursor ;;;
     cursor_execute price_trends_query (Some [from_airport; to_airport]) ;;;
     results <- cursor_fetchall ;;
     price_data <- lift (for_each format_trend results) ;;
     cursor_close ;;;
     ret (Dict [ ("route", Dict [ ("from", Leaf (Plain from_airport));
                                  ("to", Leaf (Plain to_airport)) ]);
                 ("price_data", Items price_data) ]))
    (fun e => log_error "Error getting price trends" e ;;; ret (Dict [])).

(** [lambda_handler(event, context)].  The body of an answer is kept as
    what is handed to [json.dumps]: the data, or the failure and whether
    its text is shown.  With [default=str] the data made here serialises. *)
Definition lambda_handler (event : list (string * value)) : M response :=
  try_except
    (request_body <- match lookup "body" event with
                     | Some (VStr s) => lift (json_loads w s)
                     | Some b => ret b
                     | None => ret (VDict event)
                     end ;;
     flight_service <- FlightSearchService ;;
     action <- lift (py_get request_body "action" (VStr "search")) ;;
     response_data <-
       (if py_eq_str action "search" then
          search_params <- lift (py_get request_body "search_params" (VDict [])) ;;
          results <- search_flights flight_service search_params ;;
          ret (Dict [ ("flights", Items results);
                      ("search_params", Leaf (Plain search_params));
                      ("total_results",
                       Leaf (Plain (VInt (Z.of_nat (List.length results))))) ])
        else if py_eq_str action "popular_routes" then
          results <- get_popular_routes flight_service ;;
          ret (Dict [ ("popular_routes", results) ])
        else if py_eq_str action "price_trends" then
          from_airport <- lift (py_get request_body "from_airport" VNone) ;;
          to_airport <- lift (py_get request_body "to_airport" VNone) ;;
          if (negb (truthy from_airport) || negb (truthy to_airport))%bool
          then raise ValueError
          else get_price_trends flight_service from_airport to_airport
        else raise (UnknownAction action)) ;;
     ret {| statusCode := 200;
            headers := ok_headers;
            content := Data response_data |})
    (fun e =>
       log_error "Lambda execution error" e ;;;
       ret {| statusCode := 500;
              headers := error_headers;
              content :=
                Failed (match environ w "DEBUG" with
                        | Some d => if String.eqb d "true" then Some e else None
                        | None => None
                        end) |}).

End Service.

End Search.

(** ** The credentials and the calls of the gateway *)

(** What the secret store holds for an environment: the answer of
    [get_secret_value], its [SecretString], parsed. *)
Definition stored_credentials (w : world) (h : list event) (environment : string)
  : res value :=
  match get_secret_value w h ("vuelachile/transbank-" ++ environment) with
  | Raise e => Raise e
  | Ok response =>
      match py_getitem response "SecretString" with
      | Raise e => Raise e
      | Ok (VStr s) => json_loads w s
      | Ok _ => Raise TypeError
      end
  end.

(** The methods [_call_transbank_api] knows, and the body it sends with
    each: [requests.get] is called without one. *)
Definition supported_method (method : string) : bool :=
  String.eqb method "POST" || String.eqb method "PUT" || String.eqb method "GET".

Definition sent_body (method : string) (data : value) : value :=
  if String.eqb method "GET" then VNone else data.

(** ** The runs of create, in detail *)

(** The order reference made at tick [n]: the date read at [n] and the
    uuid drawn at [n + 1]. *)
Definition order_reference (w : world) (prefix : string) (n : nat) : string :=
  (prefix ++ clock_ymd w n ++ "-" ++ upper (prefix_of 8 (uuid4_hex w (S n))))%string.

(** [d.get(k, default)] for the dict [d]. *)
Definition entry_or (d : list (string * value)) (k : string) (default : value) : value :=
  match lookup k d with Some v => v | None => default end.

(** What create sends to the gateway and what it stores, for the request
    [d] handled from tick [n] on. *)
Definition gateway_request (w : world) (d : list (string * value)) (n : nat) (total : Z)
  : value :=
  VDict [ ("buy_order", VStr (order_reference w "VC-" n));
          ("session_id", entry_or d "session_id" (VStr (uuid4_hex w (S (S n)))));
          ("amount", VInt total);
          ("return_url",
           entry_or d "return_url" (VStr "https://vuelachile.cl/payment/return")) ].

Definition transaction_row (w : world) (d : list (string * value)) (n : nat)
  (base : value) (tax : spec_float) (total : Z) (token : value)
  : list (string * value) :=
  [ ("buy_order", VStr (order_reference w "VC-" n));
    ("token", token);
    ("amount", VInt total);
    ("base_amount", base);
    ("tax_amount", VFloat tax);
    ("flight_id", entry_or d "flight_id" VNone);
    ("user_id", entry_or d "user_id" VNone);
    ("passenger_count", entry_or d "passenger_count" (VInt 1));
    ("status", VStr "pending");
    ("created_at", VStr (clock_iso w (S (S (S n))))) ].

Definition row_parameters (w : world) (row : list (string * value))
  : list (string * field) :=
  map (fun kv => (fst kv, string_field w (snd kv))) row.

(** The runs of create once more, with everything that is sent, stored
    and returned. *)
Definition create_detail (w : world) (self : service) (payment_data : value)
  (st : state) (r : res outcome) (new : list event) : Prop :=
  (exists e, r = Ok (Failure e) /\ new = [ELogError creating_failed e])
  \/
  exists d base tax total hdrs,
    payment_data = VDict d /\
    lookup "amount" d = Some base /\
    compute_total base = Ok (tax, total) /\
    api_headers self = Ok hdrs /\
    let data := gateway_request w d (ticks st) total in
    let url := (base_url self ++ transactions_endpoint)%string in
    let reply := http_request w (trace st) "POST" url hdrs data in
    let http := EHttp "POST" url hdrs data reply in
    ((gateway_created reply = false /\
      exists e, r = Ok (Failure e) /\
                new = (ELogError creating_failed e :: api_log reply ++ [http])%list)
     \/
     (exists rd u t,
         reply = Ok (VDict rd) /\
         lookup "url" rd = Some u /\ lookup "token" rd = Some t /\
         truthy u = true /\ truthy t = true /\
         let ps := row_parameters w (transaction_row w d (ticks st) base tax total t) in
         let answer := execute_statement w (http :: trace st) sql_insert_transaction ps in
         let insert := EExecute sql_insert_transaction ps answer in
         match answer with
         | Raise e =>
             r = Ok (Failure e) /\
             new = [ELogError creating_failed e; ELogError storing_failed e; insert; http]
         | Ok _ =>
             r = Ok (Success [ ("transaction_id", VStr (order_reference w "VC-" (ticks st)));
                               ("payment_url", u);
                               ("token", t);
                               ("amount", VInt total);
                               ("currency", VStr "CLP") ]) /\
             new = [insert; http]
         end)).

(** The names a statement refers to: what follows each colon, as far as
    letters, digits and underscores go. *)
Definition is_name_char (c : ascii) : bool :=
  let n := nat_of_ascii c in
  (((48 <=? n) && (n <=? 57)) || ((65 <=? n) && (n <=? 90))
   || ((97 <=? n) && (n <=? 122)) || (n =? 95))%nat.

Fixpoint names_from (s : string) (name : option string) : list string :=
  match s with
  | EmptyString => match name with Some n => [n] | None => [] end
  | String c s' =>
      match name with
      | Some n =>
          if is_name_char c then names_from s' (Some (n ++ String c EmptyString)%string)
          else n :: names_from s' (if Ascii.eqb c ":" then Some EmptyString else None)
      | None => names_from s' (if Ascii.eqb c ":" then Some EmptyString else None)
      end
  end.

Definition placeholders (sql : string) : list string := names_from sql None.

Definition is_log_error (ev : event) : bool :=
  match ev with ELogError _ _ => true | _ => false end.

(** ** The runs of confirm, in detail *)

(** What confirm reads off the gateway's answer before it touches the
    store: the card number and the description of the payment type. *)
Definition before_update (w : world) (response : value) : res (value * string) :=
  match response with
  | VDict rd =>
      match py_get (card_detail_of rd) "card_number" VNone with
      | Raise e => Raise e
      | Ok card_number =>
          match _get_payment_type_description w (entry rd "payment_type_code") with
          | Raise e => Raise e
          | Ok payment_type => Ok (card_number, payment_type)
          end
      end
  | _ => Raise AttributeError
  end.

(** The update of the row, made at tick [n], and the response. *)
Definition update_row (w : world) (rd : list (string * value)) (n : nat)
  (card_number : value) (payment_type : string) : list (string * value) :=
  [ ("status", VStr (status_of rd));
    ("authorization_code", entry rd "authorization_code");
    ("response_code", entry rd "response_code");
    ("transaction_date", entry rd "transaction_date");
    ("accounting_date", entry rd "accounting_date");
    ("card_number", card_number);
    ("installments", entry rd "installments_number");
    ("payment_type", VStr payment_type);
    ("confirmed_at", VStr (clock_iso w n)) ].

Definition confirm_response (rd : list (string * value)) (last_four : value)
  (payment_type : string) : list (string * value) :=
  [ ("transaction_id", entry rd "buy_order");
    ("status", VStr (status_of rd));
    ("amount", entry rd "amount");
    ("authorization_code", entry rd "authorization_code");
    ("card_info", VDict [ ("last_four", last_four);
                          ("card_type", VStr payment_type) ]);
    ("transaction_date", entry rd "transaction_date");
    ("installments", entry rd "installments_number") ].

Definition confirm_detail (w : world) (self : service) (token : value) (st : state)
  (r : res outcome) (new : list event) : Prop :=
  (exists e, api_headers self = Raise e /\ r = Ok (Failure e)
             /\ new = [ELogError confirming_failed e])
  \/
  exists hdrs,
    api_headers self = Ok hdrs /\
    let url := confirm_url w self token in
    let reply := http_request w (trace st) "PUT" url hdrs VNone in
    let http := EHttp "PUT" url hdrs VNone reply in
    ((exists e, reply = Raise e /\ r = Ok (Failure e) /\
                new = (ELogError confirming_failed e :: api_log reply ++ [http])%list)
     \/
     (exists response, reply = Ok response /\ truthy response = false /\
                       r = Ok (Failure NoResponse) /\
                       new = [ELogError confirming_failed NoResponse; http])
     \/
     (exists response e, reply = Ok response /\ truthy response = true /\
                         before_update w response = Raise e /\
                         r = Ok (Failure e) /\
                         new = [ELogError confirming_failed e; http])
     \/
     (exists rd card_number payment_type,
         reply = Ok (VDict rd) /\ truthy (VDict rd) = true /\
         before_update w (VDict rd) = Ok (card_number, payment_type) /\
         let ps := update_parameters w (entry rd "buy_order")
                     (update_row w rd (ticks st) card_number payment_type) in
         let answer := execute_statement w (http :: trace st) confirm_update_sql ps in
         let update := EExecute confirm_update_sql ps answer in
         match answer with
         | Raise e =>
             r = Ok (Failure e) /\
             new = [ELogError confirming_failed e; ELogError updating_failed e;
                    update; http]
         | Ok _ =>
             exists fin,
               finalizer_part (status_of rd) (entry rd "buy_order") fin /\
               match last_four_of (card_detail_of rd) with
               | Raise e =>
                   r = Ok (Failure e) /\
                   new = (ELogError confirming_failed e :: fin ++ [update; http])%list
               | Ok last_four =>
                   r = Ok (Success (confirm_response rd last_four payment_type)) /\
                   new = (fin ++ [update; http])%list
               end
         end)).

(** The update of [confirm_payment_transaction], answered or not. *)
Definition is_update (ev : event) : bool :=
  match ev with
  | EExecute sql _ _ => String.eqb sql confirm_update_sql
  | _ => false
  end.

(** ** The finalizer, in detail *)

Definition is_notification (ev : event) : bool :=
  match ev with ELogInfo _ => true | _ => false end.

(** The insert of the booking was answered. *)
Definition is_booking_done (ev : event) : bool :=
  match ev with
  | EExecute sql _ (Ok _) => String.eqb sql sql_insert_booking
  | _ => false
  end.

(** The read of the transaction was answered with at least one record. *)
Definition found_a_row (ev : event) : bool :=
  match ev with
  | EExecute sql _ (Ok v) =>
      String.eqb sql sql_get_transaction
      && match py_getitem v "records" with
         | Ok records => truthy records
         | Raise _ => false
         end
  | _ => false
  end.

(** The parameters of the booking made at tick [n] from a row. *)
Definition booking_parameters (w : world) (n : nat) (buy_order : value)
  (flight_id user_id : value) (passenger_count : Z) (total_amount : value)
  : list (string * field) :=
  [ ("booking_id", StringValue (VStr (order_reference w "BK-" n)));
    ("flight_id", StringValue (VStr (py_str (py_repr w) flight_id)));
    ("user_id", StringValue (VStr (py_str (py_repr w) user_id)));
    ("passenger_count", LongValue passenger_count);
    ("total_amount", StringValue (VStr (py_str (py_repr w) total_amount)));
    ("buy_order", StringValue buy_order) ].

(** ** Names, ranks *)

(** A key that can stand in a statement as a column and as a parameter:
    letters, digits and underscores, at least one. *)
Fixpoint all_name_chars (s : string) : bool :=
  match s with
  | EmptyString => true
  | String c s' => is_name_char c && all_name_chars s'
  end.

Definition is_identifier (k : string) : bool :=
  negb (String.eqb k "") && all_name_chars k.

Fixpoint no_colon (s : string) : bool :=
  match s with
  | EmptyString => true
  | String c s' => negb (Ascii.eqb c ":") && no_colon s'
  end.

(** The seat classes from the scarcest to the most plentiful. *)
Definition class_rank (c : string) : nat :=
  if String.eqb c "sold_out" then 0
  else if String.eqb c "limited" then 1
  else if String.eqb c "moderate" then 2
  else 3.

(** ** The query of the flight search *)

(** The [%s] of a query: the places psycopg2 fills with the parameters. *)
Fixpoint count_placeholders (s : string) : nat :=
  match s with
  | EmptyString => O
  | String c rest =>
      match rest with
      | EmptyString => O
      | String c' rest' =>
          if (Ascii.eqb c "%" && Ascii.eqb c' "s")%bool
          then S (count_placeholders rest')
          else count_placeholders rest
      end
  end.

(** The filters that bind a parameter, in the order of the code, and what
    of the search parameters decides the text of the query: which filters
    apply, and which time of day is asked for. *)
Definition filter_keys : list string :=
  ["from_airport"; "to_airport"; "departure_date"; "passengers"; "max_price"; "airline"].

Definition applies (d : list (string * value)) (k : string) : bool :=
  truthy (entry d k).

Inductive day_time : Type := Morning | Afternoon | Evening.

Definition time_of_day (d : list (string * value)) : option day_time :=
  if applies d "time_preference" then
    if py_eq_str (entry d "time_preference") "morning" then Some Morning
    else if py_eq_str (entry d "time_preference") "afternoon" then Some Afternoon
    else if py_eq_str (entry d "time_preference") "evening" then Some Evening
    else None
  else None.

Definition query_shape (d : list (string * value))
  : list bool * bool * option day_time :=
  (map (applies d) filter_keys, applies d "direct_only", time_of_day d).

Definition starts_with_s (b : string) : bool :=
  match b with
  | String c _ => Ascii.eqb c "s"
  | EmptyString => false
  end.

(** The conditions the filters contribute, in the order of the code, for
    a given answer to "does the filter apply". *)
Definition time_condition (t : option day_time) : list string :=
  match t with
  | Some Morning => ["EXTRACT(HOUR FROM f.departure_time) BETWEEN 6 AND 12"]
  | Some Afternoon => ["EXTRACT(HOUR FROM f.departure_time) BETWEEN 12 AND 18"]
  | Some Evening => ["EXTRACT(HOUR FROM f.departure_time) BETWEEN 18 AND 23"]
  | None => []
  end.

Definition when (b : bool) (condition : string) : list string :=
  if b then [condition] else [].

Definition conditions_of (shape : list bool * bool * option day_time) : list string :=
  match shape with
  | ([a1; a2; a3; a4; a5; a6], direct, t) =>
      (when a1 "dep_airport.airport_code = %s"
       ++ when a2 "arr_airport.airport_code = %s"
       ++ when a3 "DATE(f.departure_time) = %s"
       ++ when a4 "f.available_seats >= %s"
       ++ when a5 "fp.price_economy <= %s"
       ++ when direct "f.stops = 0"
       ++ when a6 "al.airline_code = %s"
       ++ time_condition t)%list
  | _ => []
  end.

(** The query for a list of conditions. *)
Definition query_with (conditions : list string) : string :=
  (match conditions with
   | [] => base_query
   | _ => base_query ++ " AND " ++ String.concat " AND " conditions
   end ++ order_clause)%string.

Definition placeholders_in (conditions : list string) : nat :=
  fold_right (fun c n => (count_placeholders c + n)%nat) O conditions.

(** A condition that can follow another text without making a [%s] with
    it: it is not empty and does not start with an [s]. *)
Definition separate (c : string) : bool :=
  match c with
  | String ch _ => negb (Ascii.eqb ch "s")
  | EmptyString => false
  end.

(** ** The search service *)

Definition is_read_only (ev : Search.event) : bool :=
  match ev with Search.EReadOnly _ => true | _ => false end.

Definition is_connect (ev : Search.event) : bool :=
  match ev with Search.EConnect _ _ => true | _ => false end.

Definition is_database_call (ev : Search.event) : bool :=
  match ev with
  | Search.EConnect _ _ | Search.EReadOnly _ | Search.ECursor _
  | Search.EExecute _ _ _ | Search.EFetch _ | Search.EClose _ => true
  | _ => false
  end.

(** The arguments of [psycopg2.connect] for the credentials [c]. *)
Definition connect_arguments (c : list (string * value)) : list (string * value) :=
  [ ("host", entry c "host");
    ("port", entry c "port");
    ("database", entry c "dbname");
    ("user", entry c "username");
    ("password", entry c "password");
    ("sslmode", VStr "require");
    ("connect_timeout", VInt 10);
    ("application_name", VStr "vuelachile-flight-search") ].

(** Whether the connection is to be read-only. *)
Definition use_read_replica (w : Search.world) : bool :=
  String.eqb (lower (Search.environ_or w "USE_READ_REPLICA" "false")) "true".

(** The request body the handler of the search works on, and the failure
    it shows: [str(e)] when [DEBUG] is ['true']. *)
Definition search_request_body (w : Search.world) (event : list (string * value))
  : res value :=
  match lookup "body" event with
  | Some (VStr s) => Search.json_loads w s
  | Some b => Ok b
  | None => Ok (VDict event)
  end.

Definition search_shown_error (w : Search.world) (e : exn) : option exn :=
  match Search.environ w "DEBUG" with
  | Some d => if String.eqb d "true" then Some e else None
  | None => None
  end.

(** A world to run the search in: the secret holds the credentials, the
    database takes every call and returns one route, no object of the
    driver is around. *)
Definition database_secret : value :=
  VDict [ ("host", VStr "db.internal"); ("port", VInt 5432);
          ("dbname", VStr "vuelachile"); ("username", VStr "search");
          ("password", VStr "secret") ].

Definition route_row : list Search.cell :=
  [ Search.Plain (VStr "SCL"); Search.Plain (VStr "Santiago");
    Search.Plain (VStr "PMC"); Search.Plain (VStr "Puerto Montt");
    Search.Plain (VInt 12); Search.Plain (VInt 45000) ].

Definition search_world : Search.world := {|
  Search.environ := fun _ => None;
  Search.boto3_client := fun _ _ _ => Ok tt;
  Search.get_secret_value := fun _ _ => Ok (VDict [("SecretString", VStr "{}")]);
  Search.json_loads := fun _ => Ok database_secret;
  Search.connect := fun _ _ => Ok tt;
  Search.closed := fun _ => false;
  Search.set_session := fun _ => Ok tt;
  Search.cursor := fun _ => Ok tt;
  Search.execute := fun _ _ _ => Ok tt;
  Search.fetchall := fun _ => Ok [route_row];
  Search.close := fun _ => Ok tt;
  Search.truth := fun _ => true;
  Search.isoformat := fun _ => Raise AttributeError;
  Search.str := fun _ => "?";
  Search.float := fun _ => Raise TypeError;
  Search.float_of_str := fun _ => Raise ValueError;
  Search.repr := fun _ => "?";
  Search.class_of_objects := fun _ _ => Raise TypeError
|}.

Definition search_service : Search.service := {|
  Search.db_secret_name := "vuelachile/db-password";
  Search.region_name := "us-east-1";
  Search.cache_ttl := 300
|}.

Definition search_start : Search.state :=
  {| Search.trace := []; Search.db_connection := false |}.

(** The same world with a database that cannot be reached. *)
Definition unreachable_world : Search.world := {|
  Search.environ := Search.environ search_world;
  Search.boto3_client := Search.boto3_client search_world;
  Search.get_secret_value := Search.get_secret_value search_world;
  Search.json_loads := Search.json_loads search_world;
  Search.connect := fun _ _ => Raise (Raised "OperationalError");
  Search.closed := Search.closed search_world;
  Search.set_session := Search.set_session search_world;
  Search.cursor := Search.cursor search_world;
  Search.execute := Search.execute search_world;
  Search.fetchall := Search.fetchall search_world;
  Search.close := Search.close search_world;
  Search.truth := Search.truth search_world;
  Search.isoformat := Search.isoformat search_world;
  Search.str := Search.str search_world;
  Search.float := Search.float search_world;
  Search.float_of_str := Search.float_of_str search_world;
  Search.repr := Search.repr search_world;
  Search.class_of_objects := Search.class_of_objects search_world
|}.

(* ================================================================= *)
(** * Proofs *)

(* ================================================================= *)
(** ** Rounding to binary64 *)

(** [SpecFloat] defines the operations by shifts of the mantissa; here is
    what they compute: the nearest 53-bit number, ties to even. *)

(** [digits2_pos p] is the number of bits of [p]. *)
Lemma digits2_pos_bounds (p : positive) :
  2 ^ (Zpos (digits2_pos p) - 1) <= Zpos p < 2 ^ Zpos (digits2_pos p).
Proof.
  induction p as [p IH|p IH|]; cbn [digits2_pos].
  - rewrite Pos2Z.inj_succ, Z.pow_succ_r by lia.
    replace (Z.succ (Zpos (digits2_pos p)) - 1) with (Z.succ (Zpos (digits2_pos p) - 1))
      by lia.
    rewrite Z.pow_succ_r by lia. lia.
  - rewrite Pos2Z.inj_succ, Z.pow_succ_r by lia.
    replace (Z.succ (Zpos (digits2_pos p)) - 1) with (Z.succ (Zpos (digits2_pos p) - 1))
      by lia.
    rewrite Z.pow_succ_r by lia. lia.
  - cbn; lia.
Qed.

Lemma digits2_pos_between (p : positive) (a b : Z) :
  0 <= a -> 2 ^ a <= Zpos p < 2 ^ b -> a < Zpos (digits2_pos p) <= b.
Proof.
  intros Ha [H1 H2]. pose proof (digits2_pos_bounds p) as [B1 B2].
  split.
  - apply (Z.pow_lt_mono_r_iff 2); lia.
  - destruct (Z_le_gt_dec (Zpos (digits2_pos p)) b) as [L|G]; [exact L|exfalso].
    assert (2 ^ b <= 2 ^ (Zpos (digits2_pos p) - 1))
      by (apply Z.pow_le_mono_r; lia).
    lia.
Qed.

(** The shifts of [shr]. *)
Lemma iter_pos_nat {A} (f : A -> A) (p : positive) (x : A) :
  iter_pos f p x = Nat.iter (Pos.to_nat p) f x.
Proof.
  revert x; induction p as [p IH|p IH|]; intros x; cbn [iter_pos].
  - rewrite !IH, Pos2Nat.inj_xI.
    replace (S (2 * Pos.to_nat p)) with (Pos.to_nat p + (Pos.to_nat p + 1))%nat by lia.
    rewrite !Nat.iter_add. reflexivity.
  - rewrite !IH, Pos2Nat.inj_xO.
    replace (2 * Pos.to_nat p)%nat with (Pos.to_nat p + Pos.to_nat p)%nat by lia.
    rewrite Nat.iter_add. reflexivity.
  - reflexivity.
Qed.

Lemma shr_1_nonneg (m : Z) (r s : bool) :
  0 <= m ->
  shr_1 {| shr_m := m; shr_r := r; shr_s := s |}
  = {| shr_m := m / 2; shr_r := Z.odd m; shr_s := r || s |}.
Proof.
  intros H. rewrite <- Z.div2_div.
  destruct m as [|[p|p|]|p]; try reflexivity; lia.
Qed.

Lemma shifted_succ (m : Z) (n : Z) :
  0 <= m -> 1 <= n -> shr_1 (shifted m n) = shifted m (n + 1).
Proof.
  intros Hm Hn. unfold shifted.
  rewrite shr_1_nonneg by (apply Z.div_pos; [lia|apply Z.pow_pos_nonneg; lia]).
  replace (n + 1 - 1) with n by lia.
  assert (P : 0 < 2 ^ (n - 1)) by (apply Z.pow_pos_nonneg; lia).
  assert (E : 2 ^ n = 2 ^ (n - 1) * 2).
  { replace n with (Z.succ (n - 1)) at 1 by lia. rewrite Z.pow_succ_r by lia. lia. }
  f_equal.
  - rewrite Z.div_div by lia.
    replace (n + 1) with (Z.succ n) by lia. rewrite Z.pow_succ_r by lia.
    f_equal; lia.
  - rewrite E, Z.rem_mul_r by lia.
    pose proof (Z.mod_pos_bound m (2 ^ (n - 1)) P) as B.
    rewrite Zodd_mod.
    pose proof (Z.mod_pos_bound (m / 2 ^ (n - 1)) 2 eq_refl) as B2.
    destruct (Z.eqb_spec ((m / 2 ^ (n - 1)) mod 2) 1) as [O|O].
    + rewrite O. cbn [orb negb].
      destruct (Z.eqb_spec (m mod 2 ^ (n - 1) + 2 ^ (n - 1) * 1) 0); [lia|reflexivity].
    + replace ((m / 2 ^ (n - 1)) mod 2) with 0 by lia. cbn [orb].
      now rewrite Z.mul_0_r, Z.add_0_r.
Qed.

Lemma shifted_iter (m : Z) (k : nat) :
  0 <= m ->
  Nat.iter (S k) shr_1 {| shr_m := m; shr_r := false; shr_s := false |}
  = shifted m (Z.of_nat (S k)).
Proof.
  intros Hm. induction k as [|k IH].
  - cbn [Nat.iter]. rewrite shr_1_nonneg by exact Hm. unfold shifted.
    cbn [Z.of_nat Pos.of_succ_nat Z.sub Z.pos_sub Z.pow Z.pow_pos Pos.iter Z.mul Pos.mul].
    rewrite Z.div_1_r, Z.mod_1_r. reflexivity.
  - change (Nat.iter (S (S k)) shr_1 ?x) with (shr_1 (Nat.iter (S k) shr_1 x)).
    rewrite IH, shifted_succ by lia. f_equal; lia.
Qed.

Lemma shr_shifted (m : Z) (e : Z) (p : positive) :
  0 <= m ->
  shr {| shr_m := m; shr_r := false; shr_s := false |} e (Zpos p)
  = (shifted m (Zpos p), e + Zpos p).
Proof.
  intros Hm. unfold shr. rewrite iter_pos_nat.
  destruct (Pos2Nat.is_succ p) as (k & Hk). rewrite Hk, shifted_iter by exact Hm.
  rewrite <- Hk, positive_nat_Z. reflexivity.
Qed.

(** Rounding the shifted mantissa to nearest, ties to even, is off by at
    most half a unit. *)
Lemma round_nearest_shifted (P n : Z) :
  0 <= P -> 1 <= n ->
  let q := P / 2 ^ n in
  let m := round_nearest_even q (loc_of_shr_record (shifted P n)) in
  (m = q \/ m = q + 1) /\ 2 * Z.abs (m * 2 ^ n - P) <= 2 ^ n.
Proof.
  intros HP Hn q m.
  assert (Hh : 0 < 2 ^ (n - 1)) by (apply Z.pow_pos_nonneg; lia).
  assert (E : 2 ^ n = 2 ^ (n - 1) * 2).
  { replace n with (Z.succ (n - 1)) at 1 by lia. rewrite Z.pow_succ_r by lia. lia. }
  pose proof (Z.div_mod P (2 ^ n) ltac:(lia)) as D. fold q in D.
  assert (R : P mod 2 ^ n = P mod 2 ^ (n - 1) + 2 ^ (n - 1) * ((P / 2 ^ (n - 1)) mod 2))
    by (rewrite E at 1; apply Z.rem_mul_r; lia).
  pose proof (Z.mod_pos_bound P (2 ^ (n - 1)) Hh) as Bl.
  pose proof (Z.mod_pos_bound (P / 2 ^ (n - 1)) 2 eq_refl) as Bb.
  subst m. unfold shifted, loc_of_shr_record.
  rewrite Zodd_mod.
  destruct (Z.eqb_spec ((P / 2 ^ (n - 1)) mod 2) 1) as [O|O];
    destruct (Z.eqb_spec (P mod 2 ^ (n - 1)) 0) as [L|L];
    cbn [negb round_nearest_even].
  - destruct (Z.even q); split; auto; nia.
  - split; [auto|]. nia.
  - split; [auto|]. nia.
  - split; [auto|]. nia.
Qed.

Lemma fexp_normal (d ex : Z) :
  -1074 <= ex -> 53 <= d -> fexp prec emax (d + ex) - ex = d - 53.
Proof. unfold fexp, SpecFloat.emin, prec, emax. lia. Qed.

Lemma fexp_small (d ex : Z) :
  -1074 <= ex -> d <= 53 -> fexp prec emax (d + ex) - ex <= 0.
Proof. unfold fexp, SpecFloat.emin, prec, emax. lia. Qed.

Lemma shr_nonpos (mrs : shr_record) (e n : Z) : n <= 0 -> shr mrs e n = (mrs, e).
Proof. destruct n; try reflexivity; lia. Qed.

(** A mantissa of at most 53 bits is kept as it is. *)
Lemma round_aux_exact (P : positive) (ex : Z) :
  Zpos (digits2_pos P) <= 53 -> -1074 <= ex <= 971 ->
  binary_round_aux prec emax false (Zpos P) ex loc_Exact = S754_finite false P ex.
Proof.
  intros Hd He. unfold binary_round_aux, shr_fexp.
  cbn [Zdigits2 shr_record_of_loc].
  rewrite shr_nonpos by (apply fexp_small; lia).
  cbn [shr_m loc_of_shr_record round_nearest_even Zdigits2 shr_record_of_loc].
  rewrite shr_nonpos by (apply fexp_small; lia).
  cbn [shr_m]. unfold emax, prec.
  destruct (Z.leb_spec ex (1024 - 53)); [reflexivity|lia].
Qed.

(** A longer mantissa is rounded to the nearest 53-bit one, ties to even:
    the result is [m * 2^(ex + k)] with [m * 2^k] within half of [2^k]
    of [P]. *)
Lemma round_aux_nearest (P : positive) (ex : Z) :
  let d := Zpos (digits2_pos P) in
  53 < d -> -1074 <= ex -> ex + d <= 1000 ->
  exists m k,
    binary_round_aux prec emax false (Zpos P) ex loc_Exact
    = S754_finite false m (ex + k)
    /\ (k = d - 53 \/ k = d - 52)
    /\ 2 ^ 52 <= Zpos m < 2 ^ 53
    /\ 2 * Z.abs (Zpos m * 2 ^ k - Zpos P) <= 2 ^ k.
Proof.
  intros d Hd He Hmax.
  pose proof (digits2_pos_bounds P) as [B1 B2]. fold d in B1, B2.
  unfold binary_round_aux, shr_fexp.
  cbn [Zdigits2 shr_record_of_loc]. fold d.
  rewrite fexp_normal by lia.
  destruct (d - 53) as [|n|n] eqn:En; try lia.
  rewrite shr_shifted by lia.
  pose proof (round_nearest_shifted (Zpos P) (Zpos n) ltac:(lia) ltac:(lia)) as R.
  cbn zeta in R. cbn [shr_m].
  change (shr_m (shifted (Zpos P) (Zpos n))) with (Zpos P / 2 ^ Zpos n).
  set (q := Zpos P / 2 ^ Zpos n) in *.
  set (m1 := round_nearest_even q (loc_of_shr_record (shifted (Zpos P) (Zpos n)))) in *.
  destruct R as (Rm & Rn).
  assert (Pn : 0 < 2 ^ Zpos n) by (apply Z.pow_pos_nonneg; lia).
  assert (Ed : 2 ^ d = 2 ^ 53 * 2 ^ Zpos n)
    by (rewrite <- Z.pow_add_r by lia; f_equal; lia).
  assert (Ed1 : 2 ^ (d - 1) = 2 ^ 52 * 2 ^ Zpos n)
    by (rewrite <- Z.pow_add_r by lia; f_equal; lia).
  assert (Bq : 2 ^ 52 <= q < 2 ^ 53).
  { subst q; split.
    - apply Z.div_le_lower_bound; lia.
    - apply Z.div_lt_upper_bound; lia. }
  assert (Bm : 2 ^ 52 <= m1 <= 2 ^ 53) by lia.
  clearbody m1. destruct m1 as [|m1|m1]; try lia.
  destruct (Z_lt_le_dec (Zpos m1) (2 ^ 53)) as [Lt|Ge].
  - assert (D1 : Zpos (digits2_pos m1) = 53)
      by (pose proof (digits2_pos_between m1 52 53 ltac:(lia) ltac:(lia)); lia).
    cbn [Zdigits2]. rewrite D1.
    rewrite shr_nonpos by (unfold fexp, SpecFloat.emin, prec, emax; lia).
    cbn [shr_m]. unfold emax, prec.
    destruct (Z.leb_spec (ex + Zpos n) (1024 - 53)); [|lia].
    exists m1, (Zpos n); repeat split; try lia.
  - assert (E53 : Zpos m1 = 2 ^ 53) by lia.
    assert (D1 : Zpos (digits2_pos m1) = 54)
      by (pose proof (digits2_pos_between m1 53 54 ltac:(lia) ltac:(lia)); lia).
    cbn [Zdigits2]. rewrite D1.
    replace (fexp prec emax (54 + (ex + Zpos n)) - (ex + Zpos n)) with 1
      by (unfold fexp, SpecFloat.emin, prec, emax; lia).
    cbn [shr_record_of_loc]. rewrite shr_shifted by lia.
    cbn [shr_m shifted]. rewrite E53.
    change (2 ^ 53 / 2 ^ 1) with (Zpos (2 ^ 52)).
    unfold emax, prec.
    destruct (Z.leb_spec (ex + Zpos n + 1) (1024 - 53)); [|lia].
    exists (2 ^ 52)%positive, (Zpos n + 1); repeat split; try lia.
    + f_equal; lia.
    + rewrite Z.pow_add_r by lia. change (2 ^ 1) with 2.
      change (Zpos (2 ^ 52)) with (2 ^ 52).
      change (2 ^ 53) with (2 ^ 52 * 2) in E53. nia.
Qed.

Lemma pos_iter_xO (m d : positive) : Zpos (Pos.iter xO m d) = Zpos m * 2 ^ Zpos d.
Proof.
  induction d as [|d IH] using Pos.peano_ind.
  - cbn [Pos.iter]. rewrite Pos2Z.inj_xO. change (2 ^ 1) with 2. lia.
  - rewrite Pos.iter_succ, Pos2Z.inj_xO, IH, Pos2Z.inj_succ, Z.pow_succ_r by lia. lia.
Qed.

Lemma shl_align_spec (m : positive) (e e' : Z) :
  e' <= e ->
  exists m', shl_align m e e' = (m', e') /\ Zpos m' = Zpos m * 2 ^ (e - e').
Proof.
  intros H. unfold shl_align.
  destruct (e' - e) as [|d|d] eqn:E; try lia.
  - exists m. replace e' with e by lia. rewrite Z.sub_diag. split; [reflexivity|].
    change (2 ^ 0) with 1. lia.
  - exists (Pos.iter xO m d). split; [reflexivity|].
    rewrite pos_iter_xO. f_equal. f_equal. lia.
Qed.

Lemma shl_align_keep (m : positive) (e e' : Z) : e <= e' -> shl_align m e e' = (m, e).
Proof. intros H. unfold shl_align. destruct (e' - e) eqn:E; try reflexivity; lia. Qed.

(** [float(A)] is exact for a positive integer below [2^53]. *)
Lemma float_of_int_exact (A : Z) :
  1 <= A < 2 ^ 53 ->
  exists m s,
    binary_normalize prec emax A 0 false = S754_finite false m (- s)
    /\ 0 <= s <= 52 /\ Zpos m = A * 2 ^ s /\ 2 ^ 52 <= Zpos m < 2 ^ 53.
Proof.
  intros HA. destruct A as [|a|a]; try lia.
  unfold binary_normalize, binary_round.
  pose proof (digits2_pos_bounds a) as [B1 B2].
  pose proof (digits2_pos_between a 0 53 ltac:(lia) ltac:(change (2 ^ 0) with 1; lia))
    as Bd.
  set (d := Zpos (digits2_pos a)) in *.
  assert (F : fexp prec emax (d + 0) = d - 53)
    by (unfold fexp, SpecFloat.emin, prec, emax; lia).
  rewrite F.
  destruct (shl_align_spec a 0 (d - 53) ltac:(lia)) as (m & -> & Hm).
  replace (0 - (d - 53)) with (53 - d) in Hm by lia.
  assert (P53 : 2 ^ 53 = 2 ^ d * 2 ^ (53 - d))
    by (rewrite <- Z.pow_add_r by lia; f_equal; lia).
  assert (P52 : 2 ^ 52 = 2 ^ (d - 1) * 2 ^ (53 - d))
    by (rewrite <- Z.pow_add_r by lia; f_equal; lia).
  assert (Pp : 0 < 2 ^ (53 - d)) by (apply Z.pow_pos_nonneg; lia).
  assert (Bm : 2 ^ 52 <= Zpos m < 2 ^ 53) by (rewrite Hm, P52, P53; nia).
  assert (Dm : Zpos (digits2_pos m) = 53)
    by (pose proof (digits2_pos_between m 52 53 ltac:(lia) Bm); lia).
  rewrite round_aux_exact by lia.
  exists m, (53 - d); repeat split; try lia.
  f_equal; lia.
Qed.

(** The product of two normal numbers, rounded. *)
Lemma fmul_nearest (m1 m2 : positive) (e1 e2 : Z) :
  2 ^ 52 <= Zpos m1 < 2 ^ 53 -> 2 ^ 52 <= Zpos m2 < 2 ^ 53 ->
  -1074 <= e1 + e2 <= 800 ->
  exists m k,
    fmul (S754_finite false m1 e1) (S754_finite false m2 e2)
    = S754_finite false m (e1 + e2 + k)
    /\ 52 <= k <= 54
    /\ 2 ^ 52 <= Zpos m < 2 ^ 53
    /\ 2 * Z.abs (Zpos m * 2 ^ k - Zpos m1 * Zpos m2) <= 2 ^ k.
Proof.
  intros H1 H2 He. unfold fmul, SFmul. cbn [xorb].
  assert (B : 2 ^ 104 <= Zpos (m1 * m2) < 2 ^ 106).
  { rewrite Pos2Z.inj_mul.
    change (2 ^ 104) with (2 ^ 52 * 2 ^ 52). change (2 ^ 106) with (2 ^ 53 * 2 ^ 53).
    nia. }
  pose proof (digits2_pos_between (m1 * m2) 104 106 ltac:(lia) B) as Bd.
  destruct (round_aux_nearest (m1 * m2) (e1 + e2) ltac:(lia) ltac:(lia) ltac:(lia))
    as (m & k & E & Hk & Hm & Hn).
  exists m, k. rewrite Pos2Z.inj_mul in Hn. repeat split; try assumption; lia.
Qed.

(** The sum of two normal numbers, the second of the smaller exponent,
    rounded. *)
Lemma fadd_nearest (m1 m2 : positive) (e1 e2 : Z) :
  2 ^ 52 <= Zpos m1 < 2 ^ 53 -> 2 ^ 52 <= Zpos m2 < 2 ^ 53 ->
  -1074 <= e2 <= e1 -> e1 <= 900 ->
  exists m k,
    fadd (S754_finite false m1 e1) (S754_finite false m2 e2)
    = S754_finite false m (e2 + k)
    /\ 1 <= k
    /\ 2 ^ 52 <= Zpos m < 2 ^ 53
    /\ 2 * Z.abs (Zpos m * 2 ^ k - (Zpos m1 * 2 ^ (e1 - e2) + Zpos m2)) <= 2 ^ k.
Proof.
  intros H1 H2 He Hmax. unfold fadd, SFadd.
  rewrite Z.min_r by lia.
  destruct (shl_align_spec m1 e1 e2 ltac:(lia)) as (m1' & -> & Hm1).
  rewrite shl_align_keep by lia.
  cbn [fst cond_Zopp Z.add binary_normalize]. unfold binary_round.
  assert (Pp : 1 <= 2 ^ (e1 - e2))
    by (change 1 with (2 ^ 0); apply Z.pow_le_mono_r; lia).
  assert (Pq : 2 ^ (54 + (e1 - e2)) = 2 ^ 53 * 2 * 2 ^ (e1 - e2)).
  { rewrite Z.pow_add_r by lia. change (2 ^ 54) with (2 ^ 53 * 2). lia. }
  assert (B : 2 ^ 53 <= Zpos (m1' + m2) < 2 ^ (54 + (e1 - e2))).
  { rewrite Pos2Z.inj_add, Hm1, Pq. change (2 ^ 53) with (2 ^ 52 * 2) at 1. nia. }
  pose proof (digits2_pos_between (m1' + m2) 53 (54 + (e1 - e2)) ltac:(lia) B) as Bd.
  rewrite shl_align_keep by (unfold fexp, SpecFloat.emin, prec, emax; lia).
  destruct (round_aux_nearest (m1' + m2) e2 ltac:(lia) ltac:(lia) ltac:(lia))
    as (m & k & E & Hk & Hm & Hn).
  exists m, k. rewrite Pos2Z.inj_add, Hm1 in Hn.
  repeat split; try assumption; lia.
Qed.

(* ================================================================= *)
(** ** The total of a whole amount *)

(** The arithmetic behind [int(A + A * 0.19)].  [W], [c], [P], [U] and [D] are
    powers of two, [mA], [m1] and [m2] the mantissas of [A], of the tax and
    of the sum; [W * c] is the weight of one unit of the amount in units
    of the last place of the tax.  First the scales: the sum is coarser
    than the tax by less than half of that weight. *)
Lemma total_scale (A W c P mA m1 m2 U : Z) :
  1 <= A <= 2 ^ 43 -> 0 < W -> mA = A * W -> 2 ^ 52 <= mA < 2 ^ 53 ->
  (c = 8 /\ P = 2 ^ 52) \/ (c = 4 /\ P = 2 ^ 53) \/ (c = 2 /\ P = 2 ^ 54) ->
  2 * Z.abs (m1 * P - mA * m0_19) <= P ->
  2 ^ 52 <= m1 < 2 ^ 53 -> 2 ^ 52 <= m2 < 2 ^ 53 -> 0 < U ->
  2 * Z.abs (m2 * U - (mA * c + m1)) <= U ->
  512 <= W /\ 2 * U < W * c.
Proof.
  intros HA HW EmA BmA Hc Hb Bm1 Bm2 HU Hs. unfold m0_19 in *.
  assert (W9 : 512 <= W).
  { destruct (Z_lt_le_dec W 512) as [L|G]; [exfalso|exact G].
    assert (A * W <= 2 ^ 43 * 511) by (apply Z.mul_le_mono_nonneg; lia).
    change (2 ^ 43 * 511) with 4494803534348288 in *.
    change (2 ^ 52) with 4503599627370496 in *. lia. }
  split; [exact W9|].
  assert (V1 : 2 ^ 52 * U <= m2 * U) by (apply Z.mul_le_mono_nonneg_r; lia).
  change (2 ^ 52) with 4503599627370496 in *.
  change (2 ^ 53) with 9007199254740992 in *.
  change (2 ^ 54) with 18014398509481984 in *.
  destruct Hc as [(-> & ->)|[(-> & ->)|(-> & ->)]]; lia.
Qed.

(** Then the integer part: the two roundings stay within one hundredth of
    the exact total, and never fall below it when it is whole. *)
Lemma total_floor (A W c P mA m1 m2 U D : Z) :
  1 <= A <= 2 ^ 43 -> 0 < W -> mA = A * W -> 2 ^ 52 <= mA < 2 ^ 53 ->
  (c = 8 /\ P = 2 ^ 52) \/ (c = 4 /\ P = 2 ^ 53) \/ (c = 2 /\ P = 2 ^ 54) ->
  2 * Z.abs (m1 * P - mA * m0_19) <= P ->
  2 ^ 52 <= m1 < 2 ^ 53 -> 2 ^ 52 <= m2 < 2 ^ 53 -> 0 < U -> 0 < D ->
  D * U = W * c ->
  2 * Z.abs (m2 * U - (mA * c + m1)) <= U ->
  m2 / D = 119 * A / 100.
Proof.
  intros HA HW EmA BmA Hc Hb Bm1 Bm2 HU HD HT Hs.
  destruct (total_scale A W c P mA m1 m2 U HA HW EmA BmA Hc Hb Bm1 Bm2 HU Hs)
    as (W9 & UT).
  unfold m0_19 in *.
  pose proof (Z.div_mod (119 * A) 100 ltac:(lia)) as DF.
  pose proof (Z.mod_pos_bound (119 * A) 100 ltac:(lia)) as BF.
  set (F := 119 * A / 100) in *. set (rho := (119 * A) mod 100) in *.
  assert (F0 : 0 <= F) by (apply Z.div_pos; lia).
  (* everything times the scale W * c *)
  assert (FT : 119 * (mA * c) = 100 * (F * D * U) + rho * (W * c)).
  { rewrite EmA. replace (F * D * U) with (F * (D * U)) by ring. rewrite HT.
    replace (119 * (A * W * c)) with (119 * A * (W * c)) by ring. rewrite DF. ring. }
  set (FD := F * D) in *.
  assert (FD0 : 0 <= FD) by (apply Z.mul_nonneg_nonneg; lia).
  symmetry. apply Z.div_unique with (r := m2 - FD).
  2:{ unfold FD; ring. }
  left.
  assert (V1 : 2 ^ 52 * U <= m2 * U) by (apply Z.mul_le_mono_nonneg_r; lia).
  assert (V : forall x, x * U <= m2 * U -> x <= m2).
  { intros x Hx. apply Z.mul_le_mono_pos_r with (p := U); lia. }
  assert (V' : forall x, m2 * U < x * U -> m2 < x).
  { intros x Hx. apply Z.mul_lt_mono_pos_r with (p := U); lia. }
  assert (Wc : 0 <= W * c)
    by (destruct Hc as [(-> & _)|[(-> & _)|(-> & _)]]; lia).
  assert (RW : rho * (W * c) <= 99 * (W * c))
    by (apply Z.mul_le_mono_nonneg_r; lia).
  assert (RW0 : 0 <= rho * (W * c)) by (apply Z.mul_nonneg_nonneg; lia).
  change (2 ^ 52) with 4503599627370496 in *.
  change (2 ^ 53) with 9007199254740992 in *.
  change (2 ^ 54) with 18014398509481984 in *.
  split.
  - (* lower bound *)
    assert (L : FD <= m2); [|lia].
    destruct (Z.eq_dec rho 0) as [Z0|NZ].
    + (* the total is a whole number: no rounding may go below it *)
      assert (DA : A = 100 * (79 * F - 94 * A) + 0) by (clear - DF Z0; lia).
      set (a := 79 * F - 94 * A) in *.
      assert (a0 : 0 <= a) by (clear - DA HA; lia).
      assert (MA : mA = 100 * (a * W)) by (rewrite EmA, DA; ring).
      set (aW := a * W) in *.
      assert (aW0 : 0 <= aW) by (apply Z.mul_nonneg_nonneg; lia).
      destruct (Z_lt_le_dec m2 FD) as [Lt|Ge]; [exfalso|exact Ge].
      assert (m2 * U <= (FD - 1) * U) by (apply Z.mul_le_mono_nonneg_r; lia).
      rewrite Z0 in FT.
      destruct Hc as [(-> & ->)|[(-> & ->)|(-> & ->)]]; lia.
    + assert (R1 : 1 * (W * c) <= rho * (W * c))
        by (apply Z.mul_le_mono_nonneg_r; lia).
      apply V.
      destruct Hc as [(-> & ->)|[(-> & ->)|(-> & ->)]]; lia.
  - assert (R : m2 < FD + D); [|lia].
    apply V'. replace ((FD + D) * U) with (FD * U + D * U) by ring. rewrite HT.
    destruct Hc as [(-> & ->)|[(-> & ->)|(-> & ->)]]; lia.
Qed.

Lemma int_of_float_negative_exponent (m : positive) (e : Z) :
  e < 0 -> int_of_float (S754_finite false m e) = Ok (Zpos m / 2 ^ (- e)).
Proof. intros H. destruct e as [|p|p]; try lia. reflexivity. Qed.

Lemma pow2_lt (a b : Z) : 0 <= a -> 0 <= b -> 2 ^ a < 2 ^ b -> a < b.
Proof. intros Ha Hb H. apply (Z.pow_lt_mono_r_iff 2); lia. Qed.

(** For a whole amount of at most [2^43], the total is exactly
    [floor(119 * A / 100)]. *)
Lemma compute_total_floor (A : Z) :
  0 <= A <= 2 ^ 43 ->
  exists tax_amount, compute_total (VInt A) = Ok (tax_amount, 119 * A / 100).
Proof.
  intros HA.
  destruct (Z.eq_dec A 0) as [->|NZ]; [eexists; reflexivity|].
  assert (HA' : 1 <= A < 2 ^ 53)
    by (change (2 ^ 43) with 8796093022208 in HA;
        change (2 ^ 53) with 9007199254740992; lia).
  destruct (float_of_int_exact A HA') as (mA & s & EA & Hs & HmA & BmA).
  unfold compute_total, py_mul_float, py_add_float.
  cbn [as_number to_float]. unfold float_of_int. rewrite EA. unfold f0_19.
  destruct (fmul_nearest mA 6845471433603154 (- s) (-55) BmA
              ltac:(change (2 ^ 52) with 4503599627370496;
                    change (2 ^ 53) with 9007199254740992; lia) ltac:(lia))
    as (m1 & k1 & E1 & Hk1 & Bm1 & N1).
  rewrite E1.
  destruct (fadd_nearest mA m1 (- s) (- s + -55 + k1) BmA Bm1 ltac:(lia) ltac:(lia))
    as (m2 & k2 & E2 & Hk2 & Bm2 & N2).
  rewrite E2. eexists.
  replace (- s - (- s + -55 + k1)) with (55 - k1) in N2 by lia.
  assert (Hc : (2 ^ (55 - k1) = 8 /\ 2 ^ k1 = 2 ^ 52)
               \/ (2 ^ (55 - k1) = 4 /\ 2 ^ k1 = 2 ^ 53)
               \/ (2 ^ (55 - k1) = 2 /\ 2 ^ k1 = 2 ^ 54)).
  { assert (K : k1 = 52 \/ k1 = 53 \/ k1 = 54) by lia.
    destruct K as [K|[K|K]]; subst k1; [left|right; left|right; right];
      split; reflexivity. }
  assert (HA1 : 1 <= A <= 2 ^ 43) by lia.
  assert (PW : 0 < 2 ^ s) by (apply Z.pow_pos_nonneg; lia).
  assert (PU : 0 < 2 ^ k2) by (apply Z.pow_pos_nonneg; lia).
  destruct (total_scale A (2 ^ s) (2 ^ (55 - k1)) (2 ^ k1) (Zpos mA) (Zpos m1)
              (Zpos m2) (2 ^ k2) HA1 PW HmA BmA Hc N1 Bm1 Bm2 PU N2) as (_ & UT).
  assert (Lt : k2 + 1 < s + (55 - k1)).
  { apply pow2_lt; try lia.
    rewrite !Z.pow_add_r by lia. change (2 ^ 1) with 2. lia. }
  rewrite int_of_float_negative_exponent by lia.
  assert (PD : 0 < 2 ^ (- (- s + -55 + k1 + k2))) by (apply Z.pow_pos_nonneg; lia).
  assert (HT : 2 ^ (- (- s + -55 + k1 + k2)) * 2 ^ k2 = 2 ^ s * 2 ^ (55 - k1)).
  { rewrite <- !Z.pow_add_r by lia. f_equal; lia. }
  rewrite (total_floor A (2 ^ s) (2 ^ (55 - k1)) (2 ^ k1) (Zpos mA) (Zpos m1)
             (Zpos m2) (2 ^ k2) _ HA1 PW HmA BmA Hc N1 Bm1 Bm2 PU PD HT N2).
  reflexivity.
Qed.

(* ================================================================= *)
(** ** The seat classes *)

Lemma int_le_float_negative_exponent (z : Z) (m : positive) (e : Z) :
  e < 0 -> int_le_float z (S754_finite false m e) = (z * 2 ^ (- e) <=? Zpos m).
Proof. intros H. destruct e as [|p|p]; try lia. reflexivity. Qed.

(** The comparison with [total_seats * 0.1]: the double [0.1] is above one
    tenth and the product is rounded to nearest. *)
Lemma tenth_compare (total W c P mT m1 available : Z) :
  1 <= total <= 2 ^ 49 -> 0 < W -> mT = total * W -> 2 ^ 52 <= mT < 2 ^ 53 ->
  (c = 16 /\ P = 2 ^ 52) \/ (c = 8 /\ P = 2 ^ 53) \/ (c = 4 /\ P = 2 ^ 54) ->
  2 * Z.abs (m1 * P - mT * m0_1) <= P ->
  2 ^ 52 <= m1 < 2 ^ 53 -> 0 <= available ->
  (available * (W * c) <= m1 <-> 10 * available <= total).
Proof.
  intros HT HW EmT BmT Hc Hb Bm1 Ha. unfold m0_1 in *.
  assert (W8 : 8 <= W).
  { destruct (Z_lt_le_dec W 8) as [L|G]; [exfalso|exact G].
    assert (total * W <= 2 ^ 49 * 7) by (apply Z.mul_le_mono_nonneg; lia).
    change (2 ^ 49 * 7) with 3940649673949184 in *.
    change (2 ^ 52) with 4503599627370496 in *. lia. }
  assert (Wc : 0 < W * c)
    by (destruct Hc as [(-> & _)|[(-> & _)|(-> & _)]]; lia).
  set (X := available * (W * c)).
  assert (X0 : 0 <= X) by (apply Z.mul_nonneg_nonneg; lia).
  assert (Y : total * (W * c) = mT * c) by (rewrite EmT; ring).
  change (2 ^ 52) with 4503599627370496 in *.
  change (2 ^ 53) with 9007199254740992 in *.
  change (2 ^ 54) with 18014398509481984 in *.
  split.
  - intros L.
    destruct (Z_le_gt_dec (10 * available) total) as [Le|Gt]; [exact Le|exfalso].
    assert (M : (total + 1) * (W * c) <= 10 * available * (W * c))
      by (apply Z.mul_le_mono_nonneg_r; lia).
    replace (10 * available * (W * c)) with (10 * X) in M by (unfold X; ring).
    replace ((total + 1) * (W * c)) with (mT * c + W * c) in M by (rewrite <- Y; ring).
    destruct Hc as [(-> & ->)|[(-> & ->)|(-> & ->)]]; lia.
  - intros L.
    assert (M : 10 * available * (W * c) <= total * (W * c))
      by (apply Z.mul_le_mono_nonneg_r; lia).
    replace (10 * available * (W * c)) with (10 * X) in M by (unfold X; ring).
    rewrite Y in M.
    destruct Hc as [(-> & ->)|[(-> & ->)|(-> & ->)]]; lia.
Qed.

(** The comparison with [total_seats * 0.3]: the double [0.3] is below
    three tenths, by less than half a unit in the last place. *)
Lemma three_tenths_compare (total W c P mT m1 available : Z) :
  1 <= total <= 2 ^ 49 -> 0 < W -> mT = total * W -> 2 ^ 52 <= mT < 2 ^ 53 ->
  (c = 4 /\ P = 2 ^ 52) \/ (c = 2 /\ P = 2 ^ 53) \/ (c = 1 /\ P = 2 ^ 54) ->
  2 * Z.abs (m1 * P - mT * m0_3) <= P ->
  2 ^ 52 <= m1 < 2 ^ 53 -> 0 <= available ->
  (available * (W * c) <= m1 <-> 10 * available <= 3 * total).
Proof.
  intros HT HW EmT BmT Hc Hb Bm1 Ha. unfold m0_3 in *.
  assert (W8 : 8 <= W).
  { destruct (Z_lt_le_dec W 8) as [L|G]; [exfalso|exact G].
    assert (total * W <= 2 ^ 49 * 7) by (apply Z.mul_le_mono_nonneg; lia).
    change (2 ^ 49 * 7) with 3940649673949184 in *.
    change (2 ^ 52) with 4503599627370496 in *. lia. }
  assert (Wc : 0 < W * c)
    by (destruct Hc as [(-> & _)|[(-> & _)|(-> & _)]]; lia).
  set (X := available * (W * c)).
  assert (X0 : 0 <= X) by (apply Z.mul_nonneg_nonneg; lia).
  assert (Y : total * (W * c) = mT * c) by (rewrite EmT; ring).
  change (2 ^ 52) with 4503599627370496 in *.
  change (2 ^ 53) with 9007199254740992 in *.
  change (2 ^ 54) with 18014398509481984 in *.
  split.
  - intros L.
    destruct (Z_le_gt_dec (10 * available) (3 * total)) as [Le|Gt]; [exact Le|exfalso].
    assert (M : (3 * total + 1) * (W * c) <= 10 * available * (W * c))
      by (apply Z.mul_le_mono_nonneg_r; lia).
    replace (10 * available * (W * c)) with (10 * X) in M by (unfold X; ring).
    replace ((3 * total + 1) * (W * c)) with (3 * (mT * c) + W * c) in M
      by (rewrite <- Y; ring).
    destruct Hc as [(-> & ->)|[(-> & ->)|(-> & ->)]]; lia.
  - intros L.
    assert (M : 10 * available * (W * c) <= 3 * total * (W * c))
      by (apply Z.mul_le_mono_nonneg_r; lia).
    replace (10 * available * (W * c)) with (10 * X) in M by (unfold X; ring).
    replace (3 * total * (W * c)) with (3 * (mT * c)) in M by (rewrite <- Y; ring).
    destruct Hc as [(-> & ->)|[(-> & ->)|(-> & ->)]]; lia.
Qed.

Lemma leb_iff (a b c d : Z) : (a <= b <-> c <= d) -> (a <=? b) = (c <=? d).
Proof.
  intros H. destruct (Z.leb_spec a b), (Z.leb_spec c d); try reflexivity; lia.
Qed.

(** C8, the claim as it stands fails: the thresholds are binary64 products,
    and with 6755925742732369 seats the product [total_seats * 0.1] rounds
    up past an integer that is above 10% of the seats. *)
Lemma booking_class_beyond_double_precision :
  determine_booking_class 675592574273237 6755925742732369 = Ok "limited"
  /\ booking_class_by_ratio 675592574273237 6755925742732369 = "moderate"
  /\ 10 * 675592574273237 > 6755925742732369.
Proof. vm_compute; repeat split. Qed.

(** C8, amended: for non-negative seat counts with at most [2^49] total
    seats, the class is [sold_out] if no seat is available, [limited] if
    the available seats are at most 10% of the total, [moderate] if they
    are at most 30%, and [available] otherwise. *)
Theorem booking_class_follows_ratio :
  forall available_seats total_seats,
    0 <= available_seats -> 0 <= total_seats <= 2 ^ 49 ->
    determine_booking_class available_seats total_seats
    = Ok (booking_class_by_ratio available_seats total_seats).
Proof.
  intros a t Ha Ht. unfold determine_booking_class, booking_class_by_ratio.
  destruct (Z.eqb_spec a 0) as [_|Na]; [reflexivity|].
  destruct (Z.eq_dec t 0) as [->|Nt].
  { unfold py_mul_float. cbn [as_number to_float]. unfold float_of_int.
    cbn [binary_normalize]. unfold fmul, f0_1, f0_3. cbn [SFmul xorb int_le_float].
    destruct (Z.leb_spec a 0); [lia|].
    destruct (Z.leb_spec (10 * a) 0); [lia|].
    destruct (Z.leb_spec (10 * a) (3 * 0)); [lia|]. reflexivity. }
  assert (Ht' : 1 <= t < 2 ^ 53)
    by (change (2 ^ 49) with 562949953421312 in Ht;
        change (2 ^ 53) with 9007199254740992; lia).
  assert (Ht1 : 1 <= t <= 2 ^ 49) by lia.
  destruct (float_of_int_exact t Ht') as (mT & s & ET & Hs & HmT & BmT).
  unfold py_mul_float. cbn [as_number to_float]. unfold float_of_int.
  rewrite ET. unfold f0_1, f0_3.
  assert (PW : 0 < 2 ^ s) by (apply Z.pow_pos_nonneg; lia).
  assert (S3 : 3 <= s).
  { destruct (Z_lt_le_dec s 3) as [L|G]; [exfalso|exact G].
    assert (2 ^ s <= 2 ^ 2) by (apply Z.pow_le_mono_r; lia).
    assert (t * 2 ^ s <= 2 ^ 49 * 2 ^ 2) by (apply Z.mul_le_mono_nonneg; lia).
    change (2 ^ 49 * 2 ^ 2) with 2251799813685248 in *.
    change (2 ^ 52) with 4503599627370496 in *. lia. }
  destruct (fmul_nearest mT 7205759403792794 (- s) (-56) BmT
              ltac:(change (2 ^ 52) with 4503599627370496;
                    change (2 ^ 53) with 9007199254740992; lia) ltac:(lia))
    as (m1 & k1 & E1 & Hk1 & Bm1 & N1).
  destruct (fmul_nearest mT 5404319552844595 (- s) (-54) BmT
              ltac:(change (2 ^ 52) with 4503599627370496;
                    change (2 ^ 53) with 9007199254740992; lia) ltac:(lia))
    as (m3 & k3 & E3 & Hk3 & Bm3 & N3).
  rewrite E1, E3, !int_le_float_negative_exponent by lia.
  assert (Hc1 : (2 ^ (56 - k1) = 16 /\ 2 ^ k1 = 2 ^ 52)
                \/ (2 ^ (56 - k1) = 8 /\ 2 ^ k1 = 2 ^ 53)
                \/ (2 ^ (56 - k1) = 4 /\ 2 ^ k1 = 2 ^ 54)).
  { assert (K : k1 = 52 \/ k1 = 53 \/ k1 = 54) by lia.
    destruct K as [K|[K|K]]; subst k1; [left|right; left|right; right];
      split; reflexivity. }
  assert (Hc3 : (2 ^ (54 - k3) = 4 /\ 2 ^ k3 = 2 ^ 52)
                \/ (2 ^ (54 - k3) = 2 /\ 2 ^ k3 = 2 ^ 53)
                \/ (2 ^ (54 - k3) = 1 /\ 2 ^ k3 = 2 ^ 54)).
  { assert (K : k3 = 52 \/ k3 = 53 \/ k3 = 54) by lia.
    destruct K as [K|[K|K]]; subst k3; [left|right; left|right; right];
      split; reflexivity. }
  replace (2 ^ (- (- s + -56 + k1))) with (2 ^ s * 2 ^ (56 - k1))
    by (rewrite <- Z.pow_add_r by lia; f_equal; lia).
  replace (2 ^ (- (- s + -54 + k3))) with (2 ^ s * 2 ^ (54 - k3))
    by (rewrite <- Z.pow_add_r by lia; f_equal; lia).
  rewrite (leb_iff _ _ _ _
             (tenth_compare t (2 ^ s) (2 ^ (56 - k1)) (2 ^ k1) (Zpos mT) (Zpos m1) a
                Ht1 PW HmT BmT Hc1 N1 Bm1 Ha)).
  rewrite (leb_iff _ _ _ _
             (three_tenths_compare t (2 ^ s) (2 ^ (54 - k3)) (2 ^ k3) (Zpos mT)
                (Zpos m3) a Ht1 PW HmT BmT Hc3 N3 Bm3 Ha)).
  destruct (10 * a <=? t); [reflexivity|].
  destruct (10 * a <=? 3 * t); reflexivity.
Qed.

Lemma booking_class_follows_ratio_witness :
  determine_booking_class 27 180 = Ok "moderate".
Proof.
  rewrite (booking_class_follows_ratio 27 180); [reflexivity|lia|].
  change (2 ^ 49) with 562949953421312; lia.
Defined.

(* ================================================================= *)
(** ** The card brand table *)

Lemma assoc_not_in (k : string) (t : list (string * string)) :
  ~ In k (map fst t) -> assoc k t = None.
Proof.
  induction t as [|[k' d] t IH]; simpl; intros H; [reflexivity|].
  destruct (String.eqb_spec k k') as [->|_].
  - exfalso; apply H; now left.
  - apply IH; intros Hin; apply H; now right.
Qed.

(** C7, the claim as it stands fails: the fallback of the table is the
    Spanish ["Tipo "], so the code ["ZZ"] does not render as ["Type ZZ"]. *)
Lemma payment_type_ZZ_is_not_Type_ZZ :
  _get_payment_type_description happy_world (VStr "ZZ") = Ok "Tipo ZZ"
  /\ _get_payment_type_description happy_world (VStr "ZZ") <> Ok "Type ZZ".
Proof. split; [reflexivity|cbn; discriminate]. Qed.

(** C7, amended: the translation is a total lookup in a fixed table; ["VN"]
    renders as the credit card description, and every string that is not a
    key of the table renders as ["Tipo "] followed by the code, so ["ZZ"]
    renders as ["Tipo ZZ"]. *)
Theorem payment_type_description_lookup :
  forall w code,
    (exists d, _get_payment_type_description w (VStr code) = Ok d) /\
    _get_payment_type_description w (VStr "VN") = Ok "Tarjeta de Crédito" /\
    _get_payment_type_description w (VStr "ZZ") = Ok "Tipo ZZ" /\
    (~ In code (map fst payment_types) ->
     _get_payment_type_description w (VStr code) = Ok ("Tipo " ++ code)%string).
Proof.
  intros w code; repeat split.
  - unfold _get_payment_type_description; eexists; reflexivity.
  - intros H; unfold _get_payment_type_description.
    now rewrite (assoc_not_in _ _ H).
Qed.

Lemma payment_type_description_lookup_witness :
  _get_payment_type_description happy_world (VStr "XX") = Ok "Tipo XX".
Proof.
  apply (proj2 (proj2 (proj2 (payment_type_description_lookup happy_world "XX")))).
  cbn; intros H; repeat (destruct H as [H|H]; [discriminate H|]); exact H.
Defined.

(* ================================================================= *)
(** ** Runs of the monadic code *)

(** Reading the new events off a trace. *)
Lemma emitted_cons (e : event) (l n t : list event) :
  l = (n ++ t)%list -> e :: l = ((e :: n) ++ t)%list.
Proof. intros ->; reflexivity. Qed.

Lemma emitted_nil (t : list event) : t = ([] ++ t)%list.
Proof. reflexivity. Qed.

Ltac monad_unfold :=
  unfold lambda_handler, TransbankPaymentService, _get_transbank_credentials,
    create_payment_transaction, confirm_payment_transaction,
    _call_transbank_api, _store_transaction, _update_transaction,
    _process_successful_booking, _send_booking_confirmation,
    py_json_loads, request, execute, secret, client, log_error, log_info,
    now_ymd, now_iso, uuid4,
    try_except, bind, ret, raise, lift, emit, tick, history in *.

Ltac scrutinee t :=
  match t with
  | context [match ?x with _ => _ end] =>
      lazymatch x with
      | context [match _ with _ => _ end] => fail
      | _ => x
      end
  end.

Ltac step :=
  match goal with
  | |- ?g => let x := scrutinee g in destruct x eqn:?; cbn [fst snd trace ticks]
  end.

Lemma nil_not_app {A} (l1 l2 : list A) (x : A) : [] <> (l1 ++ x :: l2)%list.
Proof. destruct l1; discriminate. Qed.

(** A position in a list of at most four events. *)
Ltac at_position E :=
  match type of E with
  | _ = (?l1 ++ _ :: _)%list =>
      destruct l1 as [|? [|? [|? [|? [|? l1]]]]]; cbn [app] in E;
      try discriminate E; inversion E; subst;
      try match goal with
          | X : [] = (_ ++ _ :: _)%list |- _ =>
              exfalso; exact (nil_not_app _ _ _ X)
          end
  end.

(** [_call_transbank_api] with the methods the file uses. *)
Lemma call_api_post w self endpoint data st :
  _call_transbank_api w self endpoint "POST" data st
  = match api_headers self with
    | Raise e => (Raise e, st)
    | Ok hdrs => sent w st "POST" (base_url self ++ endpoint) hdrs data
    end.
Proof.
  unfold _call_transbank_api, api_headers, sent, request, log_error,
    try_except, bind, ret, raise, lift, emit, history.
  unfold py_getitem.
  destruct (credentials self) as [| | | | | |d]; try (destruct st; reflexivity).
  destruct (lookup "commerce_code" d) as [k1|]; [|destruct st; reflexivity].
  destruct (lookup "api_key" d) as [k2|]; [|destruct st; reflexivity].
  cbn [String.eqb Ascii.eqb Bool.eqb andb trace ticks fst snd].
  destruct (http_request _ _ _ _ _ _) as [v|[]]; reflexivity.
Qed.

Lemma call_api_put w self endpoint data st :
  _call_transbank_api w self endpoint "PUT" data st
  = match api_headers self with
    | Raise e => (Raise e, st)
    | Ok hdrs => sent w st "PUT" (base_url self ++ endpoint) hdrs data
    end.
Proof.
  unfold _call_transbank_api, api_headers, sent, request, log_error,
    try_except, bind, ret, raise, lift, emit, history.
  unfold py_getitem.
  destruct (credentials self) as [| | | | | |d]; try (destruct st; reflexivity).
  destruct (lookup "commerce_code" d) as [k1|]; [|destruct st; reflexivity].
  destruct (lookup "api_key" d) as [k2|]; [|destruct st; reflexivity].
  cbn [String.eqb Ascii.eqb Bool.eqb andb trace ticks fst snd].
  destruct (http_request _ _ _ _ _ _) as [v|[]]; reflexivity.
Qed.

(** [_store_transaction] and [_update_transaction]: one statement, and a
    log line when it fails. *)
Lemma store_transaction_eq w self data st :
  _store_transaction w self data st
  = executed w st "Error storing transaction" sql_insert_transaction
      (map (fun kv => (fst kv, string_field w (snd kv))) data).
Proof.
  unfold _store_transaction, executed, execute, log_error,
    try_except, bind, ret, raise, lift, emit, history.
  destruct (execute_statement _ _ _ _); reflexivity.
Qed.

Lemma update_transaction_eq w self buy_order data st :
  _update_transaction w self buy_order data st
  = executed w st "Error updating transaction" (update_sql data)
      (update_parameters w buy_order data).
Proof.
  unfold _update_transaction, executed, execute, log_error,
    try_except, bind, ret, raise, lift, emit, history.
  destruct (execute_statement _ _ _ _); reflexivity.
Qed.

(** Every run of [create_payment_transaction] has the shape of
    [create_summary]. *)
Lemma create_cases w self payment_data st r st' :
  create_payment_transaction w self payment_data st = (r, st') ->
  exists new,
    trace st' = (new ++ trace st)%list /\ create_summary w self payment_data r new.
Proof.
  intros H.
  unfold create_payment_transaction, now_ymd, now_iso, uuid4,
    try_except, bind, ret, raise, lift, emit, tick, history, log_error in H.
  cbn [fst snd trace ticks] in H.
  assert (early : forall e n,
             stopped_before_gateway self payment_data e ->
             (Ok (Failure e),
              {| trace := ELogError creating_failed e :: trace st; ticks := n |})
             = (r, st') ->
             exists new,
               trace st' = (new ++ trace st)%list /\
               create_summary w self payment_data r new).
  { intros e n Why E; injection E as <- <-.
    eexists; split; [apply emitted_cons, emitted_nil|].
    left; eexists; repeat split; exact Why. }
  destruct payment_data as [| | | | | |d];
    try (apply (early _ _ (or_introl eq_refl) H)).
  cbn [py_getitem py_get fst snd trace ticks] in H.
  destruct (lookup "amount" d) as [base|] eqn:Ea;
    cbn [fst snd trace ticks] in H.
  2:{ assert (Why : stopped_before_gateway self (VDict d) (KeyError (VStr "amount")))
        by (left; unfold py_getitem; now rewrite Ea).
      apply (early _ _ Why H). }
  destruct (compute_total base) as [[tax total]|e] eqn:Et;
    cbn [fst snd trace ticks] in H.
  2:{ assert (Why : stopped_before_gateway self (VDict d) e).
      { right; left; exists base; unfold py_getitem; rewrite Ea.
        split; [reflexivity|exact Et]. }
      apply (early _ _ Why H). }
  rewrite call_api_post in H.
  destruct (api_headers self) as [hdrs|e] eqn:Eh;
    cbn [fst snd trace ticks] in H.
  2:{ apply (early _ _ (or_intror (or_intror Eh)) H). }
  clear early.
  unfold sent in H; cbn [fst snd trace ticks] in H.
  match type of H with
  | context [http_request w ?h ?m ?u ?hd ?dt] =>
      set (data := dt) in H;
      assert (Ed : py_getitem data "amount" = Ok (VInt total)) by reflexivity;
      clearbody data;
      destruct (http_request w h m u hd data) as [response|e] eqn:Er
  end; cbn [fst snd trace ticks] in H.
  2:{ injection H as <- <-.
      exists (ELogError creating_failed e :: api_log (Raise e)
              ++ [EHttp "POST" (base_url self ++ transactions_endpoint) hdrs data (Raise e)])%list.
      split.
      - cbn [trace app]. now rewrite <- app_assoc.
      - right. exists base, tax, total, hdrs, data, (Raise e).
        cbn [py_getitem]. rewrite Ea. repeat split; try assumption.
        left. split; [reflexivity|]. eexists; split; reflexivity. }
  set (http := EHttp "POST" (base_url self ++ transactions_endpoint) hdrs data
                 (Ok response)) in *.
  assert (rejected : forall e n,
             gateway_created (Ok response) = false ->
             (Ok (Failure e),
              {| trace := ELogError creating_failed e :: http :: trace st;
                 ticks := n |}) = (r, st') ->
             exists new,
               trace st' = (new ++ trace st)%list /\
               create_summary w self (VDict d) r new).
  { intros e n G E; injection E as <- <-.
    exists [ELogError creating_failed e; http]; split; [reflexivity|].
    right; exists base, tax, total, hdrs, data, (Ok response).
    cbn [py_getitem]; rewrite Ea; repeat split; try assumption.
    left; split; [exact G|]; eexists; split; reflexivity. }
  cbn [api_log app] in H.
  unfold py_get in H.
  destruct response as [| | | | | |rd]; try (apply (rejected _ _ eq_refl H)).
  cbn [fst snd trace ticks py_getitem] in H.
  cbn [gateway_created] in rejected.
  destruct (lookup "url" rd) as [u|] eqn:Eurl; cbn [truthy] in H;
    [|apply (rejected _ _ eq_refl H)].
  destruct (truthy u) eqn:Eu; cbn [fst snd trace ticks] in H.
  2:{ rewrite Eu in H. refine (rejected _ _ _ H). now destruct (lookup "token" rd). }
  destruct (lookup "token" rd) as [t|] eqn:Etok; cbn [truthy fst snd trace ticks] in H;
    [|apply (rejected _ _ eq_refl H)].
  destruct (truthy t) eqn:Ett; cbn [fst snd trace ticks andb] in H;
    [|apply (rejected _ _ eq_refl H)].
  clear rejected.
  assert (G : gateway_created (Ok (VDict rd)) = true)
    by (cbn [gateway_created]; now rewrite Eurl, Etok, Eu, Ett).
  rewrite store_transaction_eq in H; unfold executed in H.
  cbn [fst snd trace ticks map string_field] in H.
  match type of H with
  | context [execute_statement w ?h ?q ?p] =>
      set (ps := p) in H;
      assert (Ep : field_of "amount" ps = Some (string_field w (VInt total)))
        by reflexivity;
      clearbody ps;
      destruct (execute_statement w h q ps) as [v|e] eqn:Ex
  end; cbn [fst snd trace ticks failure_log app] in H; injection H as <- <-.
  - exists [EExecute sql_insert_transaction ps (Ok v); http]; split; [reflexivity|].
    right; exists base, tax, total, hdrs, data, (Ok (VDict rd)).
    cbn [py_getitem]; rewrite Ea; repeat split; try assumption.
    right; split; [exact G|]. exists ps, (Ok v); split; [exact Ep|].
    right; eexists; eexists; repeat split; reflexivity.
  - exists [ELogError creating_failed e; ELogError storing_failed e;
            EExecute sql_insert_transaction ps (Raise e); http]; split; [reflexivity|].
    right; exists base, tax, total, hdrs, data, (Ok (VDict rd)).
    cbn [py_getitem]; rewrite Ea; repeat split; try assumption.
    right; split; [exact G|]. exists ps, (Raise e); split; [exact Ep|].
    left; eexists; repeat split; reflexivity.
Qed.

(** create catches every exception. *)
Lemma create_never_raises w self payment_data st :
  exists o, fst (create_payment_transaction w self payment_data st) = Ok o.
Proof.
  destruct (create_payment_transaction w self payment_data st) as [r st'] eqn:H.
  destruct (create_cases _ _ _ _ _ _ H) as (new & _ & S); cbn [fst].
  destruct S as [(e & -> & _)|(base & tax & total & hdrs & data & reply & _ & _ & _ & S)];
    [eauto|].
  cbn zeta in S; destruct S as [(_ & e & -> & _)|(_ & ps & answer & _ & S)]; [eauto|].
  cbn zeta in S; destruct S as [(e & _ & -> & _)|(v & entries & _ & -> & _)]; eauto.
Qed.

Lemma finalizer_shape (bo : value) (st : state) (evs : list event) (n : nat)
  (x : res unit * state) :
  x = (Ok tt, {| trace := (evs ++ EFinalize bo :: trace st)%list; ticks := n |}) ->
  forallb is_finalizer_event evs = true ->
  exists evs n,
    x = (Ok tt, {| trace := (evs ++ EFinalize bo :: trace st)%list; ticks := n |})
    /\ forallb is_finalizer_event evs = true.
Proof. intros -> H; exists evs, n; split; [reflexivity|exact H]. Qed.

(** The finalizer never raises, and whatever happens inside it stays among
    its own statements and log lines. *)
Lemma finalizer_run w self buy_order st :
  exists evs n,
    _process_successful_booking w self buy_order st
    = (Ok tt, {| trace := (evs ++ EFinalize buy_order :: trace st)%list; ticks := n |})
    /\ forallb is_finalizer_event evs = true.
Proof.
  unfold _process_successful_booking, _send_booking_confirmation, execute,
    log_error, log_info, now_ymd, now_iso, uuid4,
    try_except, bind, ret, raise, lift, emit, tick, history.
  cbn [fst snd trace ticks].
  repeat step.
  all: eapply finalizer_shape;
    [ do 2 f_equal; repeat first [apply emitted_nil | apply emitted_cons]
    | reflexivity ].
Qed.

Lemma finalizer_result w self buy_order st :
  fst (_process_successful_booking w self buy_order st) = Ok tt.
Proof.
  destruct (finalizer_run w self buy_order st) as (evs & n & E & _).
  now rewrite E.
Qed.

(** Every run of [confirm_payment_transaction] has the shape of
    [confirm_summary]. *)
Lemma confirm_cases w self token st r st' :
  confirm_payment_transaction w self token st = (r, st') ->
  exists new,
    trace st' = (new ++ trace st)%list /\ confirm_summary w self token st r new.
Proof.
  intros H.
  unfold confirm_payment_transaction, now_ymd, now_iso, uuid4,
    try_except, bind, ret, raise, lift, emit, tick, history, log_error in H.
  cbn [fst snd trace ticks] in H.
  rewrite call_api_put in H.
  destruct (api_headers self) as [hdrs|e] eqn:Eh; cbn [fst snd trace ticks] in H.
  2:{ injection H as <- <-; exists [ELogError confirming_failed e]; split;
      [reflexivity|]. left; exists e; repeat split. }
  unfold sent in H; cbn [fst snd trace ticks] in H.
  change (base_url self ++ transactions_endpoint ++ "/" ++ py_str (py_repr w) token)%string
    with (confirm_url w self token) in H.
  destruct (http_request w (trace st) "PUT" (confirm_url w self token) hdrs VNone)
    as [response|e] eqn:Er; cbn [fst snd trace ticks] in H.
  2:{ injection H as <- <-.
      exists (ELogError confirming_failed e :: api_log (Raise e)
              ++ [EHttp "PUT" (confirm_url w self token) hdrs VNone (Raise e)])%list.
      split; [cbn [trace app]; now rewrite <- app_assoc|].
      left; exists e; repeat split; destruct e; reflexivity. }
  cbn [api_log app] in H.
  set (http := EHttp "PUT" (confirm_url w self token) hdrs VNone (Ok response)) in *.
  assert (early : forall e n,
             (Ok (Failure e),
              {| trace := ELogError confirming_failed e :: http :: trace st;
                 ticks := n |}) = (r, st') ->
             exists new,
               trace st' = (new ++ trace st)%list /\
               confirm_summary w self token st r new).
  { intros e n E; injection E as <- <-.
    exists [ELogError confirming_failed e; http]; split; [reflexivity|].
    left; exists e; repeat split. }
  destruct (truthy response) eqn:Etr; cbn [fst snd trace ticks] in H;
    [|apply (early _ _ H)].
  destruct response as [| | | | | |rd]; try (apply (early _ _ H)).
  cbn [py_get fst snd trace ticks] in H.
  fold (card_detail_of rd) in H.
  repeat match type of H with
         | context [match lookup ?k rd with Some v => v | None => VNone end] =>
             change (match lookup k rd with Some v => v | None => VNone end)
               with (entry rd k) in H
         end.
  fold (status_of rd) in H.
  destruct (py_get (card_detail_of rd) "card_number" VNone) as [card_number|e]
    eqn:Ec; cbn [fst snd trace ticks] in H; [|apply (early _ _ H)].
  destruct (_get_payment_type_description w (entry rd "payment_type_code"))
    as [payment_type|e] eqn:Ep; cbn [fst snd trace ticks] in H;
    [|apply (early _ _ H)].
  clear early.
  rewrite update_transaction_eq in H; unfold executed in H.
  cbn [fst snd trace ticks] in H.
  match type of H with
  | context [execute_statement w ?h ?q ?p] =>
      change q with confirm_update_sql in H;
      set (ps := p) in H;
      assert (Es : field_of "status" ps = Some (StringValue (VStr (status_of rd))))
        by reflexivity;
      clearbody ps;
      destruct (execute_statement w h confirm_update_sql ps) as [v|e] eqn:Ex
  end; cbn [fst snd trace ticks failure_log app] in H.
  2:{ injection H as <- <-.
      eexists; split; [repeat first [apply emitted_nil | apply emitted_cons]|].
      right; exists hdrs, rd, ps, (Raise e); cbn zeta.
      repeat split; try assumption; [symmetry; exact Ex|].
      left; exists e; repeat split. }
  set (update := EExecute confirm_update_sql ps (Ok v)) in *.
  assert (fin_run :
            exists fin n,
              (if (status_of rd =? "approved")%string
               then _process_successful_booking w self (entry rd "buy_order")
               else fun s : state => (Ok tt, s))
                {| trace := update :: http :: trace st; ticks := S (ticks st) |}
              = (Ok tt, {| trace := (fin ++ update :: http :: trace st)%list;
                           ticks := n |})
              /\ finalizer_part (status_of rd) (entry rd "buy_order") fin).
  { unfold finalizer_part.
    destruct (status_of rd =? "approved")%string.
    - destruct (finalizer_run w self (entry rd "buy_order")
                  {| trace := update :: http :: trace st; ticks := S (ticks st) |})
        as (evs & n & Ef & Hev).
      exists (evs ++ [EFinalize (entry rd "buy_order")])%list, n; split.
      + rewrite Ef; cbn [trace]. now rewrite <- app_assoc.
      + exists evs; split; [reflexivity|exact Hev].
    - exists [], (S (ticks st)); split; reflexivity. }
  destruct fin_run as (fin & n & Ef & Hfin).
  rewrite Ef in H; cbn [fst snd trace ticks] in H.
  destruct (last_four_of (card_detail_of rd)) as [lf|e] eqn:El;
    cbn [fst snd trace ticks emit] in H; injection H as <- <-.
  - exists (fin ++ [update; http])%list; split.
    + cbn [trace]. now rewrite <- app_assoc.
    + right; exists hdrs, rd, ps, (Ok v); cbn zeta.
      repeat split; try assumption; [symmetry; exact Ex|].
      right; exists v, fin; repeat split; [exact Hfin|].
      rewrite El. eexists; repeat split.
  - exists (ELogError confirming_failed e :: fin ++ [update; http])%list; split.
    + cbn [trace app]. now rewrite <- app_assoc.
    + right; exists hdrs, rd, ps, (Ok v); cbn zeta.
      repeat split; try assumption; [symmetry; exact Ex|].
      right; exists v, fin; repeat split; [exact Hfin|].
      rewrite El. split; reflexivity.
Qed.

(** confirm catches every exception. *)
Lemma confirm_never_raises w self token st :
  exists o, fst (confirm_payment_transaction w self token st) = Ok o.
Proof.
  destruct (confirm_payment_transaction w self token st) as [r st'] eqn:H.
  destruct (confirm_cases _ _ _ _ _ _ H) as (new & _ & S); cbn [fst].
  destruct S as [(e & -> & _)|(hdrs & rd & ps & answer & S)]; [eauto|].
  cbn zeta in S; destruct S as (_ & _ & _ & [(e & _ & -> & _)|(v & fin & _ & _ & S)]);
    [eauto|].
  destruct (last_four_of (card_detail_of rd)).
  - destruct S as (entries & -> & _); eauto.
  - destruct S as (-> & _); eauto.
Qed.

(* ================================================================= *)
(** ** The statements sent to the database *)

(** C9, the claim as it stands fails: the text of the update statement is
    synthesized from the keys of [update_data], so two inputs give two
    texts, and a key that carries SQL reaches the database inside the
    statement. *)
Lemma update_sql_depends_on_keys :
  update_sql [("status", VStr "approved")]
  <> update_sql [("status = 'approved', token", VStr "x")]
  /\ hd_error (trace (snd (_update_transaction happy_world integration_service
                             (VStr "VC-1")
                             [("status = 'approved', token", VStr "x")] start)))
     = Some (EExecute
               "UPDATE payment_transactions SET status = 'approved', token = :status = 'approved', token WHERE buy_order = :buy_order"
               [ ("buy_order", StringValue (VStr "VC-1"));
                 ("status = 'approved', token", StringValue (VStr "x")) ]
               (Ok (VDict []))).
Proof. split; [cbv; discriminate|vm_compute; reflexivity]. Qed.

Lemma set_clauses_keys (d1 d2 : list (string * value)) :
  map fst d1 = map fst d2 -> set_clauses d1 = set_clauses d2.
Proof.
  intros H.
  assert (E : forall d, set_clauses d
                        = map (fun k => (k ++ " = :" ++ k)%string) (map fst d)).
  { intros d; unfold set_clauses; now rewrite map_map. }
  now rewrite !E, H.
Qed.

(** C9, amended: the insert of a transaction row sends one fixed statement
    with bound parameters.  The update binds every value as a parameter,
    but the text it sends is built from the keys of [update_data]: two
    inputs give the same text when they have the same keys in the same
    order, whatever their values. *)
Theorem update_sql_from_keys_only :
  forall w self buy_order d1 d2 st,
    (exists log answer,
        trace (snd (_update_transaction w self buy_order d1 st))
        = (log ++ EExecute (update_sql d1) (update_parameters w buy_order d1) answer
               :: trace st)%list
        /\ existsb is_execute log = false) /\
    (exists log answer,
        trace (snd (_store_transaction w self d1 st))
        = (log ++ EExecute sql_insert_transaction
                    (map (fun kv => (fst kv, string_field w (snd kv))) d1) answer
               :: trace st)%list
        /\ existsb is_execute log = false) /\
    (map fst d1 = map fst d2 -> update_sql d1 = update_sql d2) /\
    map fst (update_parameters w buy_order d1) = "buy_order" :: map fst d1.
Proof.
  intros w self bo d1 d2 st; repeat split.
  - rewrite update_transaction_eq; unfold executed; cbn [snd trace].
    eexists; eexists; split; [reflexivity|].
    destruct (execute_statement w _ _ _); reflexivity.
  - rewrite store_transaction_eq; unfold executed; cbn [snd trace].
    eexists; eexists; split; [reflexivity|].
    destruct (execute_statement w _ _ _); reflexivity.
  - intros H; unfold update_sql; now rewrite (set_clauses_keys _ _ H).
  - unfold update_parameters; simpl; f_equal.
    rewrite map_map; reflexivity.
Qed.

Lemma update_sql_from_keys_only_witness :
  update_sql [("status", VStr "approved")] = update_sql [("status", VStr "rejected")].
Proof.
  apply (proj1 (proj2 (proj2 (update_sql_from_keys_only happy_world integration_service
                                VNone [("status", VStr "approved")]
                                [("status", VStr "rejected")] start)))).
  reflexivity.
Defined.

(* ================================================================= *)
(** ** create: the amount *)

(** C6, the claim as it stands fails: nothing in [create] looks at the sign
    of the amount.  With an amount of -100 the gateway is called with -119
    and the row is stored. *)
Lemma create_takes_a_negative_amount :
  let run := create_payment_transaction happy_world integration_service
               (VDict [("amount", VInt (-100))]) start in
  (exists entries, fst run = Ok (Success entries)
                   /\ lookup "amount" entries = Some (VInt (-119))) /\
  existsb is_http (trace (snd run)) = true /\
  existsb is_execute (trace (snd run)) = true.
Proof.
  vm_compute; repeat split; try reflexivity.
  eexists; split; reflexivity.
Qed.

(** C6, amended: when the request has no [amount], create fails with the
    [KeyError] of the missing key as its [{success: false, error}] result,
    before it calls the gateway or writes to the store: the only event is
    the log line.  The sign of a present amount is not checked. *)
Theorem create_without_amount :
  forall w self d st,
    lookup "amount" d = None ->
    create_payment_transaction w self (VDict d) st
    = (Ok (Failure (KeyError (VStr "amount"))),
       {| trace := ELogError "Error creating Transbank transaction"
                     (KeyError (VStr "amount")) :: trace st;
          ticks := S (S (ticks st)) |}).
Proof.
  intros w self d st H.
  monad_unfold; cbn [py_getitem]; rewrite H; reflexivity.
Qed.

Lemma create_without_amount_witness :
  create_payment_transaction happy_world integration_service (VDict []) start
  = (Ok (Failure (KeyError (VStr "amount"))),
     {| trace := [ELogError "Error creating Transbank transaction"
                    (KeyError (VStr "amount"))];
        ticks := 2 |}).
Proof.
  exact (create_without_amount happy_world integration_service [] start eq_refl).
Defined.

(* ================================================================= *)
(** ** create: the gateway first, the store second *)

(** C4: when the gateway call of a create fails (an exception of the HTTP
    client, or an answer without a url or a token), nothing is written to
    the store and the result is [{success: false, error}]; a store write is
    always preceded by a gateway answer that carries both. *)
Theorem create_stores_after_gateway_success :
  forall w self payment_data st r st',
    create_payment_transaction w self payment_data st = (r, st') ->
    exists new,
      trace st' = (new ++ trace st)%list /\
      (existsb is_gateway_success new = false ->
       existsb is_execute new = false /\ exists e, r = Ok (Failure e)) /\
      (forall l1 ev l2,
          new = (l1 ++ ev :: l2)%list -> is_execute ev = true ->
          existsb is_gateway_success l2 = true).
Proof.
  intros w self pd st r st' H.
  destruct (create_cases _ _ _ _ _ _ H) as (new & Hn & S).
  exists new; split; [exact Hn|]; clear H Hn.
  destruct S as [(e & -> & -> & _)
                |(base & tax & total & hdrs & data & reply & _ & _ & _ & S)].
  { split; [intros _; split; [reflexivity|now exists e]|].
    intros l1 ev l2 E Hev; at_position E; discriminate Hev. }
  cbn zeta in S.
  destruct S as [(G & e & -> & ->)|(G & ps & answer & _ & S)].
  { assert (L : existsb is_execute (api_log reply) = false)
      by (destruct reply as [|[]]; reflexivity).
    split.
    - intros _; split; [|now exists e].
      cbn [existsb is_execute orb]. rewrite existsb_app, L. reflexivity.
    - intros l1 ev l2 E Hev. exfalso.
      assert (X : existsb is_execute
                    (ELogError creating_failed e
                     :: api_log reply
                     ++ [EHttp "POST" (base_url self ++ transactions_endpoint)
                           hdrs data reply])%list = true).
      { rewrite E, existsb_app. cbn [existsb]. rewrite Hev.
        now rewrite orb_true_r. }
      cbn [existsb is_execute orb] in X. rewrite existsb_app, L in X.
      discriminate X. }
  cbn zeta in S.
  destruct S as [(e & -> & -> & ->)|(v & entries & -> & -> & _ & ->)].
  - split.
    + cbn [existsb is_gateway_success is_execute orb]. rewrite G.
      intros X; discriminate X.
    + intros l1 ev l2 E Hev; at_position E; try discriminate Hev.
      cbn [existsb is_gateway_success orb]. now rewrite G.
  - split.
    + cbn [existsb is_gateway_success is_execute orb]. rewrite G.
      intros X; discriminate X.
    + intros l1 ev l2 E Hev; at_position E; try discriminate Hev.
      cbn [existsb is_gateway_success orb]. now rewrite G.
Qed.

Lemma create_stores_after_gateway_success_witness :
  let run := create_payment_transaction gateway_down_world integration_service
               (VDict [("amount", VInt 10000)]) start in
  exists new,
    trace (snd run) = (new ++ trace start)%list /\
    (existsb is_gateway_success new = false ->
     existsb is_execute new = false /\ exists e, fst run = Ok (Failure e)) /\
    (forall l1 ev l2,
        new = (l1 ++ ev :: l2)%list -> is_execute ev = true ->
        existsb is_gateway_success l2 = true).
Proof.
  intros run.
  apply (create_stores_after_gateway_success gateway_down_world integration_service
           (VDict [("amount", VInt 10000)]) start (fst run) (snd run)).
  vm_compute; reflexivity.
Defined.

(* ================================================================= *)
(** ** create: the charged total *)

Lemma in_api_log_not_http (reply : res value) (ev : event) :
  In ev (api_log reply) -> is_http ev = false /\ is_execute ev = false.
Proof.
  destruct reply as [v|[]]; cbn [api_log In]; try tauto.
  intros [<-|[]]; split; reflexivity.
Qed.

(** C1, the claim as it stands fails: the total is computed in binary64.
    For the whole amount 106259007179421 the sum [A + A * 0.19] rounds up
    to the next integer, and for the amount 2.5210084033613445 (the double
    [5676806252988020 * 2^-51], below [3 / 1.19]) it rounds up to 3.0;
    create sends and returns the rounded total. *)
Lemma total_is_not_always_the_floor :
  (exists tax, compute_total (VInt 106259007179421) = Ok (tax, 126448218543511))
  /\ 119 * 106259007179421 / 100 = 126448218543510
  /\ (exists tax,
         compute_total (VFloat (S754_finite false 5676806252988020 (-51)))
         = Ok (tax, 3))
  /\ 119 * 5676806252988020 / (100 * 2 ^ 51) = 2
  /\ exists entries,
      fst (create_payment_transaction happy_world integration_service
             (VDict [("amount", VInt 106259007179421)]) start)
      = Ok (Success entries)
      /\ lookup "amount" entries = Some (VInt 126448218543511).
Proof.
  repeat split; try (eexists; vm_compute; reflexivity); try (vm_compute; reflexivity).
  eexists; split; vm_compute; reflexivity.
Qed.

(** C1, amended: for every payment request whose base amount is a whole
    number [A] with [0 <= A <= 2^43], create computes the total as exactly
    [floor(A * 119 / 100)] (the tax is the double [A * 0.19], the total the
    integer part of the double [A + tax]); this total is the amount of
    every request sent to the gateway, of every row stored, and of the
    result, and the gateway is called whenever the credentials are there. *)
Theorem create_charges_the_floor_total :
  forall w self payment_data st r st' A,
    0 <= A <= 2 ^ 43 ->
    py_getitem payment_data "amount" = Ok (VInt A) ->
    create_payment_transaction w self payment_data st = (r, st') ->
    let total := 119 * A / 100 in
    (exists tax, compute_total (VInt A) = Ok (tax, total)) /\
    exists new,
      trace st' = (new ++ trace st)%list /\
      (forall method url hdrs data reply,
          In (EHttp method url hdrs data reply) new ->
          py_getitem data "amount" = Ok (VInt total)) /\
      (forall sql ps answer,
          In (EExecute sql ps answer) new ->
          field_of "amount" ps
          = Some (StringValue (VStr (py_str (py_repr w) (VInt total))))) /\
      (forall entries,
          r = Ok (Success entries) -> lookup "amount" entries = Some (VInt total)) /\
      (forall hdrs, api_headers self = Ok hdrs -> existsb is_http new = true).
Proof.
  intros w self pd st r st' A HA Hpd H total.
  destruct (compute_total_floor A HA) as (tax & Ht). fold total in Ht.
  split; [exists tax; exact Ht|].
  destruct (create_cases _ _ _ _ _ _ H) as (new & Hn & S).
  exists new; split; [exact Hn|]; clear H Hn.
  destruct S as [(e & -> & -> & Why)
                |(base & tax' & total' & hdrs & data & reply & Eb & Et & Ed & S)].
  { repeat split.
    - intros m u h d rep [D|[]]; discriminate D.
    - intros sql ps ans [D|[]]; discriminate D.
    - intros entries D; discriminate D.
    - intros hdrs Hh. exfalso.
      destruct Why as [W1|[(base & W1 & W2)|W3]].
      + rewrite W1 in Hpd; discriminate Hpd.
      + rewrite W1 in Hpd; injection Hpd as ->. rewrite W2 in Ht; discriminate Ht.
      + rewrite W3 in Hh; discriminate Hh. }
  rewrite Eb in Hpd; injection Hpd as ->.
  rewrite Et in Ht; injection Ht as -> ->.
  cbn zeta in S.
  destruct S as [(G & e & -> & ->)|(G & ps & answer & Ep & S)].
  { repeat split.
    - intros m u h d rep [D|I]; [discriminate D|].
      apply in_app_or in I as [I|[D|[]]].
      + apply in_api_log_not_http in I as [I _]; discriminate I.
      + injection D as _ _ _ <- _; exact Ed.
    - intros sql ps ans [D|I]; [discriminate D|].
      apply in_app_or in I as [I|[D|[]]]; [|discriminate D].
      apply in_api_log_not_http in I as [_ I]; discriminate I.
    - intros entries D; discriminate D.
    - intros hdrs' _. cbn [existsb is_http orb]. rewrite existsb_app. cbn.
      now rewrite orb_true_r. }
  cbn zeta in S.
  destruct S as [(e & -> & -> & ->)|(v & entries & -> & -> & He & ->)].
  - repeat split.
    + intros m u h d rep [D|[D|[D|[D|[]]]]]; try discriminate D.
      injection D as _ _ _ <- _; exact Ed.
    + intros sql ps' ans [D|[D|[D|[D|[]]]]]; try discriminate D.
      injection D as _ <- _; exact Ep.
    + intros entries D; discriminate D.
  - repeat split.
    + intros m u h d rep [D|[D|[]]]; try discriminate D.
      injection D as _ _ _ <- _; exact Ed.
    + intros sql ps' ans [D|[D|[]]]; try discriminate D.
      injection D as _ <- _; exact Ep.
    + intros entries' D; injection D as <-; exact He.
Qed.

(** A request for 10000 is charged 11900. *)
Lemma create_charges_the_floor_total_witness :
  let run := create_payment_transaction happy_world integration_service
               (VDict [("amount", VInt 10000)]) start in
  (exists tax, compute_total (VInt 10000) = Ok (tax, 11900)) /\
  exists new,
    trace (snd run) = (new ++ trace start)%list /\
    (forall method url hdrs data reply,
        In (EHttp method url hdrs data reply) new ->
        py_getitem data "amount" = Ok (VInt 11900)) /\
    (forall sql ps answer,
        In (EExecute sql ps answer) new ->
        field_of "amount" ps = Some (StringValue (VStr "11900"))) /\
    (forall entries,
        fst run = Ok (Success entries) -> lookup "amount" entries = Some (VInt 11900)) /\
    (forall hdrs, api_headers integration_service = Ok hdrs ->
                  existsb is_http new = true).
Proof.
  intros run.
  apply (create_charges_the_floor_total happy_world integration_service
           (VDict [("amount", VInt 10000)]) start (fst run) (snd run) 10000).
  - change (2 ^ 43) with 8796093022208; lia.
  - reflexivity.
  - vm_compute; reflexivity.
Defined.

(* ================================================================= *)
(** ** confirm: classification and the finalizer *)

(** Events of the finalizer are no updates, approvals or entries. *)
Lemma finalizer_events_no_finalize (evs : list event) :
  forallb is_finalizer_event evs = true -> filter is_finalize evs = [].
Proof.
  induction evs as [|ev evs IH]; [reflexivity|].
  cbn [forallb filter]; intros H; apply andb_prop in H as [H1 H2].
  destruct ev; try discriminate H1; cbn [is_finalize]; auto.
Qed.

Lemma finalizer_events_no_update (evs : list event) :
  forallb is_finalizer_event evs = true -> existsb is_update_done evs = false.
Proof.
  induction evs as [|ev evs IH]; [reflexivity|].
  cbn [forallb existsb]; intros H; apply andb_prop in H as [H1 H2].
  rewrite (IH H2), orb_false_r.
  destruct ev as [| | |sql ps [v|e]| | |]; try reflexivity.
  cbn [is_finalizer_event is_update_done] in *.
  apply orb_prop in H1 as [H1|H1]; apply String.eqb_eq in H1; subst sql; reflexivity.
Qed.

Lemma finalizer_events_no_approval (evs : list event) :
  forallb is_finalizer_event evs = true -> existsb classified_approved evs = false.
Proof.
  induction evs as [|ev evs IH]; [reflexivity|].
  cbn [forallb existsb]; intros H; apply andb_prop in H as [H1 H2].
  rewrite (IH H2), orb_false_r.
  destruct ev; try discriminate H1; reflexivity.
Qed.


Lemma no_execute_no_update (l : list event) :
  existsb is_execute l = false -> existsb is_update_done l = false.
Proof.
  induction l as [|ev l IH]; [reflexivity|].
  cbn [existsb]; intros H; apply orb_false_elim in H as [H1 H2].
  rewrite (IH H2), orb_false_r.
  destruct ev; try discriminate H1; reflexivity.
Qed.

Lemma no_execute_no_booking (l : list event) :
  existsb is_execute l = false -> existsb is_booking_insert l = false.
Proof.
  induction l as [|ev l IH]; [reflexivity|].
  cbn [existsb]; intros H; apply orb_false_elim in H as [H1 H2].
  rewrite (IH H2), orb_false_r.
  destruct ev; try discriminate H1; reflexivity.
Qed.

Lemma no_finalize_filter (l : list event) :
  existsb is_finalize l = false -> filter is_finalize l = [].
Proof.
  induction l as [|ev l IH]; [reflexivity|].
  cbn [existsb filter]; intros H; apply orb_false_elim in H as [H1 H2].
  rewrite H1; auto.
Qed.




(** C3, the claim as it stands fails: the gateway authorizes the payment
    (status AUTHORIZED, response code 0, classified [approved]), the update
    of the row raises, and the finalizer is not invoked. *)
Lemma approved_without_finalizer :
  let run := confirm_payment_transaction database_down_world integration_service
               (VStr "tok") start in
  existsb classified_approved (trace (snd run)) = true /\
  List.length (filter is_finalize (trace (snd run))) = 0%nat /\
  fst run = Ok (Failure (Raised "BadRequestException")).
Proof. vm_compute; repeat split. Qed.

(** C3, amended: in a single confirm call the Booking Finalizer is invoked
    exactly once if the outcome is classified [approved] and the update of
    the transaction row succeeded, and zero times otherwise (classified
    [rejected] or [pending], or the update failed); a booking is inserted
    only in a call whose outcome is classified [approved]. *)
Theorem finalizer_once_when_approved_and_updated :
  forall w self token st r st',
    confirm_payment_transaction w self token st = (r, st') ->
    exists new,
      trace st' = (new ++ trace st)%list /\
      List.length (filter is_finalize new)
      = (if existsb classified_approved new && existsb is_update_done new
         then 1 else 0)%nat /\
      (existsb is_booking_insert new = true ->
       existsb classified_approved new = true /\ existsb is_update_done new = true).
Proof.
  intros w self token st r st' H.
  destruct (confirm_cases _ _ _ _ _ _ H) as (new & Hn & S).
  exists new; split; [exact Hn|]; clear H Hn.
  destruct S as [(e & -> & X & F)|(hdrs & rd & ps & answer & S)].
  { rewrite (no_finalize_filter _ F), (no_execute_no_update _ X),
      (no_execute_no_booking _ X), andb_false_r.
    split; [reflexivity|intros D; discriminate D]. }
  cbn zeta in S. destruct S as (_ & _ & _ & S).
  destruct S as [(e & -> & -> & ->)|(v & fin & -> & P & S)].
  { cbn [filter is_finalize existsb is_update_done is_booking_insert orb length].
    rewrite andb_false_r.
    split; [reflexivity|intros D; vm_compute in D; discriminate D]. }
  assert (T : exists pre,
             new = (pre ++ fin
                    ++ [EExecute confirm_update_sql ps (Ok v);
                        EHttp "PUT" (confirm_url w self token) hdrs VNone
                          (Ok (VDict rd))])%list
             /\ (pre = [] \/ exists e, pre = [ELogError confirming_failed e])).
  { destruct (last_four_of (card_detail_of rd)).
    - destruct S as (entries & _ & _ & ->). exists []; split; [reflexivity|now left].
    - destruct S as (_ & ->). eexists [_]; split; [reflexivity|right; eauto]. }
  clear S. destruct T as (pre & -> & Hpre).
  assert (Pf : filter is_finalize pre = []
               /\ existsb classified_approved pre = false
               /\ existsb is_update_done pre = false
               /\ existsb is_booking_insert pre = false)
    by (destruct Hpre as [->|(e & ->)]; repeat split).
  destruct Pf as (P1 & P2 & P3 & P4).
  rewrite !filter_app, !existsb_app, !length_app, P1, P2, P3, P4.
  cbn [app length filter is_finalize existsb classified_approved is_update_done
         is_booking_insert orb Nat.add].
  unfold finalizer_part in P.
  assert (U : String.eqb confirm_update_sql confirm_update_sql = true)
    by apply String.eqb_refl.
  assert (B : String.eqb confirm_update_sql sql_insert_booking = false)
    by reflexivity.
  rewrite U, B.
  destruct (status_of rd =? "approved")%string.
  - destruct P as (evs & -> & Hev).
    rewrite filter_app, !existsb_app, length_app,
      (finalizer_events_no_finalize _ Hev), (finalizer_events_no_update _ Hev),
      (finalizer_events_no_approval _ Hev).
    cbn. split; [reflexivity|intros _; split; reflexivity].
  - subst fin. cbn. split; [reflexivity|intros D; discriminate D].
Qed.

Lemma finalizer_once_when_approved_and_updated_witness :
  let run := confirm_payment_transaction happy_world integration_service
               (VStr "tok") start in
  exists new,
    trace (snd run) = (new ++ trace start)%list /\
    List.length (filter is_finalize new)
    = (if existsb classified_approved new && existsb is_update_done new
       then 1 else 0)%nat /\
    (existsb is_booking_insert new = true ->
     existsb classified_approved new = true /\ existsb is_update_done new = true).
Proof.
  intros run.
  apply (finalizer_once_when_approved_and_updated happy_world integration_service
           (VStr "tok") start (fst run) (snd run)).
  vm_compute; reflexivity.
Defined.

(* ================================================================= *)
(** ** confirm: failures inside the finalizer *)

(** The two runs go in step up to the finalizer, which returns in both,
    and the response is built from the gateway's answer. *)
Lemma confirm_result_without_finalizer w db parse ymd uuid self token st :
  fst (confirm_payment_transaction (with_finalizer w db parse ymd uuid) self token st)
  = fst (confirm_payment_transaction w self token st).
Proof.
  set (w' := with_finalizer w db parse ymd uuid).
  unfold confirm_payment_transaction, now_ymd, now_iso, uuid4,
    try_except, bind, ret, raise, lift, emit, tick, history, log_error.
  cbn [fst snd trace ticks].
  rewrite !call_api_put.
  destruct (api_headers self) as [hdrs|e]; [|reflexivity].
  unfold sent; cbn [fst snd trace ticks].
  change (py_repr w') with (py_repr w).
  change (http_request w') with (http_request w).
  destruct (http_request w (trace st) "PUT" _ hdrs VNone) as [response|e];
    [|reflexivity].
  cbn [fst snd trace ticks].
  destruct (truthy response); [|reflexivity].
  destruct response as [| | | | | |rd]; try reflexivity.
  cbn [py_get fst snd trace ticks].
  change (_get_payment_type_description w') with (_get_payment_type_description w).
  change (clock_iso w') with (clock_iso w).
  destruct (py_get _ "card_number" VNone) as [card_number|e]; [|reflexivity].
  destruct (_get_payment_type_description w _) as [payment_type|e]; [|reflexivity].
  cbn [fst snd trace ticks].
  rewrite !update_transaction_eq; unfold executed.
  change (update_parameters w') with (update_parameters w).
  match goal with
  | |- context [execute_statement w' ?h ?q ?p] =>
      change (execute_statement w' h q p) with (execute_statement w h q p)
  end.
  cbn [fst snd trace ticks].
  match goal with
  | |- context [execute_statement w ?h ?q ?p] =>
      destruct (execute_statement w h q p) as [v|e]
  end; [|reflexivity].
  cbn [fst snd trace ticks failure_log app].
  destruct (payment_status_of _ _ =? "approved")%string.
  - match goal with
    | |- context [_process_successful_booking w' ?s ?b ?t] =>
        destruct (_process_successful_booking w' s b t) as [r1 s1] eqn:E1;
        pose proof (finalizer_result w' s b t) as F1; rewrite E1 in F1;
        destruct (_process_successful_booking w s b t) as [r2 s2] eqn:E2;
        pose proof (finalizer_result w s b t) as F2; rewrite E2 in F2
    end.
    cbn [fst] in F1, F2; subst r1 r2.
    destruct (last_four_of _); reflexivity.
  - destruct (last_four_of _); reflexivity.
Qed.

Lemma finalizer_entered w self token st r st' new :
  confirm_payment_transaction w self token st = (r, st') ->
  trace st' = (new ++ trace st)%list ->
  existsb is_finalize new = true ->
  exists hdrs rd,
    In (EHttp "PUT" (confirm_url w self token) hdrs VNone (Ok (VDict rd))) new /\
    status_of rd = "approved" /\
    match last_four_of (card_detail_of rd) with
    | Ok _ => exists entries,
                r = Ok (Success entries) /\
                lookup "status" entries = Some (VStr "approved")
    | Raise e => r = Ok (Failure e)
    end.
Proof.
  intros H Hn Hf.
  destruct (confirm_cases _ _ _ _ _ _ H) as (new' & Hn' & S).
  rewrite Hn' in Hn; apply app_inv_tail in Hn; subst new'; clear H Hn'.
  destruct S as [(e & -> & X & F)|(hdrs & rd & ps & answer & S)].
  { rewrite F in Hf; discriminate Hf. }
  cbn zeta in S. destruct S as (_ & _ & _ & S).
  destruct S as [(e & -> & -> & ->)|(v & fin & -> & P & S)].
  { discriminate Hf. }
  exists hdrs, rd.
  assert (A : status_of rd = "approved").
  { unfold finalizer_part in P.
    destruct (status_of rd =? "approved")%string eqn:A;
      [now apply String.eqb_eq in A|].
    subst fin. destruct (last_four_of (card_detail_of rd)).
    - destruct S as (entries & _ & _ & ->); discriminate Hf.
    - destruct S as (_ & ->); discriminate Hf. }
  split; [|split; [exact A|]].
  - destruct (last_four_of (card_detail_of rd)).
    + destruct S as (entries & _ & _ & ->).
      apply in_or_app; right; right; left; reflexivity.
    + destruct S as (_ & ->). right.
      apply in_or_app; right; right; left; reflexivity.
  - destruct (last_four_of (card_detail_of rd)).
    + destruct S as (entries & -> & Hs & _). exists entries; split; [reflexivity|].
      now rewrite Hs, A.
    + now destruct S as (-> & _).
Qed.

(** When the last four characters of the card number can be taken: the
    card detail has no card number, or one that is false or a string. *)
Lemma last_four_can_be_taken (cd : list (string * value)) :
  match lookup "card_number" cd with
  | None => True
  | Some number => truthy number = false \/ exists s, number = VStr s
  end ->
  exists v, last_four_of (VDict cd) = Ok v.
Proof.
  unfold last_four_of. cbn [py_get].
  destruct (lookup "card_number" cd) as [number|]; [|eexists; reflexivity].
  intros [F|(s & ->)].
  - rewrite F. eexists; reflexivity.
  - destruct (truthy (VStr s)); eexists; reflexivity.
Qed.

(** C5, the claim as it stands fails: the gateway authorizes the payment
    (status AUTHORIZED, response code 0, classified [approved]) and reports
    the card number as the number 6623; the finalizer is entered and fails
    on the database, which is logged and contained; and confirm returns
    [success: False] with the TypeError of [6623[-4:]], line 169.  It does
    so too when the finalizer meets no failure and inserts the booking. *)
Lemma approved_confirm_reports_failure :
  let down := with_finalizer numeric_card_world
                (fun _ _ _ => Raise (Raised "BadRequestException"))
                (int_of_str happy_world) (clock_ymd happy_world)
                (uuid4_hex happy_world) in
  let run := confirm_payment_transaction down integration_service (VStr "tok") start in
  let calm := confirm_payment_transaction numeric_card_world integration_service
                (VStr "tok") start in
  (existsb classified_approved (trace (snd run)) = true /\
   existsb is_finalize (trace (snd run)) = true /\
   In (ELogError "Error processing successful booking" (Raised "BadRequestException"))
      (trace (snd run)) /\
   fst run = Ok (Failure TypeError))
  /\
  (existsb classified_approved (trace (snd calm)) = true /\
   existsb is_finalize (trace (snd calm)) = true /\
   existsb is_booking_insert (trace (snd calm)) = true /\
   fst calm = Ok (Failure TypeError)).
Proof.
  vm_compute.
  split; (split; [reflexivity|]; split; [reflexivity|]; split; [|reflexivity]).
  - right; left; reflexivity.
  - reflexivity.
Qed.

(** C5, amended: whatever happens inside the Booking Finalizer (the read of
    the row, the insert of the booking, the notification), confirm does not
    raise and its response is the one it gives in a world where the
    finalizer meets no failure.  Once the finalizer is entered, the
    gateway's answer is classified [approved] and the response is built
    from that answer alone: [success: true] with status [approved] when
    the last four characters of the card number can be taken, which is so
    when the card detail has no card number or one that is false or a
    string; and [success: false] with the exception of line 169 when they
    cannot. *)
Theorem finalizer_failure_is_contained :
  forall w db parse ymd uuid self token st,
    let run := confirm_payment_transaction (with_finalizer w db parse ymd uuid)
                 self token st in
    (exists o, fst run = Ok o) /\
    fst run = fst (confirm_payment_transaction w self token st) /\
    (forall new,
        trace (snd run) = (new ++ trace st)%list ->
        existsb is_finalize new = true ->
        exists hdrs rd,
          In (EHttp "PUT" (confirm_url w self token) hdrs VNone (Ok (VDict rd))) new /\
          status_of rd = "approved" /\
          match last_four_of (card_detail_of rd) with
          | Ok _ => exists entries,
                      fst run = Ok (Success entries) /\
                      lookup "status" entries = Some (VStr "approved")
          | Raise e => fst run = Ok (Failure e)
          end) /\
    (forall rd cd,
        card_detail_of rd = VDict cd ->
        match lookup "card_number" cd with
        | None => True
        | Some number => truthy number = false \/ exists s, number = VStr s
        end ->
        exists v, last_four_of (card_detail_of rd) = Ok v).
Proof.
  intros w db parse ymd uuid self token st run.
  split; [apply confirm_never_raises|].
  split; [apply confirm_result_without_finalizer|].
  split.
  - intros new Hn Hf.
    apply (finalizer_entered (with_finalizer w db parse ymd uuid) self token st
             (fst run) (snd run) new); [apply surjective_pairing|exact Hn|exact Hf].
  - intros rd cd -> H. now apply last_four_can_be_taken.
Qed.

(** The database fails inside the finalizer, and confirm answers as in the
    world where it does not. *)
Lemma finalizer_failure_is_contained_witness :
  let down := with_finalizer happy_world
                (fun _ _ _ => Raise (Raised "BadRequestException"))
                (int_of_str happy_world) (clock_ymd happy_world)
                (uuid4_hex happy_world) in
  let run := confirm_payment_transaction down integration_service (VStr "tok") start in
  fst run
  = fst (confirm_payment_transaction happy_world integration_service (VStr "tok") start)
  /\ exists hdrs rd,
      In (EHttp "PUT" (confirm_url happy_world integration_service (VStr "tok"))
            hdrs VNone (Ok (VDict rd))) (trace (snd run)) /\
      status_of rd = "approved" /\
      match last_four_of (card_detail_of rd) with
      | Ok _ => exists entries,
                  fst run = Ok (Success entries) /\
                  lookup "status" entries = Some (VStr "approved")
      | Raise e => fst run = Ok (Failure e)
      end.
Proof.
  intros down run.
  destruct (finalizer_failure_is_contained happy_world
              (fun _ _ _ => Raise (Raised "BadRequestException"))
              (int_of_str happy_world) (clock_ymd happy_world)
              (uuid4_hex happy_world) integration_service (VStr "tok") start)
    as (_ & Same & After & _).
  split; [exact Same|].
  apply (After (trace (snd run))).
  - vm_compute; reflexivity.
  - vm_compute; reflexivity.
Defined.

(* ================================================================= *)
(** ** The handler: the action of a request *)

(** C10, the claim as it stands fails twice: an action that is present but
    empty is not defaulted, it raises [Unknown action] (HTTP 500); and a
    request without an action still fails with HTTP 500 when the payment
    service cannot be constructed. *)
Lemma empty_action_is_unknown :
  (let run := lambda_handler happy_world
                [("body", VDict [("action", VStr "")])] start in
   fst run = Ok {| statusCode := 500; headers := error_headers;
                   response_body := BodyError None |}
   /\ hd_error (trace (snd run))
      = Some (ELogError processing_failed (UnknownAction (VStr ""))))
  /\
  (let run := lambda_handler production_world
                [("body", VDict [("payment_data", VDict [("amount", VInt 10000)])])]
                start in
   fst run = Ok {| statusCode := 500; headers := error_headers;
                   response_body := BodyError None |}).
Proof. vm_compute; repeat split. Qed.

(** C10, amended: when the payment service is constructed and the request
    body is an object without an [action] field, the handler invokes create
    with the body's [payment_data] (an empty object by default) and answers
    HTTP 200 with create's result; an action that is present and is neither
    ['create'] nor ['confirm'], the empty string included, raises
    [Unknown action] and the handler answers HTTP 500. *)
Theorem handler_defaults_to_create :
  forall w event st d payment_service st1,
    request_body w event = Ok (VDict d) ->
    TransbankPaymentService w st = (Ok payment_service, st1) ->
    (lookup "action" d = None ->
     exists result,
       fst (create_payment_transaction w payment_service (payment_data_of d) st1)
       = Ok result /\
       lambda_handler w event st
       = (Ok {| statusCode := 200; headers := ok_headers;
                response_body := BodyResult result |},
          snd (create_payment_transaction w payment_service (payment_data_of d) st1)))
    /\
    (forall action,
        lookup "action" d = Some action ->
        py_eq_str action "create" = false ->
        py_eq_str action "confirm" = false ->
        lambda_handler w event st
        = (Ok {| statusCode := 500; headers := error_headers;
                 response_body := BodyError (shown_error w (UnknownAction action)) |},
           {| trace := ELogError processing_failed (UnknownAction action) :: trace st1;
              ticks := ticks st1 |})).
Proof.
  intros w event st d svc st1 Hb Hs.
  assert (Body : forall s,
             match lookup "body" event with
             | Some (VStr s) => lift (json_loads w s)
             | Some b => ret b
             | None => ret (VDict event)
             end s = (Ok (VDict d), s)).
  { intros s; unfold request_body in Hb.
    destruct (lookup "body" event) as [[]|]; unfold lift, ret;
      try (injection Hb as <-; reflexivity); now rewrite Hb. }
  split.
  - intros Ha.
    destruct (create_never_raises w svc (payment_data_of d) st1) as (result & Hr).
    exists result; split; [exact Hr|].
    unfold lambda_handler, try_except, bind at 1.
    rewrite Body. unfold bind at 1. rewrite Hs.
    unfold bind at 1, lift at 1. cbn [py_get]. rewrite Ha.
    cbn [py_eq_str String.eqb Ascii.eqb Bool.eqb].
    unfold bind at 1, bind at 1, lift at 1. cbn [py_get].
    fold (payment_data_of d).
    destruct (create_payment_transaction w svc (payment_data_of d) st1) as [r st2].
    cbn [fst snd] in *. subst r. reflexivity.
  - intros action Ha Hc Hf.
    unfold lambda_handler, try_except, bind at 1.
    rewrite Body. unfold bind at 1. rewrite Hs.
    unfold bind at 1, lift at 1. cbn [py_get]. rewrite Ha, Hc, Hf.
    unfold bind at 1, raise, log_error, emit, bind, ret, shown_error.
    reflexivity.
Qed.

Lemma handler_defaults_to_create_witness :
  let event := [("payment_data", VDict [("amount", VInt 10000)])] in
  exists result st1,
    fst (TransbankPaymentService happy_world start)
    = Ok integration_service /\
    fst (create_payment_transaction happy_world integration_service
           (payment_data_of event) st1) = Ok result /\
    fst (lambda_handler happy_world event start)
    = Ok {| statusCode := 200; headers := ok_headers;
            response_body := BodyResult result |}.
Proof.
  intros event.
  pose (st1 := snd (TransbankPaymentService happy_world start)).
  destruct (proj1 (handler_defaults_to_create happy_world event start event
                     integration_service st1 eq_refl eq_refl) eq_refl)
    as (result & Hr & Hh).
  exists result, st1; split; [reflexivity|]; split; [exact Hr|].
  now rewrite Hh.
Defined.

(* ================================================================= *)
(** ** The credentials and the calls of the gateway *)

(** X1: in the integration environment the credentials are always there:
    when the secret cannot be read or parsed the failure is logged and the
    well-known test credentials are used.  In every other environment the
    same failure is logged and raised again.  Either way the secret store
    is asked once, for [vuelachile/transbank-<environment>]. *)
Theorem credentials_fall_back_in_integration :
  forall w environment st,
    let run := _get_transbank_credentials w environment st in
    let stored := stored_credentials w (trace st) environment in
    let secret_id := ("vuelachile/transbank-" ++ environment)%string in
    (forall c, stored = Ok c -> fst run = Ok c) /\
    (forall e, stored = Raise e ->
               fst run = if String.eqb environment "integration"
                         then Ok default_credentials else Raise e) /\
    trace (snd run)
    = (failure_log "Error retrieving Transbank credentials" stored
       ++ ESecret secret_id (get_secret_value w (trace st) secret_id) :: trace st)%list.
Proof.
  intros w env st.
  unfold _get_transbank_credentials, stored_credentials, secret, py_json_loads,
    log_error, try_except, bind, ret, raise, lift, emit, history.
  cbn [fst snd trace ticks].
  destruct (get_secret_value w (trace st) ("vuelachile/transbank-" ++ env))
    as [response|e]; cbn [fst snd trace ticks].
  2:{ repeat split; try discriminate.
      - intros e' [= <-]. now destruct (String.eqb env "integration").
      - now destruct (String.eqb env "integration"). }
  destruct (py_getitem response "SecretString") as [s|e]; cbn [fst snd trace ticks].
  2:{ repeat split; try discriminate.
      - intros e' [= <-]. now destruct (String.eqb env "integration").
      - now destruct (String.eqb env "integration"). }
  destruct s as [| | | |s| |];
    try (repeat split; try discriminate;
         [ intros e' [= <-]; now destruct (String.eqb env "integration")
         | now destruct (String.eqb env "integration") ]).
  destruct (json_loads w s) as [c|e]; cbn [fst snd trace ticks].
  - repeat split; try discriminate. now intros c' [= <-].
  - repeat split; try discriminate.
    + intros e' [= <-]. now destruct (String.eqb env "integration").
    + now destruct (String.eqb env "integration").
Qed.

Lemma credentials_fall_back_in_integration_witness :
  fst (_get_transbank_credentials happy_world "integration" start)
  = Ok default_credentials.
Proof.
  exact (proj1 (proj2 (credentials_fall_back_in_integration happy_world "integration"
                         start))
           (Raised "ResourceNotFoundException") eq_refl).
Defined.

(** X2: [_call_transbank_api] sends exactly one request when the method is
    POST, PUT or GET and the credentials hold both keys: its result is the
    reply of the HTTP client, value or exception, a GET carries no body,
    and only a [RequestException] is logged.  With any other method, or
    without one of the keys, it raises before anything is sent, and logs
    nothing. *)
Theorem api_call_sends_one_request :
  forall w self endpoint method data st,
    let run := _call_transbank_api w self endpoint method data st in
    (forall e, api_headers self = Raise e -> run = (Raise e, st)) /\
    (forall hdrs,
        api_headers self = Ok hdrs ->
        supported_method method = false ->
        run = (Raise (UnsupportedMethod method), st)) /\
    (forall hdrs,
        api_headers self = Ok hdrs ->
        supported_method method = true ->
        let url := (base_url self ++ endpoint)%string in
        let reply := http_request w (trace st) method url hdrs (sent_body method data) in
        fst run = reply /\
        trace (snd run)
        = (api_log reply ++ EHttp method url hdrs (sent_body method data) reply
             :: trace st)%list /\
        ticks (snd run) = ticks st).
Proof.
  intros w self endpoint method data st.
  unfold _call_transbank_api, api_headers, supported_method, sent_body, request,
    log_error, try_except, bind, ret, raise, lift, emit, history.
  unfold py_getitem.
  destruct (credentials self) as [| | | | | |d];
    try (split; [|split]; try discriminate; intros e [= <-]; now destruct st).
  destruct (lookup "commerce_code" d) as [k1|];
    [|split; [|split]; try discriminate; intros e [= <-]; now destruct st].
  destruct (lookup "api_key" d) as [k2|];
    [|split; [|split]; try discriminate; intros e [= <-]; now destruct st].
  cbn [fst snd trace ticks].
  split; [discriminate|].
  destruct (String.eqb_spec method "POST") as [->|NP]; cbn [orb].
  { split; [discriminate|]. intros hdrs [= <-] _; cbn [String.eqb Ascii.eqb Bool.eqb].
    destruct (http_request _ _ _ _ _ _) as [v|[]]; repeat split. }
  destruct (String.eqb_spec method "PUT") as [->|NU]; cbn [orb].
  { split; [discriminate|]. intros hdrs [= <-] _; cbn [String.eqb Ascii.eqb Bool.eqb].
    destruct (http_request _ _ _ _ _ _) as [v|[]]; repeat split. }
  destruct (String.eqb_spec method "GET") as [->|NG]; cbn [orb].
  { split; [discriminate|]. intros hdrs [= <-] _.
    destruct (http_request _ _ _ _ _ _) as [v|[]]; repeat split. }
  split; [|discriminate].
  intros hdrs _ _. now destruct st.
Qed.

(** A DELETE is refused without a request, and a GET is sent without the
    body it was given. *)
Lemma api_call_sends_one_request_witness :
  _call_transbank_api happy_world integration_service transactions_endpoint "DELETE"
    VNone start
  = (Raise (UnsupportedMethod "DELETE"), start)
  /\ trace (snd (_call_transbank_api happy_world integration_service
                   transactions_endpoint "GET" (VDict [("amount", VInt 1)]) start))
     = [EHttp "GET" ("https://webpay3gint.transbank.cl" ++ transactions_endpoint)
          [ ("Tbk-Api-Key-Id", VStr "597055555532");
            ("Tbk-Api-Key-Secret",
             VStr "579B532A7440BB0C9079DED94D31EA1615BACEB56610332264630D42D0A36B1C");
            ("Content-Type", VStr "application/json") ]
          VNone (Ok authorized_reply)].
Proof.
  split.
  - exact (proj1 (proj2 (api_call_sends_one_request happy_world integration_service
                           transactions_endpoint "DELETE" VNone start))
             _ eq_refl eq_refl).
  - exact (proj1 (proj2 (proj2 (proj2 (api_call_sends_one_request happy_world
                                         integration_service transactions_endpoint "GET"
                                         (VDict [("amount", VInt 1)]) start))
                           _ eq_refl eq_refl))).
Defined.

(* ================================================================= *)
(** ** create: what is sent, stored and returned *)

Lemma create_run_detail w self payment_data st r st' :
  create_payment_transaction w self payment_data st = (r, st') ->
  exists new,
    trace st' = (new ++ trace st)%list /\ create_detail w self payment_data st r new.
Proof.
  intros H.
  unfold create_payment_transaction, now_ymd, now_iso, uuid4,
    try_except, bind, ret, raise, lift, emit, tick, history, log_error in H.
  cbn [fst snd trace ticks] in H.
  assert (early : forall e n,
             (Ok (Failure e),
              {| trace := ELogError creating_failed e :: trace st; ticks := n |})
             = (r, st') ->
             exists new,
               trace st' = (new ++ trace st)%list /\
               create_detail w self payment_data st r new).
  { intros e n E; injection E as <- <-.
    exists [ELogError creating_failed e]; split; [reflexivity|].
    left; exists e; split; reflexivity. }
  destruct payment_data as [| | | | | |d]; try (apply (early _ _ H)).
  cbn [py_getitem py_get fst snd trace ticks] in H.
  destruct (lookup "amount" d) as [base|] eqn:Ea;
    cbn [fst snd trace ticks] in H; [|apply (early _ _ H)].
  destruct (compute_total base) as [[tax total]|e] eqn:Et;
    cbn [fst snd trace ticks] in H; [|apply (early _ _ H)].
  rewrite call_api_post in H.
  destruct (api_headers self) as [hdrs|e] eqn:Eh;
    cbn [fst snd trace ticks] in H; [|apply (early _ _ H)].
  clear early.
  unfold sent in H; cbn [fst snd trace ticks] in H.
  fold (entry_or d "session_id" (VStr (uuid4_hex w (S (S (ticks st)))))) in H.
  fold (entry_or d "return_url" (VStr "https://vuelachile.cl/payment/return")) in H.
  fold (order_reference w "VC-" (ticks st)) in H.
  fold (gateway_request w d (ticks st) total) in H.
  set (data := gateway_request w d (ticks st) total) in *.
  set (url := (base_url self ++ transactions_endpoint)%string) in *.
  destruct (http_request w (trace st) "POST" url hdrs data) as [response|e] eqn:Er;
    cbn [fst snd trace ticks] in H.
  2:{ injection H as <- <-.
      exists (ELogError creating_failed e :: api_log (Raise e)
              ++ [EHttp "POST" url hdrs data (Raise e)])%list.
      split; [cbn [trace app]; now rewrite <- app_assoc|].
      right; exists d, base, tax, total, hdrs; repeat split; try assumption.
      cbn zeta; fold data; fold url; rewrite Er.
      left; split; [reflexivity|]; exists e; split; reflexivity. }
  set (http := EHttp "POST" url hdrs data (Ok response)) in *.
  assert (rejected : forall e n,
             gateway_created (Ok response) = false ->
             (Ok (Failure e),
              {| trace := ELogError creating_failed e :: http :: trace st;
                 ticks := n |}) = (r, st') ->
             exists new,
               trace st' = (new ++ trace st)%list /\
               create_detail w self (VDict d) st r new).
  { intros e n G E; injection E as <- <-.
    exists [ELogError creating_failed e; http]; split; [reflexivity|].
    right; exists d, base, tax, total, hdrs; repeat split; try assumption.
    cbn zeta; fold data; fold url; rewrite Er.
    left; split; [exact G|]; exists e; split; reflexivity. }
  cbn [api_log app] in H.
  unfold py_get in H.
  destruct response as [| | | | | |rd]; try (apply (rejected _ _ eq_refl H)).
  cbn [fst snd trace ticks py_getitem] in H.
  cbn [gateway_created] in rejected.
  destruct (lookup "url" rd) as [u|] eqn:Eurl; cbn [truthy] in H;
    [|apply (rejected _ _ eq_refl H)].
  destruct (truthy u) eqn:Eu; cbn [fst snd trace ticks] in H.
  2:{ rewrite Eu in H. refine (rejected _ _ _ H). now destruct (lookup "token" rd). }
  destruct (lookup "token" rd) as [t|] eqn:Etok; cbn [truthy fst snd trace ticks] in H;
    [|apply (rejected _ _ eq_refl H)].
  destruct (truthy t) eqn:Ett; cbn [fst snd trace ticks andb] in H;
    [|apply (rejected _ _ eq_refl H)].
  clear rejected.
  rewrite store_transaction_eq in H; unfold executed in H.
  cbn [fst snd trace ticks] in H.
  fold (entry_or d "flight_id" VNone) in H.
  fold (entry_or d "user_id" VNone) in H.
  fold (entry_or d "passenger_count" (VInt 1)) in H.
  fold (transaction_row w d (ticks st) base tax total t) in H.
  fold (row_parameters w (transaction_row w d (ticks st) base tax total t)) in H.
  set (ps := row_parameters w (transaction_row w d (ticks st) base tax total t)) in *.
  destruct (execute_statement w (http :: trace st) sql_insert_transaction ps)
    as [v|e] eqn:Ex;
    cbn [fst snd trace ticks failure_log app] in H; injection H as <- <-.
  - exists [EExecute sql_insert_transaction ps (Ok v); http]; split; [reflexivity|].
    right; exists d, base, tax, total, hdrs; repeat split; try assumption.
    cbn zeta; fold data; fold url; rewrite Er.
    right; exists rd, u, t; repeat split; try assumption.
    fold http; fold ps; rewrite Ex; split; reflexivity.
  - exists [ELogError creating_failed e; ELogError storing_failed e;
            EExecute sql_insert_transaction ps (Raise e); http]; split; [reflexivity|].
    right; exists d, base, tax, total, hdrs; repeat split; try assumption.
    cbn zeta; fold data; fold url; rewrite Er.
    right; exists rd, u, t; repeat split; try assumption.
    fold http; fold ps; rewrite Ex; split; reflexivity.
Qed.

Lemma in_api_log (reply : res value) (ev : event) :
  In ev (api_log reply) -> exists m e, ev = ELogError m e.
Proof.
  destruct reply as [v|[]]; cbn [api_log In]; try tauto.
  intros [<-|[]]; eauto.
Qed.

(** X3: one order reference runs through a create.  The [buy_order] of the
    request sent to the gateway, the [buy_order] of the row stored and the
    [transaction_id] returned are the same string, [VC-<date>-<8 hex
    digits in upper case>]; and the token and the url returned are the
    gateway's, the token stored being that token. *)
Theorem create_identifiers_agree :
  forall w self payment_data st r st',
    create_payment_transaction w self payment_data st = (r, st') ->
    let reference := VStr (order_reference w "VC-" (ticks st)) in
    exists new,
      trace st' = (new ++ trace st)%list /\
      (forall method url hdrs data reply,
          In (EHttp method url hdrs data reply) new ->
          py_getitem data "buy_order" = Ok reference) /\
      (forall sql ps answer,
          In (EExecute sql ps answer) new ->
          field_of "buy_order" ps = Some (StringValue reference)) /\
      (forall entries,
          r = Ok (Success entries) ->
          lookup "transaction_id" entries = Some reference /\
          exists method url hdrs data rd t ps answer,
            new = [EExecute sql_insert_transaction ps answer;
                   EHttp method url hdrs data (Ok (VDict rd))] /\
            lookup "token" rd = Some t /\
            lookup "token" entries = Some t /\
            lookup "payment_url" entries = lookup "url" rd /\
            field_of "token" ps = Some (string_field w t)).
Proof.
  intros w self pd st r st' H reference.
  destruct (create_run_detail _ _ _ _ _ _ H) as (new & Hn & S).
  exists new; split; [exact Hn|]; clear H Hn.
  destruct S as [(e & -> & ->)|(d & base & tax & total & hdrs & -> & Ea & Et & Eh & S)].
  { split; [|split].
    - intros m u h dt rep [D|[]]; discriminate D.
    - intros sql ps ans [D|[]]; discriminate D.
    - intros entries D; discriminate D. }
  cbn zeta in S.
  destruct S as [(G & e & -> & ->)|(rd & u & t & Er & Eu & Etk & Tu & Tt & S)].
  { split; [|split].
    - intros m u h dt rep [D|I]; [discriminate D|].
      apply in_app_or in I as [I|[D|[]]].
      + apply in_api_log in I as (m' & e' & D); discriminate D.
      + injection D as _ _ _ <- _; reflexivity.
    - intros sql ps ans [D|I]; [discriminate D|].
      apply in_app_or in I as [I|[D|[]]]; [|discriminate D].
      apply in_api_log in I as (m' & e' & D); discriminate D.
    - intros entries D; discriminate D. }
  cbn zeta in S. rewrite Er in S.
  destruct (execute_statement w _ sql_insert_transaction _) as [v|e];
    destruct S as (-> & ->).
  - split; [|split].
    + intros m u' h dt rep [D|[D|[]]]; try discriminate D.
      injection D as _ _ _ <- _; reflexivity.
    + intros sql ps ans [D|[D|[]]]; try discriminate D.
      injection D as _ <- _; reflexivity.
    + intros entries [= <-]. split; [reflexivity|].
      do 8 eexists. split; [reflexivity|].
      split; [exact Etk|]. split; [reflexivity|]. split; [now rewrite Eu|reflexivity].
  - split; [|split].
    + intros m u' h dt rep [D|[D|[D|[D|[]]]]]; try discriminate D.
      injection D as _ _ _ <- _; reflexivity.
    + intros sql ps ans [D|[D|[D|[D|[]]]]]; try discriminate D.
      injection D as _ <- _; reflexivity.
    + intros entries D; discriminate D.
Qed.

Lemma create_identifiers_agree_witness :
  let run := create_payment_transaction happy_world integration_service
               (VDict [("amount", VInt 10000)]) start in
  exists new,
    trace (snd run) = (new ++ trace start)%list /\
    (forall method url hdrs data reply,
        In (EHttp method url hdrs data reply) new ->
        py_getitem data "buy_order" = Ok (VStr "VC-20240101-01234567")) /\
    (forall sql ps answer,
        In (EExecute sql ps answer) new ->
        field_of "buy_order" ps = Some (StringValue (VStr "VC-20240101-01234567"))) /\
    (forall entries,
        fst run = Ok (Success entries) ->
        lookup "transaction_id" entries = Some (VStr "VC-20240101-01234567") /\
        exists method url hdrs data rd t ps answer,
          new = [EExecute sql_insert_transaction ps answer;
                 EHttp method url hdrs data (Ok (VDict rd))] /\
          lookup "token" rd = Some t /\
          lookup "token" entries = Some t /\
          lookup "payment_url" entries = lookup "url" rd /\
          field_of "token" ps = Some (string_field happy_world t)).
Proof.
  intros run.
  apply (create_identifiers_agree happy_world integration_service
           (VDict [("amount", VInt 10000)]) start (fst run) (snd run)).
  vm_compute; reflexivity.
Defined.



(** X5: the request a create sends.  It is a POST to the transactions
    endpoint of the service's host with the three headers made from the
    credentials; the session id and the return url are the request's when
    it has them, whatever they are, and otherwise a uuid drawn for the
    purpose and the site's return page. *)
Theorem create_request_defaults :
  forall w self payment_data st r st',
    create_payment_transaction w self payment_data st = (r, st') ->
    exists new,
      trace st' = (new ++ trace st)%list /\
      forall method url hdrs data reply,
        In (EHttp method url hdrs data reply) new ->
        method = "POST" /\
        url = (base_url self ++ transactions_endpoint)%string /\
        api_headers self = Ok hdrs /\
        (exists b s a u,
            data = VDict [("buy_order", b); ("session_id", s); ("amount", a);
                          ("return_url", u)]) /\
        py_get payment_data "session_id" (VStr (uuid4_hex w (S (S (ticks st)))))
        = py_getitem data "session_id" /\
        py_get payment_data "return_url" (VStr "https://vuelachile.cl/payment/return")
        = py_getitem data "return_url".
Proof.
  intros w self pd st r st' H.
  destruct (create_run_detail _ _ _ _ _ _ H) as (new & Hn & Sm).
  exists new; split; [exact Hn|]; clear H Hn.
  destruct Sm as [(e & -> & ->)|(d & base & tax & total & hdrs & -> & Ea & Et & Eh & Sm)].
  { intros m u h dt rep [D|[]]; discriminate D. }
  cbn zeta in Sm.
  assert (Goal_ : forall method url hdrs' data,
             method = "POST" -> url = (base_url self ++ transactions_endpoint)%string ->
             hdrs' = hdrs -> data = gateway_request w d (ticks st) total ->
             method = "POST" /\
             url = (base_url self ++ transactions_endpoint)%string /\
             api_headers self = Ok hdrs' /\
             (exists b s a u,
                 data = VDict [("buy_order", b); ("session_id", s); ("amount", a);
                               ("return_url", u)]) /\
             py_get (VDict d) "session_id" (VStr (uuid4_hex w (S (S (ticks st)))))
             = py_getitem data "session_id" /\
             py_get (VDict d) "return_url" (VStr "https://vuelachile.cl/payment/return")
             = py_getitem data "return_url").
  { intros m u h dt -> -> -> ->. repeat split; try assumption.
    unfold gateway_request; do 4 eexists; reflexivity. }
  destruct Sm as [(G & e & -> & ->)|(rd & u & t & Er & Eu & Etk & Tu & Tt & Sm)].
  { intros m u h dt rep [D|I]; [discriminate D|].
    apply in_app_or in I as [I|[D|[]]].
    - apply in_api_log in I as (m' & e' & D); discriminate D.
    - injection D as <- <- <- <- _. now apply Goal_. }
  cbn zeta in Sm. rewrite Er in Sm.
  destruct (execute_statement w _ sql_insert_transaction _) as [v|e];
    destruct Sm as (-> & ->).
  - intros m u' h dt rep [D|[D|[]]]; try discriminate D.
    injection D as <- <- <- <- _. now apply Goal_.
  - intros m u' h dt rep [D|[D|[D|[D|[]]]]]; try discriminate D.
    injection D as <- <- <- <- _. now apply Goal_.
Qed.

Lemma create_request_defaults_witness :
  let run := create_payment_transaction happy_world integration_service
               (VDict [("amount", VInt 10000); ("session_id", VNone)]) start in
  exists new,
    trace (snd run) = (new ++ trace start)%list /\
    forall method url hdrs data reply,
      In (EHttp method url hdrs data reply) new ->
      method = "POST" /\
      url = ("https://webpay3gint.transbank.cl" ++ transactions_endpoint)%string /\
      api_headers integration_service = Ok hdrs /\
      (exists b s a u,
          data = VDict [("buy_order", b); ("session_id", s); ("amount", a);
                        ("return_url", u)]) /\
      Ok VNone = py_getitem data "session_id" /\
      Ok (VStr "https://vuelachile.cl/payment/return") = py_getitem data "return_url".
Proof.
  intros run.
  apply (create_request_defaults happy_world integration_service
           (VDict [("amount", VInt 10000); ("session_id", VNone)]) start
           (fst run) (snd run)).
  vm_compute; reflexivity.
Defined.

(** X6: a create calls the gateway at most once and writes to the store at
    most once.  A success made exactly one request and one write and
    logged no error.  When the insert raises, create reports that failure
    although the gateway has created the transaction: no further request
    is sent to the gateway. *)
Theorem create_one_request_one_write :
  forall w self payment_data st r st',
    create_payment_transaction w self payment_data st = (r, st') ->
    exists new,
      trace st' = (new ++ trace st)%list /\
      (List.length (filter is_http new) <= 1)%nat /\
      (List.length (filter is_execute new) <= 1)%nat /\
      (forall entries,
          r = Ok (Success entries) ->
          List.length (filter is_http new) = 1%nat /\
          List.length (filter is_execute new) = 1%nat /\
          existsb is_log_error new = false) /\
      (forall sql ps e,
          In (EExecute sql ps (Raise e)) new ->
          r = Ok (Failure e) /\
          existsb is_gateway_success new = true /\
          List.length (filter is_http new) = 1%nat).
Proof.
  intros w self pd st r st' H.
  destruct (create_run_detail _ _ _ _ _ _ H) as (new & Hn & Sm).
  exists new; split; [exact Hn|]; clear H Hn.
  destruct Sm as [(e & -> & ->)|(d & base & tax & total & hdrs & -> & Ea & Et & Eh & Sm)].
  { split; [cbn; lia|]. split; [cbn; lia|].
    split; [intros entries D; discriminate D|].
    intros sql ps e' [D|[]]; discriminate D. }
  cbn zeta in Sm.
  destruct Sm as [(G & e & -> & ->)|(rd & u & t & Er & Eu & Etk & Tu & Tt & Sm)].
  { assert (L : filter is_http (api_log
                  (http_request w (trace st) "POST"
                     (base_url self ++ transactions_endpoint)
                     hdrs (gateway_request w d (ticks st) total))) = []
                /\ filter is_execute (api_log
                  (http_request w (trace st) "POST"
                     (base_url self ++ transactions_endpoint)
                     hdrs (gateway_request w d (ticks st) total))) = []).
    { destruct (http_request _ _ _ _ _ _) as [v|[]]; split; reflexivity. }
    destruct L as (L1 & L2).
    cbn [filter is_http is_execute]. rewrite !filter_app, L1, L2.
    split; [cbn; lia|]. split; [cbn; lia|].
    split; [intros entries D; discriminate D|].
    intros sql ps e' [D|I]; [discriminate D|].
    apply in_app_or in I as [I|[D|[]]]; [|discriminate D].
    apply in_api_log in I as (m' & e'' & D); discriminate D. }
  cbn zeta in Sm. rewrite Er in Sm.
  destruct (execute_statement w _ sql_insert_transaction _) as [v|e];
    destruct Sm as (-> & ->).
  - split; [cbn; lia|]. split; [cbn; lia|].
    split; [intros entries _; repeat split|].
    intros sql ps e' [D|[D|[]]]; discriminate D.
  - cbn [filter is_http is_execute existsb is_log_error is_gateway_success
           gateway_created length orb].
    rewrite Eu, Etk, Tu, Tt.
    split; [cbn; lia|]. split; [cbn; lia|].
    split; [intros entries D; discriminate D|].
    intros sql ps e' [D|[D|[D|[D|[]]]]]; try discriminate D.
    injection D as _ _ <-. repeat split.
Qed.

(** The database is down: the failure is reported, and the gateway has
    been called once. *)
Lemma create_one_request_one_write_witness :
  let run := create_payment_transaction database_down_world integration_service
               (VDict [("amount", VInt 10000)]) start in
  exists new,
    trace (snd run) = (new ++ trace start)%list /\
    (List.length (filter is_http new) <= 1)%nat /\
    (List.length (filter is_execute new) <= 1)%nat /\
    (forall entries,
        fst run = Ok (Success entries) ->
        List.length (filter is_http new) = 1%nat /\
        List.length (filter is_execute new) = 1%nat /\
        existsb is_log_error new = false) /\
    (forall sql ps e,
        In (EExecute sql ps (Raise e)) new ->
        fst run = Ok (Failure e) /\
        existsb is_gateway_success new = true /\
        List.length (filter is_http new) = 1%nat).
Proof.
  intros run.
  apply (create_one_request_one_write database_down_world integration_service
           (VDict [("amount", VInt 10000)]) start (fst run) (snd run)).
  vm_compute; reflexivity.
Defined.

(* ================================================================= *)
(** ** confirm: what is read, stored and returned *)

Lemma confirm_run_detail w self token st r st' :
  confirm_payment_transaction w self token st = (r, st') ->
  exists new,
    trace st' = (new ++ trace st)%list /\ confirm_detail w self token st r new.
Proof.
  intros H.
  unfold confirm_payment_transaction, now_ymd, now_iso, uuid4,
    try_except, bind, ret, raise, lift, emit, tick, history, log_error in H.
  cbn [fst snd trace ticks] in H.
  rewrite call_api_put in H.
  destruct (api_headers self) as [hdrs|e] eqn:Eh; cbn [fst snd trace ticks] in H.
  2:{ injection H as <- <-; exists [ELogError confirming_failed e]; split;
      [reflexivity|]. left; exists e; repeat split; exact Eh. }
  unfold sent in H; cbn [fst snd trace ticks] in H.
  change (base_url self ++ transactions_endpoint ++ "/" ++ py_str (py_repr w) token)%string
    with (confirm_url w self token) in H.
  destruct (http_request w (trace st) "PUT" (confirm_url w self token) hdrs VNone)
    as [response|e] eqn:Er; cbn [fst snd trace ticks] in H.
  2:{ injection H as <- <-.
      exists (ELogError confirming_failed e :: api_log (Raise e)
              ++ [EHttp "PUT" (confirm_url w self token) hdrs VNone (Raise e)])%list.
      split; [cbn [trace app]; now rewrite <- app_assoc|].
      right; exists hdrs; split; [exact Eh|]. cbn zeta; rewrite Er.
      left; exists e; repeat split. }
  cbn [api_log app] in H.
  set (http := EHttp "PUT" (confirm_url w self token) hdrs VNone (Ok response)) in *.
  destruct (truthy response) eqn:Etr; cbn [fst snd trace ticks] in H.
  2:{ injection H as <- <-.
      exists [ELogError confirming_failed NoResponse; http]; split; [reflexivity|].
      right; exists hdrs; split; [exact Eh|]. cbn zeta; rewrite Er.
      right; left; exists response; repeat split. exact Etr. }
  assert (early : forall e n,
             before_update w response = Raise e ->
             (Ok (Failure e),
              {| trace := ELogError confirming_failed e :: http :: trace st;
                 ticks := n |}) = (r, st') ->
             exists new,
               trace st' = (new ++ trace st)%list /\
               confirm_detail w self token st r new).
  { intros e n B E; injection E as <- <-.
    exists [ELogError confirming_failed e; http]; split; [reflexivity|].
    right; exists hdrs; split; [exact Eh|]. cbn zeta; rewrite Er.
    right; right; left; exists response, e; repeat split; assumption. }
  destruct response as [| | | | | |rd]; try (apply (early _ _ eq_refl H)).
  cbn [py_get fst snd trace ticks] in H.
  fold (card_detail_of rd) in H.
  repeat match type of H with
         | context [match lookup ?k rd with Some v => v | None => VNone end] =>
             change (match lookup k rd with Some v => v | None => VNone end)
               with (entry rd k) in H
         end.
  fold (status_of rd) in H.
  cbn [before_update] in early.
  destruct (py_get (card_detail_of rd) "card_number" VNone) as [card_number|e]
    eqn:Ec; cbn [fst snd trace ticks] in H; [|apply (early _ _ eq_refl H)].
  destruct (_get_payment_type_description w (entry rd "payment_type_code"))
    as [payment_type|e] eqn:Ep; cbn [fst snd trace ticks] in H;
    [|apply (early _ _ eq_refl H)].
  clear early.
  assert (B : before_update w (VDict rd) = Ok (card_number, payment_type))
    by (cbn [before_update]; now rewrite Ec, Ep).
  rewrite update_transaction_eq in H; unfold executed in H.
  cbn [fst snd trace ticks] in H.
  fold (update_row w rd (ticks st) card_number payment_type) in H.
  match type of H with
  | context [execute_statement w ?h ?q ?p] =>
      change q with confirm_update_sql in H;
      set (ps := p) in *;
      destruct (execute_statement w h confirm_update_sql ps) as [v|e] eqn:Ex
  end; cbn [fst snd trace ticks failure_log app] in H.
  2:{ injection H as <- <-.
      eexists; split; [repeat first [apply emitted_nil | apply emitted_cons]|].
      right; exists hdrs; split; [exact Eh|]. cbn zeta; rewrite Er.
      right; right; right; exists rd, card_number, payment_type.
      repeat split; try assumption.
      fold http; fold ps; rewrite Ex. split; reflexivity. }
  set (update := EExecute confirm_update_sql ps (Ok v)) in *.
  assert (fin_run :
            exists fin n,
              (if (status_of rd =? "approved")%string
               then _process_successful_booking w self (entry rd "buy_order")
               else fun s : state => (Ok tt, s))
                {| trace := update :: http :: trace st; ticks := S (ticks st) |}
              = (Ok tt, {| trace := (fin ++ update :: http :: trace st)%list;
                           ticks := n |})
              /\ finalizer_part (status_of rd) (entry rd "buy_order") fin).
  { unfold finalizer_part.
    destruct (status_of rd =? "approved")%string.
    - destruct (finalizer_run w self (entry rd "buy_order")
                  {| trace := update :: http :: trace st; ticks := S (ticks st) |})
        as (evs & n & Ef & Hev).
      exists (evs ++ [EFinalize (entry rd "buy_order")])%list, n; split.
      + rewrite Ef; cbn [trace]. now rewrite <- app_assoc.
      + exists evs; split; [reflexivity|exact Hev].
    - exists [], (S (ticks st)); split; reflexivity. }
  destruct fin_run as (fin & n & Ef & Hfin).
  rewrite Ef in H; cbn [fst snd trace ticks] in H.
  destruct (last_four_of (card_detail_of rd)) as [lf|e] eqn:El;
    cbn [fst snd trace ticks emit] in H; injection H as <- <-.
  - exists (fin ++ [update; http])%list; split.
    + cbn [trace]. now rewrite <- app_assoc.
    + right; exists hdrs; split; [exact Eh|]. cbn zeta; rewrite Er.
      right; right; right; exists rd, card_number, payment_type.
      repeat split; try assumption.
      fold http; fold ps; rewrite Ex. exists fin; split; [exact Hfin|].
      rewrite El. split; reflexivity.
  - exists (ELogError confirming_failed e :: fin ++ [update; http])%list; split.
    + cbn [trace app]. now rewrite <- app_assoc.
    + right; exists hdrs; split; [exact Eh|]. cbn zeta; rewrite Er.
      right; right; right; exists rd, card_number, payment_type.
      repeat split; try assumption.
      fold http; fold ps; rewrite Ex. exists fin; split; [exact Hfin|].
      rewrite El. split; reflexivity.
Qed.

(** X7: an amount that is no finite number stops a create before the
    gateway is called: a string, a list, a dict or [None] is a
    [TypeError], a NaN a [ValueError] and an infinity an
    [OverflowError]; the failure is the only event, a log line. *)
Theorem create_needs_a_finite_number :
  forall w self d base st,
    lookup "amount" d = Some base ->
    forall e,
      (as_number base = None /\ e = TypeError)
      \/ (base = VFloat S754_nan /\ e = ValueError)
      \/ ((exists s, base = VFloat (S754_infinity s)) /\ e = OverflowError) ->
      create_payment_transaction w self (VDict d) st
      = (Ok (Failure e),
         {| trace := ELogError "Error creating Transbank transaction" e :: trace st;
            ticks := S (S (ticks st)) |}).
Proof.
  intros w self d base st Ea e Why.
  assert (T : compute_total base = Raise e).
  { destruct Why as [(N & ->)|[(-> & ->)|((s & ->) & ->)]].
    - unfold compute_total, py_mul_float. now rewrite N.
    - reflexivity.
    - destruct s; reflexivity. }
  monad_unfold; cbn [py_getitem]. rewrite Ea. cbn [fst snd trace ticks].
  rewrite T. reflexivity.
Qed.

Lemma create_needs_a_finite_number_witness :
  create_payment_transaction happy_world integration_service
    (VDict [("amount", VStr "10000")]) start
  = (Ok (Failure TypeError),
     {| trace := [ELogError "Error creating Transbank transaction" TypeError];
        ticks := 2 |}).
Proof.
  exact (create_needs_a_finite_number happy_world integration_service
           [("amount", VStr "10000")] (VStr "10000") start eq_refl TypeError
           (or_introl (conj eq_refl eq_refl))).
Defined.

(** X8: the two payment methods never raise.  Every exception inside a
    create or a confirm is caught: the method returns
    [{success: False, error}] with that exception, and the last thing it
    did was to log it; a success of create logs no error at all. *)
Theorem payment_methods_never_raise :
  forall w self x st,
    let created := create_payment_transaction w self x st in
    let confirmed := confirm_payment_transaction w self x st in
    (exists o, fst created = Ok o) /\
    (exists o, fst confirmed = Ok o) /\
    (forall e, fst created = Ok (Failure e) <->
               hd_error (trace (snd created))
               = Some (ELogError "Error creating Transbank transaction" e)
               /\ trace (snd created) <> trace st) /\
    (forall e, fst confirmed = Ok (Failure e) ->
               hd_error (trace (snd confirmed))
               = Some (ELogError "Error confirming Transbank transaction" e)).
Proof.
  intros w self x st created confirmed.
  split; [apply create_never_raises|].
  split; [apply confirm_never_raises|].
  split.
  - intros e.
    destruct created as [r st'] eqn:H; cbn [fst snd].
    destruct (create_run_detail _ _ _ _ _ _ H) as (new & Hn & Sm).
    rewrite Hn; clear H Hn.
    assert (Ne : forall (ev : event) l, (ev :: l ++ trace st)%list <> trace st).
    { intros ev l D. apply (f_equal (@List.length event)) in D.
      change (S (List.length (l ++ trace st)) = List.length (trace st)) in D.
      rewrite length_app in D. lia. }
    destruct Sm as [(e' & -> & ->)
                   |(d & base & tax & total & hdrs & -> & Ea & Et & Eh & Sm)].
    { cbn [app hd_error]. split.
      - intros [= ->]. split; [reflexivity|]. apply (Ne _ []).
      - intros ([= ->] & _); reflexivity. }
    cbn zeta in Sm.
    destruct Sm as [(G & e' & -> & ->)|(rd & u & t & Er & Eu & Etk & Tu & Tt & Sm)].
    { cbn [app hd_error]. split.
      - intros [= ->]. split; [reflexivity|]. apply Ne.
      - intros ([= ->] & _); reflexivity. }
    cbn zeta in Sm. rewrite Er in Sm.
    destruct (execute_statement w _ sql_insert_transaction _) as [v|e'];
      destruct Sm as (-> & ->); cbn [app hd_error].
    + split; [intros D; discriminate D|intros (D & _); discriminate D].
    + split.
      * intros [= ->]. split; [reflexivity|]. apply (Ne _ [_; _; _]).
      * intros ([= ->] & _); reflexivity.
  - intros e.
    destruct confirmed as [r st'] eqn:H; cbn [fst snd].
    destruct (confirm_run_detail _ _ _ _ _ _ H) as (new & Hn & Sm).
    rewrite Hn; clear H Hn.
    destruct Sm as [(e' & _ & -> & ->)|(hdrs & Eh & Sm)];
      [now intros [= ->]|].
    cbn zeta in Sm.
    destruct Sm as [(e' & _ & -> & ->)|[(resp & _ & _ & -> & ->)
                   |[(resp & e' & _ & _ & _ & -> & ->)
                    |(rd & cn & pt & Er & T & B & Sm)]]];
      try (now intros [= ->]).
    cbn zeta in Sm.
    destruct (execute_statement w _ confirm_update_sql _) as [v|e'].
    + destruct Sm as (fin & _ & Sm).
      destruct (last_four_of (card_detail_of rd)) as [lf|e'];
        destruct Sm as (-> & ->); [intros D; discriminate D|now intros [= ->]].
    + destruct Sm as (-> & ->). now intros [= ->].
Qed.

(** X9: an answer of the gateway that is no JSON object, or an empty one,
    ends a confirm before the store is touched: an empty answer ([None],
    [{}], [[]], [0], the empty string) is the failure "No response", any
    other answer that is no object an [AttributeError]. *)
Theorem confirm_needs_an_object :
  forall w self token st hdrs response,
    api_headers self = Ok hdrs ->
    http_request w (trace st) "PUT" (confirm_url w self token) hdrs VNone = Ok response ->
    (forall rd, response = VDict rd -> rd = []) ->
    let run := confirm_payment_transaction w self token st in
    let e := if truthy response then AttributeError else NoResponse in
    fst run = Ok (Failure e) /\
    trace (snd run)
    = ELogError "Error confirming Transbank transaction" e
      :: EHttp "PUT" (confirm_url w self token) hdrs VNone (Ok response) :: trace st.
Proof.
  intros w self token st hdrs response Eh Er Hd run e.
  destruct run as [r st'] eqn:H; cbn [fst snd].
  destruct (confirm_run_detail _ _ _ _ _ _ H) as (new & Hn & Sm).
  rewrite Hn; clear H Hn.
  destruct Sm as [(e' & Eh' & _)|(hdrs' & Eh' & Sm)]; rewrite Eh in Eh';
    [discriminate Eh'|injection Eh' as <-].
  cbn zeta in Sm. rewrite Er in Sm.
  destruct Sm as [(e' & D & _)|[(resp & [= <-] & T & -> & ->)
                 |[(resp & e' & [= <-] & T & B & -> & ->)
                  |(rd & cn & pt & [= ->] & T & _)]]].
  - discriminate D.
  - subst e. rewrite T. split; reflexivity.
  - subst e. rewrite T.
    assert (e' = AttributeError).
    { destruct response as [| | | | | |rd]; cbn [before_update] in B;
        try (now injection B as <-).
      rewrite (Hd rd eq_refl) in T; discriminate T. }
    subst e'. split; reflexivity.
  - rewrite (Hd rd eq_refl) in T; discriminate T.
Qed.

Lemma confirm_needs_an_object_witness :
  let w := with_gateway happy_world (fun _ _ _ _ _ => Ok (VDict [])) in
  let run := confirm_payment_transaction w integration_service (VStr "tok") start in
  fst run = Ok (Failure NoResponse) /\
  existsb is_execute (trace (snd run)) = false.
Proof.
  intros w run.
  destruct (confirm_needs_an_object w integration_service (VStr "tok") start
              [ ("Tbk-Api-Key-Id", VStr "597055555532");
                ("Tbk-Api-Key-Secret",
                 VStr "579B532A7440BB0C9079DED94D31EA1615BACEB56610332264630D42D0A36B1C");
                ("Content-Type", VStr "application/json") ]
              (VDict []) eq_refl eq_refl) as (R & T).
  - intros rd D; now injection D as <-.
  - split; [exact R|]. fold run in T. now rewrite T.
Defined.

Lemma finalizer_events_not_the_update (evs : list event) :
  forallb is_finalizer_event evs = true -> filter is_update evs = [].
Proof.
  induction evs as [|ev evs IH]; [reflexivity|].
  cbn [forallb filter]; intros H; apply andb_prop in H as [H1 H2].
  destruct ev; try discriminate H1; cbn [is_update]; auto.
  cbn [is_finalizer_event] in H1.
  destruct (String.eqb_spec sql sql_get_transaction) as [->|];
    [now apply IH|].
  destruct (String.eqb_spec sql sql_insert_booking) as [->|];
    [now apply IH|discriminate H1].
Qed.

Lemma finalizer_part_not_the_update status buy_order fin :
  finalizer_part status buy_order fin -> filter is_update fin = [].
Proof.
  unfold finalizer_part. destruct (String.eqb status "approved").
  - intros (evs & -> & Hev). rewrite filter_app.
    now rewrite (finalizer_events_not_the_update _ Hev).
  - now intros ->.
Qed.

(** X10: confirm records every attempt.  Whenever the gateway answers with
    an object from which the card number and the payment type can be read,
    the row of the answer's [buy_order] is updated exactly once, whatever
    the classification: the status stored is the classification, the card
    number is stored whole, and the parameters are [buy_order] and the
    nine columns: the names the statement refers to, where [buy_order]
    comes last. *)
Theorem confirm_records_every_attempt :
  forall w self token st hdrs rd card_number payment_type,
    api_headers self = Ok hdrs ->
    http_request w (trace st) "PUT" (confirm_url w self token) hdrs VNone
    = Ok (VDict rd) ->
    rd <> [] ->
    before_update w (VDict rd) = Ok (card_number, payment_type) ->
    exists new ps answer,
      trace (snd (confirm_payment_transaction w self token st))
      = (new ++ trace st)%list /\
      filter is_update new = [EExecute confirm_update_sql ps answer] /\
      field_of "buy_order" ps = Some (StringValue (entry rd "buy_order")) /\
      field_of "status" ps = Some (StringValue (VStr (status_of rd))) /\
      field_of "card_number" ps = Some (string_field w card_number) /\
      field_of "payment_type" ps = Some (StringValue (VStr payment_type)) /\
      map fst ps
      = [ "buy_order"; "status"; "authorization_code"; "response_code";
          "transaction_date"; "accounting_date"; "card_number"; "installments";
          "payment_type"; "confirmed_at" ] /\
      placeholders confirm_update_sql = (tl (map fst ps) ++ ["buy_order"])%list.
Proof.
  intros w self token st hdrs rd cn pt Eh Er Hd B.
  destruct (confirm_payment_transaction w self token st) as [r st'] eqn:H; cbn [snd].
  destruct (confirm_run_detail _ _ _ _ _ _ H) as (new & Hn & Sm).
  exists new. rewrite Hn; clear H Hn.
  destruct Sm as [(e' & Eh' & _)|(hdrs' & Eh' & Sm)]; rewrite Eh in Eh';
    [discriminate Eh'|injection Eh' as <-].
  cbn zeta in Sm. rewrite Er in Sm.
  destruct Sm as [(e' & D & _)|[(resp & [= <-] & T & _)
                 |[(resp & e' & [= <-] & T & B' & _)
                  |(rd' & cn' & pt' & [= <-] & T & B' & Sm)]]].
  - discriminate D.
  - destruct rd; [now elim Hd|discriminate T].
  - rewrite B in B'; discriminate B'.
  - rewrite B in B'; injection B' as <- <-. cbn zeta in Sm.
    set (ps := update_parameters w (entry rd "buy_order")
                 (update_row w rd (ticks st) cn pt)) in *.
    set (http := EHttp "PUT" (confirm_url w self token) hdrs VNone (Ok (VDict rd))) in *.
    exists ps, (execute_statement w (http :: trace st) confirm_update_sql ps).
    split; [reflexivity|].
    assert (Only : filter is_update new
                   = [EExecute confirm_update_sql ps
                        (execute_statement w (http :: trace st) confirm_update_sql ps)]).
    { destruct (execute_statement w (http :: trace st) confirm_update_sql ps)
        as [v|e]; [|destruct Sm as (_ & ->); reflexivity].
      destruct Sm as (fin & Hfin & Sm).
      pose proof (finalizer_part_not_the_update _ _ _ Hfin) as F.
      destruct (last_four_of (card_detail_of rd)); destruct Sm as (_ & ->).
      - rewrite filter_app, F. reflexivity.
      - cbn [filter is_update]. rewrite filter_app, F. reflexivity. }
    split; [exact Only|]. repeat split; vm_compute; reflexivity.
Qed.

Lemma confirm_records_every_attempt_witness :
  exists new ps answer,
    trace (snd (confirm_payment_transaction pending_world integration_service
                  (VStr "tok") start))
    = (new ++ trace start)%list /\
    filter is_update new = [EExecute confirm_update_sql ps answer] /\
    field_of "buy_order" ps = Some (StringValue (VStr "VC-20240101-01234567")) /\
    field_of "status" ps = Some (StringValue (VStr "pending")) /\
    field_of "card_number" ps = Some IsNull /\
    field_of "payment_type" ps = Some (StringValue (VStr "Tipo None")) /\
    map fst ps
    = [ "buy_order"; "status"; "authorization_code"; "response_code";
        "transaction_date"; "accounting_date"; "card_number"; "installments";
        "payment_type"; "confirmed_at" ] /\
    placeholders confirm_update_sql = (tl (map fst ps) ++ ["buy_order"])%list.
Proof.
  apply (confirm_records_every_attempt pending_world integration_service (VStr "tok")
           start
           [ ("Tbk-Api-Key-Id", VStr "597055555532");
             ("Tbk-Api-Key-Secret",
              VStr "579B532A7440BB0C9079DED94D31EA1615BACEB56610332264630D42D0A36B1C");
             ("Content-Type", VStr "application/json") ]
           [ ("status", VStr "INITIALIZED");
             ("buy_order", VStr "VC-20240101-01234567");
             ("amount", VInt 11900) ]
           VNone "Tipo None").
  - reflexivity.
  - reflexivity.
  - discriminate.
  - reflexivity.
Defined.

(** X11: what a successful confirm returns is read off the gateway's answer:
    the transaction id is the answer's [buy_order], the status its
    classification, and amount, authorization code, date and installments
    are the answer's fields, [None] for each one the answer lacks; the
    amount is not compared with the amount of the stored row. *)
Theorem confirm_returns_the_answer :
  forall w self token st r st' entries,
    confirm_payment_transaction w self token st = (r, st') ->
    r = Ok (Success entries) ->
    exists hdrs rd last_four card_type,
      http_request w (trace st) "PUT" (confirm_url w self token) hdrs VNone
      = Ok (VDict rd) /\
      last_four_of (card_detail_of rd) = Ok last_four /\
      _get_payment_type_description w (entry rd "payment_type_code") = Ok card_type /\
      entries
      = [ ("transaction_id", entry rd "buy_order");
          ("status", VStr (payment_status_of (entry rd "status")
                             (entry rd "response_code")));
          ("amount", entry rd "amount");
          ("authorization_code", entry rd "authorization_code");
          ("card_info", VDict [ ("last_four", last_four);
                                ("card_type", VStr card_type) ]);
          ("transaction_date", entry rd "transaction_date");
          ("installments", entry rd "installments_number") ].
Proof.
  intros w self token st r st' entries H ->.
  destruct (confirm_run_detail _ _ _ _ _ _ H) as (new & Hn & Sm).
  clear H Hn.
  destruct Sm as [(e' & _ & D & _)|(hdrs & Eh & Sm)]; [discriminate D|].
  cbn zeta in Sm.
  destruct Sm as [(e' & _ & D & _)|[(resp & _ & _ & D & _)
                 |[(resp & e' & _ & _ & _ & D & _)
                  |(rd & cn & pt & Er & T & B & Sm)]]]; try discriminate D.
  cbn zeta in Sm. exists hdrs, rd.
  destruct (execute_statement w _ confirm_update_sql _) as [v|e];
    [|destruct Sm as (D & _); discriminate D].
  destruct Sm as (fin & _ & Sm).
  destruct (last_four_of (card_detail_of rd)) as [lf|e];
    destruct Sm as (D & _); [|discriminate D].
  injection D as ->. exists lf, pt. split; [exact Er|]. split; [reflexivity|].
  cbn [before_update] in B.
  destruct (py_get (card_detail_of rd) "card_number" VNone); [|discriminate B].
  destruct (_get_payment_type_description w (entry rd "payment_type_code"));
    [|discriminate B].
  injection B as _ ->. split; reflexivity.
Qed.

Lemma confirm_returns_the_answer_witness :
  exists hdrs rd last_four card_type,
    http_request happy_world [] "PUT"
      (confirm_url happy_world integration_service (VStr "tok")) hdrs VNone
    = Ok (VDict rd) /\
    last_four_of (card_detail_of rd) = Ok last_four /\
    _get_payment_type_description happy_world (entry rd "payment_type_code")
    = Ok card_type /\
    [ ("transaction_id", VStr "VC-20240101-01234567");
      ("status", VStr "approved");
      ("amount", VInt 11900);
      ("authorization_code", VNone);
      ("card_info", VDict [ ("last_four", VStr "6623");
                            ("card_type", VStr "Tarjeta de Crédito") ]);
      ("transaction_date", VNone);
      ("installments", VNone) ]
    = [ ("transaction_id", entry rd "buy_order");
        ("status", VStr (payment_status_of (entry rd "status")
                           (entry rd "response_code")));
        ("amount", entry rd "amount");
        ("authorization_code", entry rd "authorization_code");
        ("card_info", VDict [ ("last_four", last_four);
                              ("card_type", VStr card_type) ]);
        ("transaction_date", entry rd "transaction_date");
        ("installments", entry rd "installments_number") ].
Proof.
  pose (run := confirm_payment_transaction happy_world integration_service
                 (VStr "tok") start).
  apply (confirm_returns_the_answer happy_world integration_service (VStr "tok")
           start (fst run) (snd run)); vm_compute; reflexivity.
Defined.

(* ================================================================= *)
(** ** The finalizer: one read, at most one booking *)

Ltac finalizer_unfold :=
  unfold _process_successful_booking, _send_booking_confirmation, execute,
    log_error, log_info, now_ymd, now_iso, uuid4,
    try_except, bind, ret, raise, lift, emit, tick, history;
  cbn [fst snd trace ticks].

(** X12: the finalizer never raises and books at most once.  In every run
    it inserts at most one booking and logs at most one error; a booking
    is inserted only after the read of the transaction was answered with
    at least one record; and the confirmation is announced exactly when
    the insert of the booking was answered. *)
Theorem finalizer_books_at_most_once :
  forall w self buy_order st,
    exists evs n,
      _process_successful_booking w self buy_order st
      = (Ok tt, {| trace := (evs ++ EFinalize buy_order :: trace st)%list;
                   ticks := n |}) /\
      (List.length (filter is_booking_insert evs) <= 1)%nat /\
      (List.length (filter is_log_error evs) <= 1)%nat /\
      (existsb is_booking_insert evs = true -> existsb found_a_row evs = true) /\
      existsb is_notification evs = existsb is_booking_done evs.
Proof.
  intros w self buy_order st.
  finalizer_unfold.
  repeat step.
  all: eexists; eexists; split;
    [ do 2 f_equal; repeat first [apply emitted_nil | apply emitted_cons] | ].
  all: cbn [filter existsb is_booking_insert is_log_error is_notification
              is_booking_done found_a_row length orb andb].
  all: repeat match goal with
              | H : py_getitem _ "records" = _ |- _ => rewrite H
              | H : truthy _ = _ |- _ => rewrite H
              end.
  all: split; [vm_compute; lia|].
  all: split; [vm_compute; lia|].
  all: split; [vm_compute; auto|vm_compute; reflexivity].
Qed.

(** X13: an approved payment whose row is not found is passed over in
    silence.  When the read of the transaction is answered without a
    record, the finalizer inserts nothing, announces nothing and logs
    nothing: the read is all it did. *)
Theorem finalizer_without_a_row :
  forall w self buy_order st answer records,
    execute_statement w (EFinalize buy_order :: trace st) sql_get_transaction
      [("buy_order", StringValue buy_order)] = Ok answer ->
    py_getitem answer "records" = Ok records ->
    truthy records = false ->
    _process_successful_booking w self buy_order st
    = (Ok tt,
       {| trace := EExecute sql_get_transaction [("buy_order", StringValue buy_order)]
                     (Ok answer)
                   :: EFinalize buy_order :: trace st;
          ticks := ticks st |}).
Proof.
  intros w self buy_order st answer records Ex Er Et.
  finalizer_unfold. rewrite Ex. cbn [fst snd trace ticks].
  rewrite Er. cbn [fst snd trace ticks]. rewrite Et. reflexivity.
Qed.

Lemma finalizer_without_a_row_witness :
  let w := with_database happy_world (fun _ _ _ => Ok (VDict [("records", VList [])])) in
  _process_successful_booking w integration_service (VStr "VC-1") start
  = (Ok tt,
     {| trace := [ EExecute sql_get_transaction
                     [("buy_order", StringValue (VStr "VC-1"))]
                     (Ok (VDict [("records", VList [])]));
                   EFinalize (VStr "VC-1") ];
        ticks := 0 |}).
Proof.
  intros w.
  exact (finalizer_without_a_row w integration_service (VStr "VC-1") start
           (VDict [("records", VList [])]) (VList []) eq_refl eq_refl eq_refl).
Defined.

(** X14: the booking copies the row.  When the read is answered with
    records, the finalizer takes the first one and inserts a booking whose
    flight, user, passenger count and total amount are the [stringValue]s
    of its columns 4, 5, 6 and 2, the passenger count parsed as an
    integer, whose reference is [BK-<date>-<8 hex digits>] and whose
    transaction reference is the [buy_order]; the parameters are the names
    the statement refers to.  The confirmation is announced if the insert
    is answered, and the failure logged if it is not. *)
Theorem finalizer_copies_the_row :
  forall w self buy_order st answer records transaction
         flight_id user_id passengers passenger_count total_amount,
    execute_statement w (EFinalize buy_order :: trace st) sql_get_transaction
      [("buy_order", StringValue buy_order)] = Ok answer ->
    py_getitem answer "records" = Ok records ->
    truthy records = true ->
    py_index records 0 = Ok transaction ->
    string_value_at transaction 4 = Ok flight_id ->
    string_value_at transaction 5 = Ok user_id ->
    string_value_at transaction 6 = Ok passengers ->
    py_int (int_of_str w) passengers = Ok passenger_count ->
    string_value_at transaction 2 = Ok total_amount ->
    let read := EExecute sql_get_transaction [("buy_order", StringValue buy_order)]
                  (Ok answer) in
    let ps := booking_parameters w (ticks st) buy_order flight_id user_id
                passenger_count total_amount in
    let reply := execute_statement w (read :: EFinalize buy_order :: trace st)
                   sql_insert_booking ps in
    let last :=
      match reply with
      | Ok _ => ELogInfo ("Booking confirmation would be sent for: "
                          ++ order_reference w "BK-" (ticks st))
      | Raise e => ELogError "Error processing successful booking" e
      end in
    _process_successful_booking w self buy_order st
    = (Ok tt,
       {| trace := [last; EExecute sql_insert_booking ps reply; read;
                    EFinalize buy_order] ++ trace st;
          ticks := S (S (ticks st)) |})
    /\ map fst ps = placeholders sql_insert_booking.
Proof.
  intros w self buy_order st answer records transaction
    flight_id user_id passengers passenger_count total_amount
    Ex Er Et Ei E4 E5 E6 En E2 read ps reply last.
  split; [|vm_compute; reflexivity].
  subst last reply ps read.
  finalizer_unfold. rewrite Ex. cbn [fst snd trace ticks].
  rewrite Er. cbn [fst snd trace ticks]. rewrite Et, Ei. cbn [fst snd trace ticks].
  rewrite E4. cbn [fst snd trace ticks]. rewrite E5. cbn [fst snd trace ticks].
  rewrite E6. cbn [fst snd trace ticks]. rewrite En. cbn [fst snd trace ticks].
  rewrite E2. cbn [fst snd trace ticks].
  fold (order_reference w "BK-" (ticks st)).
  fold (booking_parameters w (ticks st) buy_order flight_id user_id
          passenger_count total_amount).
  destruct (execute_statement w _ sql_insert_booking _); reflexivity.
Qed.

Lemma finalizer_copies_the_row_witness :
  trace (snd (_process_successful_booking happy_world integration_service
                (VStr "VC-20240101-01234567") start))
  = [ ELogInfo "Booking confirmation would be sent for: BK-20240101-01234567";
      EExecute sql_insert_booking
        [ ("booking_id", StringValue (VStr "BK-20240101-01234567"));
          ("flight_id", StringValue (VStr "F1"));
          ("user_id", StringValue (VStr "U1"));
          ("passenger_count", LongValue 2);
          ("total_amount", StringValue (VStr "11900"));
          ("buy_order", StringValue (VStr "VC-20240101-01234567")) ]
        (Ok (VDict []));
      EExecute sql_get_transaction
        [("buy_order", StringValue (VStr "VC-20240101-01234567"))]
        (Ok (VDict [("records", VList [stored_row])]));
      EFinalize (VStr "VC-20240101-01234567") ].
Proof.
  exact (f_equal (fun x => trace (snd x))
           (proj1 (finalizer_copies_the_row happy_world integration_service
                     (VStr "VC-20240101-01234567") start
                     (VDict [("records", VList [stored_row])]) (VList [stored_row])
                     stored_row (VStr "F1") (VStr "U1") (VStr "2") 2 (VStr "11900")
                     eq_refl eq_refl eq_refl eq_refl eq_refl eq_refl eq_refl eq_refl
                     eq_refl))).
Defined.

(* ================================================================= *)
(** ** The handler: every request is answered *)

Lemma try_except_cases {A} (m : M A) (h : exn -> M A) (s : state) :
  (exists a s', m s = (Ok a, s') /\ try_except m h s = (Ok a, s'))
  \/ (exists e s', m s = (Raise e, s') /\ try_except m h s = h e s').
Proof.
  unfold try_except. destruct (m s) as [[a|e] s']; [left|right]; eauto.
Qed.

Lemma bind_ok {A B} (m : M A) (k : A -> M B) (s : state) (b : B) (s' : state) :
  bind m k s = (Ok b, s') ->
  exists a s1, m s = (Ok a, s1) /\ k a s1 = (Ok b, s').
Proof.
  unfold bind. destruct (m s) as [[a|e] s1]; [eauto|discriminate].
Qed.

(** The request body as the handler reads it. *)
Lemma handler_body w event s :
  match lookup "body" event with
  | Some (VStr b) => lift (json_loads w b)
  | Some b => ret b
  | None => ret (VDict event)
  end s = (request_body w event, s).
Proof.
  unfold request_body, lift, ret.
  destruct (lookup "body" event) as [[]|]; reflexivity.
Qed.

(** X15: the handler answers every request.  It never raises: the answer
    is HTTP 200 with the result of the operation, or HTTP 500 after the
    failure was logged; both carry the JSON content type and allow any
    origin.  The text of a failure that reaches the handler is part of a
    500 answer only when [DEBUG] is exactly ['true']. *)
Theorem handler_always_answers :
  forall w event st,
    let run := lambda_handler w event st in
    exists response,
      fst run = Ok response /\
      In ("Content-Type", "application/json") (headers response) /\
      In ("Access-Control-Allow-Origin", "*") (headers response) /\
      ((statusCode response = 200 /\
        exists result, response_body response = BodyResult result)
       \/
       (statusCode response = 500 /\
        exists e, response_body response = BodyError (shown_error w e) /\
                  hd_error (trace (snd run))
                  = Some (ELogError "Payment processing error" e))) /\
      (environ w "DEBUG" <> Some "true" ->
       forall e, response_body response <> BodyError (Some e)).
Proof.
  intros w event st run. subst run. unfold lambda_handler.
  match goal with
  | |- context [try_except ?m ?h st] =>
      destruct (try_except_cases m h st) as [(a & s' & Hm & ->)|(e & s' & Hm & ->)]
  end.
  - apply bind_ok in Hm as (body & s1 & _ & Hm).
    apply bind_ok in Hm as (svc & s2 & _ & Hm).
    apply bind_ok in Hm as (action & s3 & _ & Hm).
    apply bind_ok in Hm as (result & s4 & _ & Hm).
    injection Hm as <- <-. cbn [fst snd].
    eexists; split; [reflexivity|]. cbn [headers statusCode response_body ok_headers In].
    split; [auto|]. split; [auto|].
    split; [left; split; [reflexivity|]; now exists result|].
    intros _ e D; discriminate D.
  - unfold log_error, emit, bind, ret. cbn [fst snd trace].
    eexists; split; [reflexivity|].
    cbn [headers statusCode response_body error_headers In hd_error].
    split; [auto|]. split; [auto|].
    split; [right; split; [reflexivity|]; exists e; split; reflexivity|].
    intros Hd e'.
    destruct (environ w "DEBUG") as [d|]; [|discriminate].
    destruct (String.eqb_spec d "true") as [->|]; [now elim Hd|discriminate].
Qed.

(** X16: confirming through the handler.  With the action ['confirm'] and
    the service constructed, the handler asks for a token: when the
    request has none, or an empty one, it answers HTTP 500 and has called
    neither the gateway nor the store; with a token it calls confirm with
    it and answers HTTP 200 with confirm's result, success or failure. *)
Theorem handler_confirms_with_a_token :
  forall w event st d payment_service st1,
    request_body w event = Ok (VDict d) ->
    TransbankPaymentService w st = (Ok payment_service, st1) ->
    lookup "action" d = Some (VStr "confirm") ->
    let token := entry d "token" in
    (truthy token = false ->
     lambda_handler w event st
     = (Ok {| statusCode := 500; headers := error_headers;
              response_body := BodyError (shown_error w TokenRequired) |},
        {| trace := ELogError processing_failed TokenRequired :: trace st1;
           ticks := ticks st1 |}))
    /\
    (truthy token = true ->
     exists result,
       fst (confirm_payment_transaction w payment_service token st1) = Ok result /\
       lambda_handler w event st
       = (Ok {| statusCode := 200; headers := ok_headers;
                response_body := BodyResult result |},
          snd (confirm_payment_transaction w payment_service token st1))).
Proof.
  intros w event st d svc st1 Hb Hs Ha token.
  split.
  - intros Ht.
    unfold lambda_handler, try_except, bind at 1.
    rewrite handler_body, Hb. unfold bind at 1. rewrite Hs.
    unfold bind at 1, lift at 1. cbn [py_get]. rewrite Ha.
    cbn [py_eq_str String.eqb Ascii.eqb Bool.eqb].
    unfold bind at 1, bind at 1, lift at 1. cbn [py_get].
    fold (entry d "token"). fold token. rewrite Ht.
    unfold raise, log_error, emit, bind, ret, shown_error.
    reflexivity.
  - intros Ht.
    destruct (confirm_never_raises w svc token st1) as (result & Hr).
    exists result; split; [exact Hr|].
    unfold lambda_handler, try_except, bind at 1.
    rewrite handler_body, Hb. unfold bind at 1. rewrite Hs.
    unfold bind at 1, lift at 1. cbn [py_get]. rewrite Ha.
    cbn [py_eq_str String.eqb Ascii.eqb Bool.eqb].
    unfold bind at 1, bind at 1, lift at 1. cbn [py_get].
    fold (entry d "token"). fold token. rewrite Ht.
    destruct (confirm_payment_transaction w svc token st1) as [r st2].
    cbn [fst snd] in *. subst r. reflexivity.
Qed.

Lemma handler_confirms_with_a_token_witness :
  let event := [("action", VStr "confirm"); ("token", VStr "")] in
  fst (lambda_handler happy_world event start)
  = Ok {| statusCode := 500; headers := error_headers;
          response_body := BodyError None |}
  /\ existsb is_http (trace (snd (lambda_handler happy_world event start))) = false.
Proof.
  intros event.
  pose (st1 := snd (TransbankPaymentService happy_world start)).
  pose proof (proj1 (handler_confirms_with_a_token happy_world event start event
                       integration_service st1 eq_refl eq_refl eq_refl) eq_refl) as H.
  rewrite H. split; reflexivity.
Defined.

(** X17: the handler needs a JSON object.  A body that is a string is
    parsed: when that fails the handler answers HTTP 500 at once, before
    the service is constructed.  A request that is no object (the parsed
    body, or a body passed as such) fails with an [AttributeError] once
    the service is constructed, and is answered HTTP 500 as well. *)
Theorem handler_needs_a_json_object :
  forall w event st,
    (forall e,
        request_body w event = Raise e ->
        lambda_handler w event st
        = (Ok {| statusCode := 500; headers := error_headers;
                 response_body := BodyError (shown_error w e) |},
           {| trace := ELogError processing_failed e :: trace st; ticks := ticks st |}))
    /\
    (forall body payment_service st1,
        request_body w event = Ok body ->
        (forall d, body <> VDict d) ->
        TransbankPaymentService w st = (Ok payment_service, st1) ->
        lambda_handler w event st
        = (Ok {| statusCode := 500; headers := error_headers;
                 response_body := BodyError (shown_error w AttributeError) |},
           {| trace := ELogError processing_failed AttributeError :: trace st1;
              ticks := ticks st1 |})).
Proof.
  intros w event st. split.
  - intros e Hb.
    unfold lambda_handler, try_except, bind at 1.
    rewrite handler_body, Hb.
    unfold log_error, emit, bind, ret, shown_error. reflexivity.
  - intros body svc st1 Hb Hd Hs.
    unfold lambda_handler, try_except, bind at 1.
    rewrite handler_body, Hb. unfold bind at 1. rewrite Hs.
    unfold bind at 1, lift at 1.
    destruct body as [| | | | | |d]; try (now elim (Hd d)).
    all: cbn [py_get]; unfold log_error, emit, bind, ret, shown_error; reflexivity.
Qed.

Lemma handler_needs_a_json_object_witness :
  lambda_handler happy_world [("body", VStr "{")] start
  = (Ok {| statusCode := 500; headers := error_headers;
           response_body := BodyError None |},
     {| trace := [ELogError processing_failed (Raised "JSONDecodeError")];
        ticks := 0 |}).
Proof.
  exact (proj1 (handler_needs_a_json_object happy_world [("body", VStr "{")] start)
           (Raised "JSONDecodeError") eq_refl).
Defined.

(* ================================================================= *)
(** ** The card number shown *)

Lemma length_append (a b : string) :
  String.length (a ++ b) = (String.length a + String.length b)%nat.
Proof. induction a as [|c a IH]; [reflexivity|]. cbn [append String.length]. now rewrite IH. Qed.

Lemma substring_suffix (n m : nat) (s : string) :
  (String.length s <= n + m)%nat ->
  exists p, s = (p ++ substring n m s)%string
            /\ String.length p = Nat.min n (String.length s).
Proof.
  revert m s. induction n as [|n IH]; intros m s H.
  - exists EmptyString. split; [|reflexivity]. cbn [append].
    revert m H. induction s as [|c s IHs]; intros m H.
    + now destruct m.
    + destruct m as [|m]; [cbn in H; lia|].
      cbn [substring]. f_equal. apply IHs. cbn in H; lia.
  - destruct s as [|c s].
    + exists EmptyString. split; reflexivity.
    + destruct (IH m s) as (p & E & L); [cbn in H; lia|].
      exists (String c p). split.
      * cbn [append substring]. now f_equal.
      * cbn [String.length Nat.min]. now rewrite L.
Qed.

(** X18: of a card number, confirm shows the last four characters at most.
    When the card detail has no card number, or an empty one, the response
    holds [None]; when the number is a string, what is shown is its
    suffix of four characters, or the whole of a shorter number. *)
Theorem last_four_is_a_suffix :
  forall card_detail,
    (lookup "card_number" card_detail = None ->
     last_four_of (VDict card_detail) = Ok VNone) /\
    (forall v, lookup "card_number" card_detail = Some v -> truthy v = false ->
               last_four_of (VDict card_detail) = Ok VNone) /\
    (forall number,
        lookup "card_number" card_detail = Some (VStr number) -> number <> "" ->
        exists hidden shown,
          last_four_of (VDict card_detail) = Ok (VStr shown) /\
          number = (hidden ++ shown)%string /\
          String.length shown = Nat.min 4 (String.length number)).
Proof.
  intros cd. unfold last_four_of, py_get. split; [|split].
  - now intros ->.
  - intros v -> Hv. now rewrite Hv.
  - intros number -> Hn.
    assert (T : truthy (VStr number) = true).
    { cbn [truthy]. destruct (String.eqb_spec number ""); [contradiction|reflexivity]. }
    rewrite T. cbn [py_last_four]. unfold last_four_str.
    destruct (substring_suffix (String.length number - 4) 4 number) as (p & E & L);
      [lia|].
    exists p, (substring (String.length number - 4) 4 number).
    split; [reflexivity|]. split; [exact E|].
    apply (f_equal String.length) in E. rewrite length_append in E. lia.
Qed.

Lemma last_four_is_a_suffix_witness :
  exists hidden shown,
    last_four_of (VDict [("card_number", VStr "XXXXXXXXXXXX6623")]) = Ok (VStr shown) /\
    "XXXXXXXXXXXX6623" = (hidden ++ shown)%string /\
    String.length shown = 4%nat.
Proof.
  apply (proj2 (proj2 (last_four_is_a_suffix
                         [("card_number", VStr "XXXXXXXXXXXX6623")]))
           "XXXXXXXXXXXX6623" eq_refl).
  discriminate.
Defined.

(* ================================================================= *)
(** ** The order of the seat classes *)

Lemma int_le_float_down (z z' : Z) (f : spec_float) :
  z <= z' -> int_le_float z' f = true -> int_le_float z f = true.
Proof.
  intros Hz. unfold int_le_float.
  destruct f as [s|s| |s m e]; try easy.
  - intros H; apply Z.leb_le in H; apply Z.leb_le; lia.
  - assert (P : forall p, 0 < 2 ^ Zpos p) by (intros p; apply Z.pow_pos_nonneg; lia).
    destruct s, e as [|p|p]; intros H; apply Z.leb_le in H; apply Z.leb_le;
      try lia; specialize (P p); nia.
Qed.

(** X19: the seat classes follow the seats.  For any number of seats in
    total, [sold_out] is the class of no seat available and of nothing
    else; and with more seats available the class never becomes scarcer:
    from [sold_out] over [limited] and [moderate] to [available]. *)
Theorem booking_class_order :
  forall available_seats total_seats,
    (determine_booking_class available_seats total_seats = Ok "sold_out"
     <-> available_seats = 0) /\
    (forall more class class',
        0 <= available_seats <= more ->
        determine_booking_class available_seats total_seats = Ok class ->
        determine_booking_class more total_seats = Ok class' ->
        (class_rank class <= class_rank class')%nat).
Proof.
  intros a t. unfold determine_booking_class. split.
  - destruct (Z.eqb_spec a 0) as [->|Ha]; [tauto|].
    split; [|contradiction].
    destruct (py_mul_float (VInt t) f0_1) as [f1|]; [|discriminate].
    destruct (int_le_float a f1); [discriminate|].
    destruct (py_mul_float (VInt t) f0_3) as [f3|]; [|discriminate].
    destruct (int_le_float a f3); discriminate.
  - intros more c c' Hm.
    destruct (Z.eqb_spec a 0) as [->|Ha].
    { intros [= <-] _. cbn. lia. }
    destruct (Z.eqb_spec more 0) as [->|Hm0]; [lia|].
    destruct (py_mul_float (VInt t) f0_1) as [f1|]; [|discriminate].
    destruct (int_le_float more f1) eqn:M1.
    { rewrite (int_le_float_down a more f1 (proj2 Hm) M1).
      intros [= <-] [= <-]. cbn. lia. }
    destruct (py_mul_float (VInt t) f0_3) as [f3|];
      [|destruct (int_le_float a f1); discriminate].
    destruct (int_le_float more f3) eqn:M3.
    { rewrite (int_le_float_down a more f3 (proj2 Hm) M3).
      destruct (int_le_float a f1); intros [= <-] [= <-]; cbn; lia. }
    destruct (int_le_float a f1); [intros [= <-] [= <-]; cbn; lia|].
    destruct (int_le_float a f3); intros [= <-] [= <-]; cbn; lia.
Qed.

Lemma booking_class_order_witness :
  (class_rank "limited" <= class_rank "available")%nat.
Proof.
  apply (proj2 (booking_class_order 18 180) 100 "limited" "available").
  - lia.
  - vm_compute; reflexivity.
  - vm_compute; reflexivity.
Defined.

(* ================================================================= *)
(** ** The names of the update statement *)

Lemma append_assoc (a b c : string) : ((a ++ b) ++ c = a ++ (b ++ c))%string.
Proof. induction a as [|x a IH]; [reflexivity|]. cbn [append]. now rewrite IH. Qed.

Lemma append_empty (a : string) : (a ++ "")%string = a.
Proof. induction a as [|x a IH]; [reflexivity|]. cbn [append]. now rewrite IH. Qed.

Lemma names_from_skip (s t : string) :
  no_colon s = true -> names_from (s ++ t) None = names_from t None.
Proof.
  induction s as [|c s IH]; [reflexivity|].
  cbn [no_colon append names_from]. intros H; apply andb_prop in H as [Hc Hs].
  destruct (Ascii.eqb c ":"); [discriminate Hc|]. now apply IH.
Qed.

Lemma names_from_name (k t acc : string) :
  all_name_chars k = true ->
  names_from (k ++ t) (Some acc) = names_from t (Some (acc ++ k)%string).
Proof.
  revert acc. induction k as [|c k IH]; intros acc H.
  - cbn [append]. now rewrite append_empty.
  - cbn [all_name_chars] in H. apply andb_prop in H as [Hc Hk].
    cbn [append names_from]. rewrite Hc, (IH _ Hk), append_assoc. reflexivity.
Qed.

Lemma name_chars_no_colon (k : string) : all_name_chars k = true -> no_colon k = true.
Proof.
  induction k as [|c k IH]; [reflexivity|].
  cbn [all_name_chars no_colon]. intros H; apply andb_prop in H as [Hc Hk].
  rewrite (IH Hk), andb_true_r.
  destruct (Ascii.eqb_spec c ":") as [->|]; [discriminate Hc|reflexivity].
Qed.

(** One clause [k = :k], followed by something that starts with a comma
    or a space. *)
Lemma names_from_clause (k rest : string) (c : ascii) :
  all_name_chars k = true ->
  is_name_char c = false -> Ascii.eqb c ":" = false ->
  names_from ((k ++ " = :" ++ k) ++ String c rest) None = k :: names_from rest None.
Proof.
  intros Hk Hc Hn.
  rewrite append_assoc, (names_from_skip k _ (name_chars_no_colon k Hk)).
  rewrite append_assoc. cbn [append names_from Ascii.eqb Bool.eqb].
  rewrite (names_from_name k _ "" Hk). cbn [append names_from].
  now rewrite Hc, Hn.
Qed.

Lemma names_from_clauses (d : list (string * value)) (rest : string) :
  (forall k, In k (map fst d) -> is_identifier k = true) ->
  names_from (String.concat ", " (set_clauses d) ++ String " " rest) None
  = (map fst d ++ names_from rest None)%list.
Proof.
  induction d as [|[k v] d IH]; intros H; [reflexivity|].
  assert (Hk : all_name_chars k = true).
  { specialize (H k (or_introl eq_refl)). unfold is_identifier in H.
    now apply andb_prop in H as [_ H]. }
  assert (Hd : forall k', In k' (map fst d) -> is_identifier k' = true)
    by (intros k' I; apply H; now right).
  destruct d as [|kv d].
  - cbn [set_clauses map String.concat fst app].
    now rewrite (names_from_clause k rest " " Hk).
  - set (C := String.concat ", " (set_clauses (kv :: d))) in *.
    change (String.concat ", " (set_clauses ((k, v) :: kv :: d)))
      with ((k ++ " = :" ++ k) ++ ", " ++ C)%string.
    rewrite (append_assoc (k ++ " = :" ++ k) (", " ++ C) (String " " rest)).
    change ((", " ++ C) ++ String " " rest)%string
      with (String "," (String " " (C ++ String " " rest)))%string.
    rewrite (names_from_clause k _ "," Hk); [|reflexivity|reflexivity].
    cbn [names_from Ascii.eqb Bool.eqb]. rewrite (IH Hd). reflexivity.
Qed.

(** X20: the update statement names what it is given.  Whatever the update
    data, as long as its keys are identifiers (letters, digits and
    underscores), the names the text of the update refers to are the keys
    in their order and then [buy_order], and the parameters bound are
    [buy_order] and then the keys: every name of the text has its
    parameter and every parameter its name. *)
Theorem update_names_its_parameters :
  forall w buy_order update_data,
    (forall k, In k (map fst update_data) -> is_identifier k = true) ->
    placeholders (update_sql update_data)
    = (map fst update_data ++ ["buy_order"])%list
    /\ map fst (update_parameters w buy_order update_data)
       = "buy_order" :: map fst update_data.
Proof.
  intros w bo d H. split.
  - unfold placeholders, update_sql.
    rewrite (names_from_skip "UPDATE payment_transactions SET " _ eq_refl).
    change (" WHERE buy_order = :buy_order")
      with (String " " "WHERE buy_order = :buy_order").
    rewrite (names_from_clauses d _ H). reflexivity.
  - unfold update_parameters. cbn [map fst]. f_equal.
    rewrite map_map. reflexivity.
Qed.

Lemma update_names_its_parameters_witness :
  placeholders (update_sql [("status", VStr "approved"); ("installments", VInt 3)])
  = ["status"; "installments"; "buy_order"]
  /\ map fst (update_parameters happy_world (VStr "VC-1")
                [("status", VStr "approved"); ("installments", VInt 3)])
     = ["buy_order"; "status"; "installments"].
Proof.
  apply (update_names_its_parameters happy_world (VStr "VC-1")
           [("status", VStr "approved"); ("installments", VInt 3)]).
  intros k [<-|[<-|[]]]; reflexivity.
Defined.

(* ================================================================= *)
(** ** The query of the flight search *)

Lemma count_placeholders_app_both (a b : string) :
  starts_with_s b = false ->
  count_placeholders (a ++ b) = (count_placeholders a + count_placeholders b)%nat
  /\ forall c, count_placeholders (String c a ++ b)
               = (count_placeholders (String c a) + count_placeholders b)%nat.
Proof.
  intros Hb. induction a as [|c2 a [IH1 IH2]].
  - split; [reflexivity|]. intros c. cbn [append count_placeholders].
    destruct b as [|c' b']; [reflexivity|].
    cbn [starts_with_s] in Hb. rewrite Hb, andb_false_r. reflexivity.
  - split; [apply IH2|]. intros c.
    change (String c (String c2 a) ++ b)%string with (String c (String c2 (a ++ b))).
    cbn [count_placeholders].
    destruct (Ascii.eqb c "%" && Ascii.eqb c2 "s")%bool.
    + rewrite IH1. reflexivity.
    + apply IH2.
Qed.

Lemma count_placeholders_app (a b : string) :
  starts_with_s b = false ->
  count_placeholders (a ++ b) = (count_placeholders a + count_placeholders b)%nat.
Proof. intros H. apply (count_placeholders_app_both a b H). Qed.

Lemma separate_starts (c x : string) : separate c = true -> starts_with_s (c ++ x) = false.
Proof.
  destruct c as [|ch c]; [discriminate|]. cbn [separate append starts_with_s].
  now destruct (Ascii.eqb ch "s").
Qed.

Lemma count_placeholders_concat (cs : list string) :
  forallb separate cs = true ->
  count_placeholders (String.concat " AND " cs) = placeholders_in cs.
Proof.
  induction cs as [|c cs IH]; [reflexivity|].
  cbn [forallb]. intros H; apply andb_prop in H as [Hc Hcs].
  destruct cs as [|c' cs].
  - change (String.concat " AND " [c]) with c.
    cbn [placeholders_in fold_right]. lia.
  - change (String.concat " AND " (c :: c' :: cs))
      with (c ++ " AND " ++ String.concat " AND " (c' :: cs))%string.
    rewrite count_placeholders_app by reflexivity.
    rewrite (count_placeholders_app " AND ").
    + rewrite (IH Hcs). reflexivity.
    + cbn [forallb] in Hcs. apply andb_prop in Hcs as [Hc' _].
      change (String.concat " AND " (c' :: cs))
        with (match cs with [] => c' | _ => c' ++ " AND " ++ String.concat " AND " cs end)%string.
      destruct cs; [|now apply separate_starts].
      rewrite <- (append_empty c'). now apply separate_starts.
Qed.

Lemma count_placeholders_query (cs : list string) :
  forallb separate cs = true ->
  count_placeholders (query_with cs) = placeholders_in cs.
Proof.
  intros H. unfold query_with.
  rewrite count_placeholders_app by reflexivity.
  assert (B : count_placeholders base_query = O) by (vm_compute; reflexivity).
  assert (R : count_placeholders order_clause = O) by (vm_compute; reflexivity).
  rewrite R. destruct cs as [|c cs]; [rewrite B; reflexivity|].
  rewrite count_placeholders_app by reflexivity.
  rewrite (count_placeholders_app " AND ").
  - rewrite B, (count_placeholders_concat _ H).
    change (count_placeholders " AND ") with O. lia.
  - cbn [forallb] in H. apply andb_prop in H as [Hc _].
    change (String.concat " AND " (c :: cs))
      with (match cs with [] => c | _ => c ++ " AND " ++ String.concat " AND " cs end)%string.
    destruct cs; [|now apply separate_starts].
    rewrite <- (append_empty c). now apply separate_starts.
Qed.

(** What each step of the builder adds to the conditions and to the
    parameters. *)
Lemma add_filter_fst d k c b :
  fst (add_filter d k c b) = (fst b ++ when (applies d k) c)%list.
Proof.
  unfold add_filter, applies, entry, when.
  destruct (lookup k d) as [v|]; [destruct (truthy v)|]; cbn [fst truthy];
    now rewrite ?app_nil_r.
Qed.

Lemma add_filter_snd d k c b :
  snd (add_filter d k c b) = (snd b ++ filter truthy [entry d k])%list.
Proof.
  unfold add_filter, entry. cbn [filter].
  destruct (lookup k d) as [v|]; [destruct (truthy v)|]; cbn [snd truthy];
    now rewrite ?app_nil_r.
Qed.

Lemma add_condition_fst d k c b :
  fst (add_condition d k c b) = (fst b ++ when (applies d k) c)%list.
Proof.
  unfold add_condition, applies, entry, when.
  destruct (lookup k d) as [v|]; [destruct (truthy v)|]; cbn [fst truthy];
    now rewrite ?app_nil_r.
Qed.

Lemma add_condition_snd d k c b : snd (add_condition d k c b) = snd b.
Proof.
  unfold add_condition. destruct (lookup k d) as [v|]; [destruct (truthy v)|];
    reflexivity.
Qed.

Lemma add_time_preference_fst d b :
  fst (add_time_preference d b) = (fst b ++ time_condition (time_of_day d))%list.
Proof.
  unfold add_time_preference, time_of_day, applies, entry.
  destruct (lookup "time_preference" d) as [v|]; cbn [truthy];
    [|now rewrite app_nil_r].
  destruct (truthy v); [|now rewrite app_nil_r].
  destruct (py_eq_str v "morning"); [reflexivity|].
  destruct (py_eq_str v "afternoon"); [reflexivity|].
  destruct (py_eq_str v "evening"); [reflexivity|].
  cbn [time_condition]. now rewrite app_nil_r.
Qed.

Lemma add_time_preference_snd d b : snd (add_time_preference d b) = snd b.
Proof.
  unfold add_time_preference.
  destruct (lookup "time_preference" d) as [v|]; [|reflexivity].
  destruct (truthy v); [|reflexivity].
  destruct (py_eq_str v "morning"); [reflexivity|].
  destruct (py_eq_str v "afternoon"); [reflexivity|].
  destruct (py_eq_str v "evening"); reflexivity.
Qed.

(** The builder in closed form: the text is the query for the conditions
    of the shape, the parameters are the values of the filters that
    apply. *)
Lemma build_search_query_eq (d : list (string * value)) :
  build_search_query (VDict d)
  = Ok (query_with (conditions_of (query_shape d)),
        filter truthy (map (entry d) filter_keys)).
Proof.
  unfold build_search_query. cbv zeta. unfold query_with. f_equal. f_equal.
  - rewrite add_time_preference_fst, add_filter_fst, add_condition_fst,
      !add_filter_fst.
    cbn [fst app query_shape conditions_of map filter_keys].
    rewrite <- !app_assoc. reflexivity.
  - rewrite add_time_preference_snd, add_filter_snd, add_condition_snd,
      !add_filter_snd.
    cbn [snd app map filter_keys].
    rewrite <- !filter_app. reflexivity.
Qed.

Lemma when_separate (b : bool) (c : string) :
  separate c = true -> forallb separate (when b c) = true.
Proof. intros H; destruct b; cbn [when forallb]; [now rewrite H|reflexivity]. Qed.

Lemma conditions_separate (shape : list bool * bool * option day_time) :
  forallb separate (conditions_of shape) = true.
Proof.
  destruct shape as [[flags direct] t].
  destruct flags as [|a1 [|a2 [|a3 [|a4 [|a5 [|a6 [|]]]]]]]; try reflexivity.
  cbn [conditions_of]. rewrite !forallb_app, !when_separate by reflexivity.
  now destruct t as [[| |]|].
Qed.

Lemma placeholders_in_app (l1 l2 : list string) :
  placeholders_in (l1 ++ l2) = (placeholders_in l1 + placeholders_in l2)%nat.
Proof.
  induction l1 as [|c l1 IH]; [reflexivity|].
  unfold placeholders_in in *. cbn [app fold_right]. rewrite IH. lia.
Qed.

Lemma placeholders_in_when (b : bool) (c : string) (n : nat) :
  count_placeholders c = n -> placeholders_in (when b c) = if b then n else O.
Proof. intros <-. destruct b; cbn [when placeholders_in fold_right]; lia. Qed.

Lemma length_filter_one (v : value) :
  List.length (filter truthy [v]) = if truthy v then 1%nat else O.
Proof. cbn [filter]. now destruct (truthy v). Qed.

(** X21: the query of a search binds a parameter for every placeholder.
    The parameters are the values of the filters that apply (origin,
    destination, date, passengers, highest price, airline, in this order;
    a filter applies when its value is true in Python's sense), and the
    text has as many [%s] as there are parameters. *)
Theorem search_query_binds_every_placeholder :
  forall d query params,
    build_search_query (VDict d) = Ok (query, params) ->
    count_placeholders query = List.length params /\
    params = filter truthy (map (entry d) filter_keys).
Proof.
  intros d query params H.
  pose proof (build_search_query_eq d) as E. rewrite H in E.
  assert (Eq : query = query_with (conditions_of (query_shape d))) by congruence.
  assert (Ep : params = filter truthy (map (entry d) filter_keys)) by congruence.
  clear E H. subst query params.
  split; [|reflexivity].
  rewrite (count_placeholders_query _ (conditions_separate _)).
  cbn [query_shape conditions_of map filter_keys].
  rewrite !placeholders_in_app.
  rewrite (placeholders_in_when _ "dep_airport.airport_code = %s" 1),
    (placeholders_in_when _ "arr_airport.airport_code = %s" 1),
    (placeholders_in_when _ "DATE(f.departure_time) = %s" 1),
    (placeholders_in_when _ "f.available_seats >= %s" 1),
    (placeholders_in_when _ "fp.price_economy <= %s" 1),
    (placeholders_in_when _ "f.stops = 0" 0),
    (placeholders_in_when _ "al.airline_code = %s" 1)
    by (vm_compute; reflexivity).
  assert (T : placeholders_in (time_condition (time_of_day d)) = O)
    by (destruct (time_of_day d) as [[| |]|]; vm_compute; reflexivity).
  rewrite T.
  change [entry d "from_airport"; entry d "to_airport"; entry d "departure_date";
          entry d "passengers"; entry d "max_price"; entry d "airline"]
    with ([entry d "from_airport"] ++ [entry d "to_airport"]
          ++ [entry d "departure_date"] ++ [entry d "passengers"]
          ++ [entry d "max_price"] ++ [entry d "airline"])%list.
  rewrite !filter_app, !length_app, !length_filter_one.
  unfold applies.
  destruct (truthy (entry d "direct_only")); lia.
Qed.

Lemma search_query_binds_every_placeholder_witness :
  let d := [("from_airport", VStr "SCL"); ("max_price", VInt 0);
            ("direct_only", VBool true); ("airline", VStr "LA")] in
  exists query,
    build_search_query (VDict d) = Ok (query, [VStr "SCL"; VStr "LA"])
    /\ count_placeholders query = 2%nat.
Proof.
  intros d.
  exists (query_with ["dep_airport.airport_code = %s"; "f.stops = 0";
                      "al.airline_code = %s"]).
  assert (H : build_search_query (VDict d)
              = Ok (query_with ["dep_airport.airport_code = %s"; "f.stops = 0";
                                "al.airline_code = %s"],
                    [VStr "SCL"; VStr "LA"])) by (vm_compute; reflexivity).
  split; [exact H|].
  exact (proj1 (search_query_binds_every_placeholder d _ _ H)).
Defined.

(** X22: no value of a search reaches the text of the query.  The text is
    decided by which filters apply and by which of the three times of day
    is asked for: two searches that agree on that get the same text,
    whatever the values they filter by; the values travel as
    parameters. *)
Theorem search_query_text_ignores_values :
  forall d1 d2,
    query_shape d1 = query_shape d2 ->
    exists query,
      build_search_query (VDict d1)
      = Ok (query, filter truthy (map (entry d1) filter_keys)) /\
      build_search_query (VDict d2)
      = Ok (query, filter truthy (map (entry d2) filter_keys)).
Proof.
  intros d1 d2 H.
  exists (query_with (conditions_of (query_shape d1))).
  split; [apply build_search_query_eq|].
  rewrite H. apply build_search_query_eq.
Qed.

Lemma search_query_text_ignores_values_witness :
  exists query,
    build_search_query (VDict [("from_airport", VStr "SCL")])
    = Ok (query, [VStr "SCL"]) /\
    build_search_query (VDict [("from_airport", VStr "' OR 1=1 --")])
    = Ok (query, [VStr "' OR 1=1 --"]).
Proof.
  exact (search_query_text_ignores_values
           [("from_airport", VStr "SCL")] [("from_airport", VStr "' OR 1=1 --")]
           eq_refl).
Defined.

(** X23: a search without filters lists the first fifty flights.  Every
    query starts with the select and ends with the order by price,
    departure and stops and the limit of 50.  When no filter applies
    (absent, [None], empty, 0 or false: a highest price of 0 filters
    nothing) and the time of day is none of the three, the query is these
    two parts and binds nothing; a return date and a trip type change
    nothing.  Search parameters that are no object are an
    [AttributeError]. *)
Theorem search_query_frame :
  forall search_params,
    (forall query params,
        build_search_query search_params = Ok (query, params) ->
        exists conditions,
          query = (base_query ++ conditions ++ order_clause)%string) /\
    (forall d,
        search_params = VDict d ->
        query_shape d = ([false; false; false; false; false; false], false, None) ->
        build_search_query search_params = Ok ((base_query ++ order_clause)%string, [])) /\
    ((forall d, search_params <> VDict d) ->
     build_search_query search_params = Raise AttributeError).
Proof.
  intros sp. split; [|split].
  - intros query params H.
    destruct sp as [| | | | | |d]; try discriminate H.
    pose proof (build_search_query_eq d) as E. rewrite H in E.
    assert (Eq : query = query_with (conditions_of (query_shape d))) by congruence.
    clear E H. subst query.
    unfold query_with.
    destruct (conditions_of (query_shape d)) as [|c cs].
    + exists EmptyString. reflexivity.
    + exists (" AND " ++ String.concat " AND " (c :: cs))%string.
      now rewrite append_assoc.
  - intros d -> H. rewrite build_search_query_eq, H.
    cbn [conditions_of when time_condition app query_with].
    f_equal. f_equal.
    injection H as H1 H2 H3 H4 H5 H6 _ _.
    unfold applies in *. cbn [map filter_keys filter].
    now rewrite H1, H2, H3, H4, H5, H6.
  - intros H. destruct sp as [| | | | | |d]; try reflexivity. now elim (H d).
Qed.

Lemma search_query_frame_witness :
  build_search_query
    (VDict [("max_price", VInt 0); ("time_preference", VStr "night");
            ("return_date", VStr "2024-02-01"); ("trip_type", VStr "roundtrip")])
  = Ok ((base_query ++ order_clause)%string, []).
Proof.
  exact (proj1 (proj2 (search_query_frame
                         (VDict [("max_price", VInt 0);
                                 ("time_preference", VStr "night");
                                 ("return_date", VStr "2024-02-01");
                                 ("trip_type", VStr "roundtrip")])))
           _ eq_refl eq_refl).
Defined.

(* ================================================================= *)
(** ** The construction of the payment service *)

Lemma integration_credentials w st :
  exists c st', _get_transbank_credentials w "integration" st = (Ok c, st').
Proof.
  unfold _get_transbank_credentials, secret, py_json_loads,
    log_error, try_except, bind, ret, raise, lift, emit, history.
  cbn [fst snd trace ticks String.eqb Ascii.eqb Bool.eqb].
  destruct (get_secret_value w (trace st) _) as [response|e]; [|eauto].
  cbn [fst snd trace ticks].
  destruct (py_getitem response "SecretString") as [s|e]; [|eauto].
  destruct s as [| | | |s| |]; eauto.
  unfold lift. destruct (json_loads w s); eauto.
Qed.

(** X24: the construction of the payment service.  The environment is
    [TRANSBANK_ENVIRONMENT], [integration] when it is not set; the
    production host is used for exactly the value [production] and the
    integration host for every other value.  In the integration
    environment the construction succeeds as soon as the two clients can
    be made, whatever the secret store answers; and when the first client
    cannot be made nothing else is tried. *)
Theorem service_construction :
  forall w st,
    let env := match environ w "TRANSBANK_ENVIRONMENT" with
               | Some e => e
               | None => "integration"
               end in
    let run := TransbankPaymentService w st in
    (forall payment_service,
        fst run = Ok payment_service ->
        environment payment_service = env /\
        (base_url payment_service = "https://webpay3g.transbank.cl"
         <-> env = "production") /\
        (base_url payment_service = "https://webpay3gint.transbank.cl"
         <-> env <> "production") /\
        db_cluster_arn payment_service = env_value w "DB_CLUSTER_ARN" /\
        db_secret_arn payment_service = env_value w "DB_SECRET_ARN") /\
    (env = "integration" ->
     boto3_client w "secretsmanager" = Ok tt ->
     boto3_client w "rds-data" = Ok tt ->
     exists payment_service, fst run = Ok payment_service) /\
    (forall e,
        boto3_client w "secretsmanager" = Raise e ->
        run = (Raise e, {| trace := EClient "secretsmanager" :: trace st;
                           ticks := ticks st |})).
Proof.
  intros w st env run. subst run.
  unfold TransbankPaymentService, client, emit, bind, ret, lift.
  cbn [fst snd trace ticks]. fold env.
  split; [|split].
  - intros svc.
    destruct (boto3_client w "secretsmanager") as [[]|e]; [|discriminate].
    destruct (_get_transbank_credentials w env _) as [[c|e] s1]; [|discriminate].
    cbn [fst snd trace ticks].
    destruct (boto3_client w "rds-data") as [[]|e]; [|discriminate].
    intros [= <-]. cbn [environment base_url db_cluster_arn db_secret_arn].
    split; [reflexivity|].
    destruct (String.eqb_spec env "production") as [E|E].
    + repeat split; try tauto; try discriminate.
    + repeat split; try tauto; try discriminate.
  - intros E C1 C2. rewrite C1. rewrite E.
    destruct (integration_credentials w
                {| trace := EClient "secretsmanager" :: trace st; ticks := ticks st |})
      as (c & s1 & ->).
    cbn [fst snd trace ticks]. rewrite C2. eexists; reflexivity.
  - intros e C1. rewrite C1. reflexivity.
Qed.

Lemma service_construction_witness :
  exists payment_service,
    fst (TransbankPaymentService happy_world start) = Ok payment_service.
Proof.
  exact (proj1 (proj2 (service_construction happy_world start))
           eq_refl eq_refl eq_refl).
Defined.

(* ================================================================= *)
(** ** The flight search: the connection *)

Ltac search_unfold :=
  unfold Search.lambda_handler, Search.FlightSearchService,
    Search.search_flights, Search.get_popular_routes, Search.get_price_trends,
    Search.get_database_connection, Search.get_database_credentials,
    Search.py_json_loads, Search.client, Search.secret, Search.psycopg2_connect,
    Search.set_session_readonly, Search.conn_cursor, Search.cursor_execute,
    Search.cursor_fetchall, Search.cursor_close, Search.connection_closed,
    Search.log_error, Search.log_info, Search.connected, Search.set_connection,
    Search.try_except, Search.bind, Search.ret, Search.raise, Search.lift,
    Search.emit, Search.history in *.

Ltac search_simpl :=
  cbv beta iota delta [Search.trace Search.db_connection fst snd].

Ltac search_step :=
  match goal with
  | |- ?g => let x := scrutinee g in
             destruct x eqn:?; search_simpl
  end.

Lemma search_emitted_cons (e : Search.event) (l n t : list Search.event) :
  l = (n ++ t)%list -> e :: l = ((e :: n) ++ t)%list.
Proof. intros ->; reflexivity. Qed.

Lemma search_emitted_nil (t : list Search.event) : t = ([] ++ t)%list.
Proof. reflexivity. Qed.

(** Whatever happens, the trace grows. *)
Lemma connection_extends w self st :
  exists r new b,
    Search.get_database_connection w self st
    = (r, {| Search.trace := (new ++ Search.trace st)%list;
             Search.db_connection := b |}).
Proof.
  destruct st as [t c]. search_unfold. search_simpl.
  repeat search_step.
  all: eexists; eexists; eexists; f_equal; f_equal;
    repeat first [apply search_emitted_nil | apply search_emitted_cons].
Qed.

(** X25: the connection to the database.  With a connection that is
    there and open, nothing is done.  Otherwise the credentials are read
    from the secret store, the JSON object in the [SecretString] of the
    secret named by the service, and one connection is made with its
    [host], [port], [dbname], [username] and [password], all five of
    which it holds, over TLS ([sslmode] [require]) and read-only exactly
    when [USE_READ_REPLICA] reads [true] in any case of letters.  A failure is logged and raised
    again; when it is the secret that cannot be read, it is logged
    twice, once as an error of the credentials and once as an error of
    the connection. *)
Theorem connection_is_made_when_needed :
  forall w self st,
    let run := Search.get_database_connection w self st in
    let needed := (negb (Search.db_connection st) || Search.closed w (Search.trace st))%bool in
    let secret_id := Search.db_secret_name self in
    (needed = false -> run = (Ok tt, st)) /\
    (needed = true ->
     (forall e,
         Search.get_secret_value w (Search.trace st) secret_id = Raise e ->
         run = (Raise e,
                {| Search.trace :=
                     [ Search.ELogError "Database connection error" e;
                       Search.ELogError "Error retrieving database credentials" e;
                       Search.ESecret secret_id (Raise e) ] ++ Search.trace st;
                   Search.db_connection := Search.db_connection st |})) /\
     (forall e,
         fst run = Raise e ->
         hd_error (Search.trace (snd run))
         = Some (Search.ELogError "Database connection error" e)) /\
     (fst run = Ok tt ->
      Search.db_connection (snd run) = true /\
      exists new response s c,
        Search.get_secret_value w (Search.trace st) secret_id = Ok response /\
        py_getitem response "SecretString" = Ok (VStr s) /\
        Search.json_loads w s = Ok (VDict c) /\
        (forall k, In k ["host"; "port"; "dbname"; "username"; "password"] ->
                   lookup k c <> None) /\
        Search.trace (snd run) = (new ++ Search.trace st)%list /\
        In (Search.ESecret secret_id (Ok response)) new /\
        filter is_connect new = [Search.EConnect (connect_arguments c) (Ok tt)] /\
        existsb is_read_only new = use_read_replica w)).
Proof.
  intros w self st run needed secret_id. subst run needed secret_id.
  split.
  - destruct st as [t c]. search_unfold. search_simpl.
    destruct c; cbn [negb orb]; [|discriminate].
    intros ->. reflexivity.
  - destruct st as [t c]. search_simpl. intros N.
    search_unfold. search_simpl.
    destruct c; cbn [negb orb] in N; [rewrite N|]; search_simpl;
      fold (Search.environ_or w "USE_READ_REPLICA" "false");
      fold (use_read_replica w).
    all: split; [intros e ->; reflexivity|].
    all: split;
      [ repeat search_step; intros e' D; try discriminate D;
        injection D as <-; reflexivity |].
    all: repeat search_step; intros D; try discriminate D.
    all: split; [reflexivity|].
    all: match goal with
         | H : py_getitem ?a "host" = Ok _ |- _ =>
             destruct a as [| | | | | |d]; try discriminate H
         end.
    all: repeat match goal with
                | H : py_getitem (VDict _) _ = Ok _ |- _ =>
                    cbn [py_getitem] in H;
                    match type of H with
                    | context [lookup ?k ?d] =>
                        let E := fresh "E" in
                        destruct (lookup k d) eqn:E; [injection H as <-|discriminate H]
                    end
                end.
    all: match goal with
         | Hs : Search.get_secret_value _ _ _ = Ok ?a,
           Hg : py_getitem ?a "SecretString" = Ok (VStr ?s),
           Hj : Search.json_loads _ ?s = Ok (VDict ?d) |- _ =>
             eexists; exists a, s, d;
             split; [first [exact Hs | reflexivity]|];
             split; [exact Hg|]; split; [exact Hj|]
         end.
    all: split;
      [ intros k [<-|[<-|[<-|[<-|[<-|[]]]]]]; congruence |].
    all: split;
      [repeat first [apply search_emitted_nil | apply search_emitted_cons]|].
    all: cbn [filter is_connect existsb is_read_only orb In].
    all: split; [auto|].
    all: split; [|reflexivity].
    all: unfold connect_arguments, entry.
    all: repeat match goal with H : lookup _ _ = Some _ |- _ => rewrite H; clear H end.
    all: repeat match goal with u : unit |- _ => destruct u end; reflexivity.
Qed.

(** Started without a connection, the service connects once, with the
    credentials of the secret. *)
Lemma connection_is_made_when_needed_witness :
  let run := Search.get_database_connection search_world search_service search_start in
  Search.db_connection (snd run) = true /\
  exists new response s c,
    Search.get_secret_value search_world (Search.trace search_start)
      (Search.db_secret_name search_service) = Ok response /\
    py_getitem response "SecretString" = Ok (VStr s) /\
    Search.json_loads search_world s = Ok (VDict c) /\
    (forall k, In k ["host"; "port"; "dbname"; "username"; "password"] ->
               lookup k c <> None) /\
    Search.trace (snd run) = (new ++ Search.trace search_start)%list /\
    In (Search.ESecret (Search.db_secret_name search_service) (Ok response)) new /\
    filter is_connect new = [Search.EConnect (connect_arguments c) (Ok tt)] /\
    existsb is_read_only new = use_read_replica search_world.
Proof.
  intros run.
  apply (proj2 (proj2 (proj2 (connection_is_made_when_needed search_world
                                search_service search_start) eq_refl))).
  vm_compute; reflexivity.
Defined.

(* ================================================================= *)
(** ** The flight search: the three operations *)

Lemma for_each_length {A B} (f : A -> res B) (l : list A) (ys : list B) :
  for_each f l = Ok ys -> List.length ys = List.length l.
Proof.
  revert ys. induction l as [|x l IH]; intros ys H.
  - now injection H as <-.
  - cbn [for_each] in H. destruct (f x); [|discriminate H].
    destruct (for_each f l) as [ys'|]; [|discriminate H].
    injection H as <-. cbn [List.length]. f_equal. now apply IH.
Qed.

Lemma column_raises (row : list Search.cell) (i : nat) (e : exn) :
  Search.column row i = Raise e -> e = IndexError.
Proof. unfold Search.column. destruct (nth_error row i); [discriminate|now intros [= <-]]. Qed.

Lemma column_beyond (row : list Search.cell) (i : nat) :
  (List.length row <= i)%nat -> Search.column row i = Raise IndexError.
Proof.
  intros H. unfold Search.column.
  now rewrite (proj2 (nth_error_None row i) H).
Qed.

(** The run of a query up to its rows, after the connection. *)
Ltac query_run w :=
  match goal with
  | |- context [Search.cursor w ?h] =>
      destruct (Search.cursor w h) as [[]|?e] eqn:?; search_simpl
  end;
  [ match goal with
    | |- context [Search.execute w ?h ?q ?ps] =>
        destruct (Search.execute w h q ps) as [[]|?e] eqn:?; search_simpl
    end;
    [ match goal with
      | |- context [Search.fetchall w ?h] =>
          destruct (Search.fetchall w h) as [rows|?e] eqn:?; search_simpl
      end | ] | ].

(** The two operations that swallow their failures return. *)
Lemma routes_and_trends_run w self from_airport to_airport st :
  (exists data, fst (Search.get_popular_routes w self st) = Ok data) /\
  (exists data,
      fst (Search.get_price_trends w self from_airport to_airport st) = Ok data).
Proof.
  split.
  - unfold Search.get_popular_routes, Search.try_except.
    match goal with
    | |- context [Search.bind ?m ?k st] => destruct (Search.bind m k st) as [[data|e] s1]
    end; [now exists data|].
    unfold Search.log_error, Search.emit, Search.bind, Search.ret. search_simpl.
    eexists; reflexivity.
  - unfold Search.get_price_trends, Search.try_except.
    match goal with
    | |- context [Search.bind ?m ?k st] => destruct (Search.bind m k st) as [[data|e] s1]
    end; [now exists data|].
    unfold Search.log_error, Search.emit, Search.bind, Search.ret. search_simpl.
    eexists; reflexivity.
Qed.

(** X26: the popular routes and the price trends never raise.  Each of the
    two either went all the way, connection, cursor, query, rows,
    formatting and closing of the cursor, and returns what it made of the
    rows; or it failed somewhere on that way, logged the failure as its
    last act, and returns the empty list, respectively the empty dict. *)
Theorem routes_and_trends_never_raise :
  forall w self from_airport to_airport st,
    let routes := Search.get_popular_routes w self st in
    let trends := Search.get_price_trends w self from_airport to_airport st in
    ((exists e,
         fst routes = Ok (Search.Items []) /\
         hd_error (Search.trace (snd routes))
         = Some (Search.ELogError "Error getting popular routes" e))
     \/
     (exists rows formatted log,
         fst routes = Ok (Search.Items formatted) /\
         for_each (Search.format_route w) rows = Ok formatted /\
         Search.trace (snd routes)
         = ([ Search.EClose (Ok tt); Search.EFetch (Ok rows);
              Search.EExecute Search.popular_routes_query None (Ok tt);
              Search.ECursor (Ok tt) ] ++ log ++ Search.trace st)%list))
    /\
    ((exists e,
         fst trends = Ok (Search.Dict []) /\
         hd_error (Search.trace (snd trends))
         = Some (Search.ELogError "Error getting price trends" e))
     \/
     (exists rows formatted log,
         fst trends
         = Ok (Search.Dict
                 [ ("route", Search.Dict
                               [ ("from", Search.Leaf (Search.Plain from_airport));
                                 ("to", Search.Leaf (Search.Plain to_airport)) ]);
                   ("price_data", Search.Items formatted) ]) /\
         for_each (Search.format_trend w) rows = Ok formatted /\
         Search.trace (snd trends)
         = ([ Search.EClose (Ok tt); Search.EFetch (Ok rows);
              Search.EExecute Search.price_trends_query
                (Some [from_airport; to_airport]) (Ok tt);
              Search.ECursor (Ok tt) ] ++ log ++ Search.trace st)%list)).
Proof.
  intros w self from_airport to_airport st routes trends. subst routes trends.
  destruct (connection_extends w self st) as (r & new & b & E).
  split.
  - unfold Search.get_popular_routes, Search.try_except,
      Search.conn_cursor, Search.cursor_execute, Search.cursor_fetchall,
      Search.cursor_close, Search.log_error, Search.bind, Search.ret, Search.lift,
      Search.emit, Search.history.
    search_simpl. rewrite E. search_simpl.
    destruct r as [[]|e]; search_simpl.
    2:{ left; exists e. split; reflexivity. }
    query_run w; try (left; eexists; split; reflexivity).
    destruct (for_each (Search.format_route w) rows) as [formatted|e] eqn:F;
      search_simpl; try (left; eexists; split; reflexivity).
    match goal with
    | |- context [Search.close w ?h] =>
        destruct (Search.close w h) as [[]|e] eqn:?; search_simpl
    end; try (left; eexists; split; reflexivity).
    right. exists rows, formatted, new. split; [reflexivity|]. split; [exact F|].
    reflexivity.
  - unfold Search.get_price_trends, Search.try_except,
      Search.conn_cursor, Search.cursor_execute, Search.cursor_fetchall,
      Search.cursor_close, Search.log_error, Search.bind, Search.ret, Search.lift,
      Search.emit, Search.history.
    search_simpl. rewrite E. search_simpl.
    destruct r as [[]|e]; search_simpl.
    2:{ left; exists e. split; reflexivity. }
    query_run w; try (left; eexists; split; reflexivity).
    destruct (for_each (Search.format_trend w) rows) as [formatted|e] eqn:F;
      search_simpl; try (left; eexists; split; reflexivity).
    match goal with
    | |- context [Search.close w ?h] =>
        destruct (Search.close w h) as [[]|e] eqn:?; search_simpl
    end; try (left; eexists; split; reflexivity).
    right. exists rows, formatted, new. split; [reflexivity|]. split; [exact F|].
    reflexivity.
Qed.

(** X27: a search returns one flight for every row, or raises.  When
    [search_flights] returns, it ran the query built from the search
    parameters with its parameters, made a flight of every row that came
    back, in their order, closed the cursor and logged how many it found.
    When anything on the way fails, a row of fewer than 19 columns
    included, the failure is logged and raised again. *)
Theorem search_flights_returns_a_flight_per_row :
  forall w self search_params st,
    let run := Search.search_flights w self search_params st in
    (forall e,
        fst run = Raise e ->
        hd_error (Search.trace (snd run))
        = Some (Search.ELogError "Error searching flights" e)) /\
    (forall flights,
        fst run = Ok flights ->
        exists rows query params log,
          build_search_query search_params = Ok (query, params) /\
          for_each (Search.format_flight w) rows = Ok flights /\
          List.length flights = List.length rows /\
          Search.trace (snd run)
          = ([ Search.ELogInfo
                 ("Found "
                  ++ py_str (Search.repr w) (VInt (Z.of_nat (List.length flights)))
                  ++ " flights for search parameters");
               Search.EClose (Ok tt); Search.EFetch (Ok rows);
               Search.EExecute query (Some params) (Ok tt);
               Search.ECursor (Ok tt) ] ++ log ++ Search.trace st)%list) /\
    (forall row,
        (List.length row < 19)%nat -> Search.format_flight w row = Raise IndexError).
Proof.
  intros w self search_params st run. subst run.
  split; [|split].
  - intros e.
    unfold Search.search_flights, Search.try_except.
    match goal with
    | |- context [Search.bind ?m ?k st] => destruct (Search.bind m k st) as [[flights|e'] s1]
    end.
    + intros D; discriminate D.
    + unfold Search.log_error, Search.emit, Search.bind, Search.raise. search_simpl.
      now intros [= <-].
  - intros flights.
    destruct (connection_extends w self st) as (r & new & b & E).
    unfold Search.search_flights, Search.try_except,
      Search.conn_cursor, Search.cursor_execute, Search.cursor_fetchall,
      Search.cursor_close, Search.log_error, Search.log_info, Search.bind,
      Search.ret, Search.raise, Search.lift, Search.emit, Search.history.
    search_simpl. rewrite E. search_simpl.
    destruct r as [[]|e]; search_simpl; [|intros D; discriminate D].
    match goal with
    | |- context [Search.cursor w ?h] =>
        destruct (Search.cursor w h) as [[]|?e] eqn:?; search_simpl
    end; [|intros D; discriminate D].
    destruct (build_search_query search_params) as [[query params]|e] eqn:Q;
      search_simpl; [|intros D; discriminate D].
    match goal with
    | |- context [Search.execute w ?h ?q ?ps] =>
        destruct (Search.execute w h q ps) as [[]|?e] eqn:?; search_simpl
    end; [|intros D; discriminate D].
    match goal with
    | |- context [Search.fetchall w ?h] =>
        destruct (Search.fetchall w h) as [rows|?e] eqn:?; search_simpl
    end; [|intros D; discriminate D].
    destruct (for_each (Search.format_flight w) rows) as [formatted|e] eqn:F;
      search_simpl; [|intros D; discriminate D].
    match goal with
    | |- context [Search.close w ?h] =>
        destruct (Search.close w h) as [[]|e] eqn:?; search_simpl
    end; [|intros D; discriminate D].
    intros [= <-].
    exists rows, query, params, new. split; [reflexivity|]. split; [exact F|].
    split; [exact (for_each_length _ _ _ F)|reflexivity].
  - intros row H. unfold Search.format_flight, Search.res_bind.
    destruct (Search.column row 0) as [c0|e] eqn:E0;
      [|now rewrite (column_raises _ _ _ E0)].
    destruct (Search.column row 1) as [c1|e] eqn:E1;
      [|now rewrite (column_raises _ _ _ E1)].
    destruct (Search.column row 17) as [c17|e] eqn:E17;
      [|now rewrite (column_raises _ _ _ E17)].
    rewrite (column_beyond row 18) by lia. reflexivity.
Qed.

(** A row of six columns is no flight. *)
Lemma search_flights_returns_a_flight_per_row_witness :
  Search.format_flight search_world route_row = Raise IndexError.
Proof.
  apply (proj2 (proj2 (search_flights_returns_a_flight_per_row search_world
                         search_service (VDict []) search_start))).
  cbn. lia.
Defined.

(* ================================================================= *)
(** ** The flight search: the handler *)

Lemma search_try_except_cases {A} (m : Search.M A) (h : exn -> Search.M A)
  (s : Search.state) :
  (exists a s', m s = (Ok a, s') /\ Search.try_except m h s = (Ok a, s'))
  \/ (exists e s', m s = (Raise e, s') /\ Search.try_except m h s = h e s').
Proof.
  unfold Search.try_except. destruct (m s) as [[a|e] s']; [left|right]; eauto.
Qed.

Lemma search_bind_ok {A B} (m : Search.M A) (k : A -> Search.M B)
  (s : Search.state) (b : B) (s' : Search.state) :
  Search.bind m k s = (Ok b, s') ->
  exists a s1, m s = (Ok a, s1) /\ k a s1 = (Ok b, s').
Proof.
  unfold Search.bind. destruct (m s) as [[a|e] s1]; [eauto|discriminate].
Qed.

Lemma search_handler_body w event s :
  match lookup "body" event with
  | Some (VStr b) => Search.lift (Search.json_loads w b)
  | Some b => Search.ret b
  | None => Search.ret (VDict event)
  end s = (search_request_body w event, s).
Proof.
  unfold search_request_body, Search.lift, Search.ret.
  destruct (lookup "body" event) as [[]|]; reflexivity.
Qed.

(** X28: the handler of the search answers every request.  It never
    raises: the answer is HTTP 200 with the data of the operation, or HTTP
    500 after the failure was logged; both carry the JSON content type and
    allow any origin; and the text of the failure is part of a 500 answer
    only when [DEBUG] is exactly ['true']. *)
Theorem search_handler_always_answers :
  forall w event st,
    let run := Search.lambda_handler w event st in
    exists response,
      fst run = Ok response /\
      In ("Content-Type", "application/json") (Search.headers response) /\
      In ("Access-Control-Allow-Origin", "*") (Search.headers response) /\
      ((Search.statusCode response = 200 /\
        exists response_data, Search.content response = Search.Data response_data)
       \/
       (Search.statusCode response = 500 /\
        exists e, Search.content response = Search.Failed (search_shown_error w e) /\
                  hd_error (Search.trace (snd run))
                  = Some (Search.ELogError "Lambda execution error" e))) /\
      (Search.environ w "DEBUG" <> Some "true" ->
       forall e, Search.content response <> Search.Failed (Some e)).
Proof.
  intros w event st run. subst run. unfold Search.lambda_handler.
  match goal with
  | |- context [Search.try_except ?m ?h st] =>
      destruct (search_try_except_cases m h st)
        as [(a & s' & Hm & ->)|(e & s' & Hm & ->)]
  end.
  - apply search_bind_ok in Hm as (body & s1 & _ & Hm).
    apply search_bind_ok in Hm as (svc & s2 & _ & Hm).
    apply search_bind_ok in Hm as (action & s3 & _ & Hm).
    apply search_bind_ok in Hm as (response_data & s4 & _ & Hm).
    injection Hm as <- <-. cbn [fst snd].
    eexists; split; [reflexivity|].
    cbn [Search.headers Search.statusCode Search.content ok_headers In].
    split; [auto|]. split; [auto|].
    split; [left; split; [reflexivity|]; now exists response_data|].
    intros _ e D; discriminate D.
  - unfold Search.log_error, Search.emit, Search.bind, Search.ret. search_simpl.
    eexists; split; [reflexivity|].
    cbn [Search.headers Search.statusCode Search.content error_headers In hd_error].
    split; [auto|]. split; [auto|].
    split; [right; split; [reflexivity|]; exists e; split; reflexivity|].
    intros Hd e'.
    destruct (Search.environ w "DEBUG") as [d|]; [|discriminate].
    destruct (String.eqb_spec d "true") as [->|]; [now elim Hd|discriminate].
Qed.

Ltac handler_to_action Hb Hs :=
  unfold Search.lambda_handler, Search.try_except, Search.bind at 1;
  rewrite search_handler_body, Hb; unfold Search.bind at 1; rewrite Hs;
  unfold Search.bind at 1, Search.lift at 1; cbn [py_get].

(** X29: which failures of the search reach the caller.  With the service
    constructed: a search (the action by default) is answered HTTP 200
    with the flights, the search parameters as given and the number of
    flights when [search_flights] returns, and HTTP 500 when it raises;
    the popular routes and, for two airports, the price trends are
    answered HTTP 200 whatever happens to the database, with what the
    operation returned: the empty list or dict after a failure. *)
Theorem search_handler_statuses :
  forall w event st d flight_service st1,
    search_request_body w event = Ok (VDict d) ->
    Search.FlightSearchService w st = (Ok flight_service, st1) ->
    let search_params := entry_or d "search_params" (VDict []) in
    let found := Search.search_flights w flight_service search_params st1 in
    let routes := Search.get_popular_routes w flight_service st1 in
    let trends := Search.get_price_trends w flight_service
                    (entry d "from_airport") (entry d "to_airport") st1 in
    let answer data := {| Search.statusCode := 200; Search.headers := ok_headers;
                          Search.content := Search.Data data |} in
    (lookup "action" d = None \/ lookup "action" d = Some (VStr "search") ->
     (forall flights,
         fst found = Ok flights ->
         Search.lambda_handler w event st
         = (Ok (answer
                  (Search.Dict
                     [ ("flights", Search.Items flights);
                       ("search_params", Search.Leaf (Search.Plain search_params));
                       ("total_results",
                        Search.Leaf (Search.Plain
                                       (VInt (Z.of_nat (List.length flights))))) ])),
            snd found)) /\
     (forall e,
         fst found = Raise e ->
         fst (Search.lambda_handler w event st)
         = Ok {| Search.statusCode := 500; Search.headers := error_headers;
                 Search.content := Search.Failed (search_shown_error w e) |}))
    /\
    (lookup "action" d = Some (VStr "popular_routes") ->
     exists data,
       fst routes = Ok data /\
       Search.lambda_handler w event st
       = (Ok (answer (Search.Dict [("popular_routes", data)])), snd routes))
    /\
    (lookup "action" d = Some (VStr "price_trends") ->
     truthy (entry d "from_airport") = true ->
     truthy (entry d "to_airport") = true ->
     exists data,
       fst trends = Ok data /\
       Search.lambda_handler w event st = (Ok (answer data), snd trends)).
Proof.
  intros w event st d svc st1 Hb Hs search_params found routes trends answer.
  assert (Default : forall a,
             lookup "action" d = None \/ lookup "action" d = Some (VStr "search") ->
             a = match lookup "action" d with Some v => v | None => VStr "search" end ->
             a = VStr "search").
  { intros a [H|H] ->; now rewrite H. }
  split; [|split].
  - intros Ha. split.
    + intros flights Hf.
      handler_to_action Hb Hs. rewrite (Default _ Ha eq_refl).
      cbn [py_eq_str String.eqb Ascii.eqb Bool.eqb].
      unfold Search.bind at 1, Search.bind at 1, Search.lift at 1. cbn [py_get].
      fold (entry_or d "search_params" (VDict [])). fold search_params.
      unfold Search.bind at 1. fold found.
      destruct found as [r s2]. cbn [fst snd] in *. subst r. reflexivity.
    + intros e Hf.
      handler_to_action Hb Hs. rewrite (Default _ Ha eq_refl).
      cbn [py_eq_str String.eqb Ascii.eqb Bool.eqb].
      unfold Search.bind at 1, Search.bind at 1, Search.lift at 1. cbn [py_get].
      fold (entry_or d "search_params" (VDict [])). fold search_params.
      unfold Search.bind at 1. fold found.
      destruct found as [r s2]. cbn [fst snd] in *. subst r. reflexivity.
  - intros Ha.
    destruct (routes_and_trends_run w svc (entry d "from_airport")
                (entry d "to_airport") st1) as ((data & Hr) & _).
    change (fst routes = Ok data) in Hr.
    exists data. split; [exact Hr|].
    handler_to_action Hb Hs. rewrite Ha.
    cbn [py_eq_str String.eqb Ascii.eqb Bool.eqb].
    unfold Search.bind at 1, Search.bind at 1. fold routes.
    destruct routes as [r s2]. cbn [fst snd] in *. subst r. reflexivity.
  - intros Ha Tf Tt.
    destruct (routes_and_trends_run w svc (entry d "from_airport")
                (entry d "to_airport") st1) as (_ & (data & Hr)).
    change (fst trends = Ok data) in Hr.
    exists data. split; [exact Hr|].
    handler_to_action Hb Hs. rewrite Ha.
    cbn [py_eq_str String.eqb Ascii.eqb Bool.eqb].
    unfold Search.bind at 1, Search.bind at 1, Search.lift at 1. cbn [py_get].
    fold (entry d "from_airport").
    unfold Search.bind at 1, Search.lift at 1. cbn [py_get].
    fold (entry d "to_airport"). rewrite Tf, Tt. cbn [negb orb].
    fold trends.
    destruct trends as [r s2]. cbn [fst snd] in *. subst r. reflexivity.
Qed.

(** The popular routes, on the running example. *)
Lemma search_handler_statuses_witness :
  exists data,
    fst (Search.get_popular_routes search_world search_service
           {| Search.trace :=
                [ Search.EClient "elasticache" "us-east-1";
                  Search.EClient "secretsmanager" "us-east-1" ];
              Search.db_connection := false |}) = Ok data /\
    Search.lambda_handler search_world [("action", VStr "popular_routes")] search_start
    = (Ok {| Search.statusCode := 200; Search.headers := ok_headers;
             Search.content := Search.Data (Search.Dict [("popular_routes", data)]) |},
       snd (Search.get_popular_routes search_world search_service
              {| Search.trace :=
                   [ Search.EClient "elasticache" "us-east-1";
                     Search.EClient "secretsmanager" "us-east-1" ];
                 Search.db_connection := false |})).
Proof.
  apply (proj1 (proj2 (search_handler_statuses search_world
                         [("action", VStr "popular_routes")] search_start
                         [("action", VStr "popular_routes")] search_service
                         {| Search.trace :=
                              [ Search.EClient "elasticache" "us-east-1";
                                Search.EClient "secretsmanager" "us-east-1" ];
                            Search.db_connection := false |}
                         eq_refl eq_refl))).
  reflexivity.
Defined.

(** X30: what the handler of the search refuses before it reaches the
    database.  With the service constructed, price trends asked for
    without a truthy [from_airport] and a truthy [to_airport], and an
    action other than [search], [popular_routes] and [price_trends], are
    answered HTTP 500; the only effect after the construction of the
    service is the log entry of the failure: no secret is read and no
    connection is opened. *)
Theorem search_handler_refuses :
  forall w event st d flight_service st1,
    search_request_body w event = Ok (VDict d) ->
    Search.FlightSearchService w st = (Ok flight_service, st1) ->
    let action := entry_or d "action" (VStr "search") in
    let refused e :=
      (Ok {| Search.statusCode := 500; Search.headers := error_headers;
             Search.content := Search.Failed (search_shown_error w e) |},
       {| Search.trace :=
            Search.ELogError "Lambda execution error" e :: Search.trace st1;
          Search.db_connection := Search.db_connection st1 |}) in
    (action = VStr "price_trends" ->
     truthy (entry d "from_airport") = false
     \/ truthy (entry d "to_airport") = false ->
     Search.lambda_handler w event st = refused ValueError)
    /\
    (py_eq_str action "search" = false ->
     py_eq_str action "popular_routes" = false ->
     py_eq_str action "price_trends" = false ->
     Search.lambda_handler w event st = refused (UnknownAction action)).
Proof.
  intros w event st d svc st1 Hb Hs action refused. subst refused.
  split.
  - intros Ha Hf.
    handler_to_action Hb Hs. fold (entry_or d "action" (VStr "search")).
    fold action. rewrite Ha.
    cbn [py_eq_str String.eqb Ascii.eqb Bool.eqb].
    unfold Search.bind at 1, Search.bind at 1, Search.lift at 1. cbn [py_get].
    fold (entry d "from_airport").
    unfold Search.bind at 1, Search.lift at 1. cbn [py_get].
    fold (entry d "to_airport").
    assert (T : (negb (truthy (entry d "from_airport"))
                 || negb (truthy (entry d "to_airport")))%bool = true).
    { destruct Hf as [-> | ->]; cbn; [reflexivity | apply orb_true_r]. }
    rewrite T.
    unfold Search.raise, Search.log_error, Search.emit, Search.bind, Search.ret.
    search_simpl. reflexivity.
  - intros N1 N2 N3.
    handler_to_action Hb Hs. fold (entry_or d "action" (VStr "search")).
    fold action. rewrite N1, N2, N3.
    unfold Search.bind at 1.
    unfold Search.raise, Search.log_error, Search.emit, Search.bind, Search.ret.
    search_simpl. reflexivity.
Qed.

(** Price trends without airports, on the running example. *)
Lemma search_handler_refuses_witness :
  Search.lambda_handler search_world [("action", VStr "price_trends")] search_start
  = (Ok {| Search.statusCode := 500; Search.headers := error_headers;
           Search.content := Search.Failed None |},
     {| Search.trace :=
          [ Search.ELogError "Lambda execution error" ValueError;
            Search.EClient "elasticache" "us-east-1";
            Search.EClient "secretsmanager" "us-east-1" ];
        Search.db_connection := false |}).
Proof.
  apply (proj1 (search_handler_refuses search_world
                  [("action", VStr "price_trends")] search_start
                  [("action", VStr "price_trends")] search_service
                  {| Search.trace :=
                       [ Search.EClient "elasticache" "us-east-1";
                         Search.EClient "secretsmanager" "us-east-1" ];
                     Search.db_connection := false |}
                  eq_refl eq_refl)).
  - reflexivity.
  - left; reflexivity.
Defined.
